(** * Task form validation: server routes and browser validator

    A shallow embedding of
      - [src/main/routes/home.ts]: the Express handlers for creating and
        editing tasks, with their inline validation, and the two view
        helpers [formatTasksWithDates] and [formatSingleTask];
      - the browser script [task-validation.js]: the submit handler that
        validates the same form before it is sent.

    Both programs are JavaScript, so the embedding starts with the pieces of
    ECMAScript they rely on: strings as sequences of UTF-16 code units,
    [String.prototype.trim], [parseInt], and the [Date] object with its
    day/year arithmetic (ECMA-262, section 21.4.1).

    What the model fixes:
      - a Number is an integer or NaN (see [JS.Number]);
      - the host's zone is one fixed offset from UTC (see [ESDate.LocalTime]);
      - [Date.parse] knows the ISO format of the standard and nothing else;
      - the locale formatter of [Intl] is a parameter of the host;
      - the backend is a script of outcomes, one for each call a handler
        makes, and the clock moves only while a call is awaited. *)

From Stdlib Require Import ZArith List Bool Lia String Ascii.
From Stdlib Require Import DecimalString.
Import ListNotations.

Local Open Scope Z_scope.

(* ================================================================== *)
(** ** ECMAScript strings and numbers *)
(* ================================================================== *)

Module JS.

(** A string is a list of UTF-16 code units. *)
Definition jsstring := list N.

(** String literals of the sources, written as Rocq strings. *)
Definition js (s : string) : jsstring :=
  List.map N_of_ascii (list_ascii_of_string s).

Definition ch (a : ascii) : N := N_of_ascii a.

Definition jsstring_eq_dec (a b : jsstring) : {a = b} + {a <> b} :=
  list_eq_dec N.eq_dec a b.

Definition jsstring_eqb (a b : jsstring) : bool :=
  if jsstring_eq_dec a b then true else false.

(** WhiteSpace and LineTerminator code points (ECMA-262, 12.2 and 12.3):
    the characters [trim] and [parseInt] strip. *)
Definition isWhiteSpace (c : N) : bool :=
  ((c =? 9) || (c =? 10) || (c =? 11) || (c =? 12) || (c =? 13) || (c =? 32)
   || (c =? 160) || (c =? 5760) || ((8192 <=? c) && (c <=? 8202))
   || (c =? 8232) || (c =? 8233) || (c =? 8239) || (c =? 8287)
   || (c =? 12288) || (c =? 65279))%N.

Fixpoint trimStart (s : jsstring) : jsstring :=
  match s with
  | c :: s' => if isWhiteSpace c then trimStart s' else s
  | [] => []
  end.

Definition trimEnd (s : jsstring) : jsstring := rev (trimStart (rev s)).

(** [String.prototype.trim]. *)
Definition trim (s : jsstring) : jsstring := trimEnd (trimStart s).

(** Truthiness of a string value and of a possibly [undefined] one. *)
Definition truthy (s : jsstring) : bool :=
  match s with [] => false | _ => true end.

Definition truthy_opt (v : option jsstring) : bool :=
  match v with Some s => truthy s | None => false end.

(** A Number is either NaN ([None]) or an integer.  The programs only ever
    build Numbers from [parseInt] and from Date components and compare them
    with small constants; every integer that survives [TimeClip] is below
    2^53 and therefore exact as a double, and larger ones end as NaN in both
    readings, so exact integers lose nothing here. *)
Definition Number := option Z.
Definition NaN : Number := None.

Definition isNaN (x : Number) : bool :=
  match x with None => true | Some _ => false end.

Definition num_sub (x y : Number) : Number :=
  match x, y with Some a, Some b => Some (a - b) | _, _ => None end.

Definition num_add (x y : Number) : Number :=
  match x, y with Some a, Some b => Some (a + b) | _, _ => None end.

(** [x != y], [x !== y], [x < y], [x <= y], [x > y] on Numbers: every
    comparison with NaN is false, so [!=] with NaN is true. *)
Definition num_ne (x y : Number) : bool :=
  match x, y with Some a, Some b => negb (a =? b) | _, _ => true end.

Definition num_lt (x y : Number) : bool :=
  match x, y with Some a, Some b => a <? b | _, _ => false end.

Definition num_le (x y : Number) : bool :=
  match x, y with Some a, Some b => a <=? b | _, _ => false end.

Definition num_gt (x y : Number) : bool := num_lt y x.

(** Value of a code unit as a digit in the given radix, if it is one. *)
Definition digitValue (radix : Z) (c : N) : option Z :=
  let v :=
    if ((48 <=? c) && (c <=? 57))%N then Some (Z.of_N c - 48)
    else if ((97 <=? c) && (c <=? 122))%N then Some (Z.of_N c - 87)
    else if ((65 <=? c) && (c <=? 90))%N then Some (Z.of_N c - 55)
    else None in
  match v with
  | Some d => if d <? radix then Some d else None
  | None => None
  end.

(** Longest prefix of radix digits, folded into its value; [seen] records
    whether at least one digit was read. *)
Fixpoint parseDigits (radix : Z) (s : jsstring) (acc : Z) (seen : bool)
  : option Z :=
  match s with
  | c :: s' =>
      match digitValue radix c with
      | Some d => parseDigits radix s' (acc * radix + d) true
      | None => if seen then Some acc else None
      end
  | [] => if seen then Some acc else None
  end.

(** [parseInt(string)] with no radix argument (ECMA-262, 19.2.5): leading
    white space is skipped, a sign is read, a [0x]/[0X] prefix selects
    radix 16, then the longest digit prefix is converted; trailing text is
    ignored and an empty digit prefix gives NaN. *)
Definition parseInt (input : jsstring) : Number :=
  let s := trimStart input in
  let '(sign, s) :=
    match s with
    | c :: s' =>
        if (c =? ch "-")%N then (-1, s')
        else if (c =? ch "+")%N then (1, s')
        else (1, s)
    | [] => (1, s)
    end in
  let '(radix, s) :=
    match s with
    | c0 :: c1 :: s' =>
        if ((c0 =? ch "0") && ((c1 =? ch "x") || (c1 =? ch "X")))%N
        then (16, s') else (10, s)
    | _ => (10, s)
    end in
  match parseDigits radix s 0 false with
  | Some m => Some (sign * m)
  | None => NaN
  end.

(** [Number.prototype.toString()] on an integer: plain decimal digits with a
    leading minus sign (the form JavaScript uses below 1e21). *)
Definition Number_toString (n : Z) : jsstring :=
  js (NilZero.string_of_int (Z.to_int n)).

(** [String.prototype.padStart(targetLength, "0")]. *)
Definition padStart0 (targetLength : nat) (s : jsstring) : jsstring :=
  repeat (ch "0") (targetLength - List.length s) ++ s.

End JS.

Import JS.

(* ================================================================== *)
(** ** The Date object (ECMA-262, 21.4) *)
(* ================================================================== *)

Module ESDate.

(** Time values are integers: milliseconds since the epoch, UTC. *)
Definition msPerDay : Z := 86400000.
Definition msPerHour : Z := 3600000.
Definition msPerMinute : Z := 60000.
Definition msPerSecond : Z := 1000.

Definition Day (t : Z) : Z := t / msPerDay.
Definition TimeWithinDay (t : Z) : Z := t mod msPerDay.

Definition DaysInYear (y : Z) : Z :=
  if negb (y mod 4 =? 0) then 365
  else if negb (y mod 100 =? 0) then 366
  else if negb (y mod 400 =? 0) then 365
  else 366.

Definition DayFromYear (y : Z) : Z :=
  365 * (y - 1970) + (y - 1969) / 4 - (y - 1901) / 100 + (y - 1601) / 400.

Definition TimeFromYear (y : Z) : Z := msPerDay * DayFromYear y.

(** The largest year [y] with [TimeFromYear y <= t]: a first guess from the
    mean length of a Gregorian year, moved by at most one year. *)
Definition YearFromTime (t : Z) : Z :=
  let d := Day t in
  let y := 1970 + (400 * d) / 146097 in
  if d <? DayFromYear y then y - 1
  else if DayFromYear (y + 1) <=? d then y + 1
  else y.

(** 1 in a leap year, 0 otherwise. *)
Definition leapDays (y : Z) : Z := if DaysInYear y =? 366 then 1 else 0.

Definition InLeapYear (t : Z) : Z := leapDays (YearFromTime t).

Definition DayWithinYear (t : Z) : Z := Day t - DayFromYear (YearFromTime t).

(** Month number, 0 for January to 11 for December. *)
Definition MonthFromTime (t : Z) : Z :=
  let d := DayWithinYear t in
  let leap := InLeapYear t in
  if d <? 31 then 0
  else if d <? 59 + leap then 1
  else if d <? 90 + leap then 2
  else if d <? 120 + leap then 3
  else if d <? 151 + leap then 4
  else if d <? 181 + leap then 5
  else if d <? 212 + leap then 6
  else if d <? 243 + leap then 7
  else if d <? 273 + leap then 8
  else if d <? 304 + leap then 9
  else if d <? 334 + leap then 10
  else 11.

(** Number of days of the year that precede the first of month [m]. *)
Definition DaysBeforeMonth (leap m : Z) : Z :=
  if m =? 0 then 0
  else if m =? 1 then 31
  else if m =? 2 then 59 + leap
  else if m =? 3 then 90 + leap
  else if m =? 4 then 120 + leap
  else if m =? 5 then 151 + leap
  else if m =? 6 then 181 + leap
  else if m =? 7 then 212 + leap
  else if m =? 8 then 243 + leap
  else if m =? 9 then 273 + leap
  else if m =? 10 then 304 + leap
  else 334 + leap.

(** Number of days of month [m] (0 to 11) in a year with [leap] leap days. *)
Definition DaysInMonth (leap m : Z) : Z :=
  if m =? 1 then 28 + leap
  else if (m =? 3) || (m =? 5) || (m =? 8) || (m =? 10) then 30
  else 31.

(** Day of the month, 1 to 31. *)
Definition DateFromTime (t : Z) : Z :=
  DayWithinYear t - DaysBeforeMonth (InLeapYear t) (MonthFromTime t) + 1.

Definition HourFromTime (t : Z) : Z := (t / msPerHour) mod 24.
Definition MinFromTime (t : Z) : Z := (t / msPerMinute) mod 60.
Definition SecFromTime (t : Z) : Z := (t / msPerSecond) mod 60.
Definition msFromTime (t : Z) : Z := t mod msPerSecond.

(** The host's zone is a fixed offset [tza] from UTC, in milliseconds
    ([LocalTZA] of the standard, taken constant: one zone rule covers the
    dates being compared). *)
Definition LocalTime (tza t : Z) : Z := t + tza.
Definition UTC (tza t : Z) : Z := t - tza.

Definition MakeTime (hour min sec ms : Z) : Z :=
  hour * msPerHour + min * msPerMinute + sec * msPerSecond + ms.

(** [MakeDay]: months outside 0..11 carry into the year, and the day of the
    month is added as a plain offset, so day 31 of a 30-day month is the
    first of the next one. *)
Definition MakeDay (year month date : Z) : Z :=
  let ym := year + month / 12 in
  let mn := month mod 12 in
  DayFromYear ym + DaysBeforeMonth (leapDays ym) mn + date - 1.

Definition MakeDate (day time : Z) : Z := day * msPerDay + time.

Definition MakeFullYear (year : Z) : Z :=
  if (0 <=? year) && (year <=? 99) then 1900 + year else year.

Definition maxTime : Z := 8640000000000000.

Definition TimeClip (t : Z) : Number :=
  if maxTime <? Z.abs t then NaN else Some t.

(** A Date object is its [[DateValue]]: a time value or NaN. *)
Definition Date := Number.

(** [new Date(year, month, date)]: local midnight of that day. *)
Definition Date_ymd (tza : Z) (year month date : Number) : Date :=
  match year, month, date with
  | Some y, Some m, Some dt =>
      TimeClip (UTC tza (MakeDate (MakeDay (MakeFullYear y) m dt)
                                  (MakeTime 0 0 0 0)))
  | _, _, _ => NaN
  end.

Definition getDate (tza : Z) (d : Date) : Number :=
  option_map (fun t => DateFromTime (LocalTime tza t)) d.

Definition getMonth (tza : Z) (d : Date) : Number :=
  option_map (fun t => MonthFromTime (LocalTime tza t)) d.

Definition getFullYear (tza : Z) (d : Date) : Number :=
  option_map (fun t => YearFromTime (LocalTime tza t)) d.

(** [d.setHours(hour, min, sec, ms)]: the new [[DateValue]]. *)
Definition setHours (tza : Z) (d : Date) (hour min sec ms : Z) : Date :=
  match d with
  | Some tv =>
      let t := LocalTime tza tv in
      TimeClip (UTC tza (MakeDate (Day t) (MakeTime hour min sec ms)))
  | None => NaN
  end.

(** Relational operators on Dates compare the time values. *)
Definition date_lt (a b : Date) : bool := num_lt a b.
Definition date_le (a b : Date) : bool := num_le a b.

(** *** ISO 8601 text: [toISOString] and [Date.parse] *)

Definition digitChar (d : Z) : N := Z.to_N (48 + d).

(** The [k] low decimal digits of [n], most significant first. *)
Fixpoint fixedDigits (k : nat) (n : Z) : jsstring :=
  match k with
  | O => []
  | S k' => fixedDigits k' (n / 10) ++ [digitChar (n mod 10)]
  end.

(** [toISOString] of a valid time value: [YYYY-MM-DDTHH:mm:ss.sssZ], with a
    signed six-digit year outside 0..9999. *)
Definition ISOString (t : Z) : jsstring :=
  let y := YearFromTime t in
  let year :=
    if (0 <=? y) && (y <=? 9999) then fixedDigits 4 y
    else (if 0 <=? y then ch "+" else ch "-") :: fixedDigits 6 (Z.abs y) in
  year ++ [ch "-"] ++ fixedDigits 2 (MonthFromTime t + 1)
       ++ [ch "-"] ++ fixedDigits 2 (DateFromTime t)
       ++ [ch "T"] ++ fixedDigits 2 (HourFromTime t)
       ++ [ch ":"] ++ fixedDigits 2 (MinFromTime t)
       ++ [ch ":"] ++ fixedDigits 2 (SecFromTime t)
       ++ [ch "."] ++ fixedDigits 3 (msFromTime t)
       ++ [ch "Z"].

(** [d.toISOString()]; [None] is the RangeError thrown on an invalid Date. *)
Definition toISOString (d : Date) : option jsstring :=
  option_map ISOString d.

(** Exactly [k] decimal digits. *)
Fixpoint readDigits (k : nat) (s : jsstring) (acc : Z)
  : option (Z * jsstring) :=
  match k with
  | O => Some (acc, s)
  | S k' =>
      match s with
      | c :: s' =>
          match digitValue 10 c with
          | Some d => readDigits k' s' (acc * 10 + d)
          | None => None
          end
      | [] => None
      end
  end.

Definition startsWith (c : N) (s : jsstring) : option jsstring :=
  match s with
  | c' :: s' => if (c' =? c)%N then Some s' else None
  | [] => None
  end.

(** Year: four digits, or a sign and six digits ([-000000] is not a year). *)
Definition parseYear (s : jsstring) : option (Z * jsstring) :=
  match startsWith (ch "+") s with
  | Some s' => readDigits 6 s' 0
  | None =>
      match startsWith (ch "-") s with
      | Some s' =>
          match readDigits 6 s' 0 with
          | Some (y, r) => if y =? 0 then None else Some (- y, r)
          | None => None
          end
      | None => readDigits 4 s 0
      end
  end.

(** Optional [-MM] and [-DD]; each defaults to 1. *)
Definition parseMonthDay (s : jsstring) : option (Z * Z * jsstring) :=
  match startsWith (ch "-") s with
  | Some s1 =>
      match readDigits 2 s1 0 with
      | Some (mo, s2) =>
          match startsWith (ch "-") s2 with
          | Some s3 =>
              match readDigits 2 s3 0 with
              | Some (d, s4) => Some (mo, d, s4)
              | None => None
              end
          | None => Some (mo, 1, s2)
          end
      | None => None
      end
  | None => Some (1, 1, s)
  end.

(** [HH:mm], then optional [:ss] and [.sss]; the result is the time within
    the day in milliseconds.  Hour 24 is allowed only as [24:00:00.000]. *)
Definition parseTime (s : jsstring) : option (Z * jsstring) :=
  match readDigits 2 s 0 with
  | Some (h, s1) =>
      match startsWith (ch ":") s1 with
      | Some s2 =>
          match readDigits 2 s2 0 with
          | Some (mi, s3) =>
              let sec :=
                match startsWith (ch ":") s3 with
                | Some s4 =>
                    match readDigits 2 s4 0 with
                    | Some (se, s5) =>
                        match startsWith (ch ".") s5 with
                        | Some s6 =>
                            match readDigits 3 s6 0 with
                            | Some (ms, s7) => Some (se, ms, s7)
                            | None => None
                            end
                        | None => Some (se, 0, s5)
                        end
                    | None => None
                    end
                | None => Some (0, 0, s3)
                end in
              match sec with
              | Some (se, ms, r) =>
                  if (h <=? 24) && (mi <=? 59) && (se <=? 59)
                     && ((h <? 24) || ((mi =? 0) && (se =? 0) && (ms =? 0)))
                  then Some (MakeTime h mi se ms, r)
                  else None
              | None => None
              end
          | None => None
          end
      | None => None
      end
  | None => None
  end.

(** UTC offset: [Z], or [+HH:mm] / [-HH:mm]; [Some None] when the string
    ends without one (the time is then local). *)
Definition parseOffset (s : jsstring) : option (option Z) :=
  match s with
  | [] => Some None
  | c :: s1 =>
      if (c =? ch "Z")%N then
        match s1 with [] => Some (Some 0) | _ => None end
      else if ((c =? ch "+") || (c =? ch "-"))%N then
        match readDigits 2 s1 0 with
        | Some (h, s2) =>
            match startsWith (ch ":") s2 with
            | Some s3 =>
                match readDigits 2 s3 0 with
                | Some (mi, []) =>
                    if (h <=? 23) && (mi <=? 59) then
                      let off := h * msPerHour + mi * msPerMinute in
                      Some (Some (if (c =? ch "+")%N then off else - off))
                    else None
                | _ => None
                end
            | None => None
            end
        | None => None
        end
      else None
  end.

(** [Date.parse] on the Date Time String Format (21.4.1.32).  A date-only
    string is UTC; a date-time without offset is local time.  The day of
    the month is accepted up to 31 for every month and then carried by
    [MakeDay], as Node's engine does.  Strings outside the format go to an
    implementation-defined fallback in real engines; here they are NaN. *)
Definition Date_parse (tza : Z) (s : jsstring) : Number :=
  match parseYear s with
  | Some (y, s1) =>
      match parseMonthDay s1 with
      | Some (mo, d, s2) =>
          if (1 <=? mo) && (mo <=? 12) && (1 <=? d) && (d <=? 31) then
            let day := MakeDay y (mo - 1) d in
            match s2 with
            | [] => TimeClip (MakeDate day 0)
            | c :: s3 =>
                if (c =? ch "T")%N then
                  match parseTime s3 with
                  | Some (time, s4) =>
                      match parseOffset s4 with
                      | Some (Some off) =>
                          TimeClip (MakeDate day time - off)
                      | Some None =>
                          TimeClip (UTC tza (MakeDate day time))
                      | None => NaN
                      end
                  | None => NaN
                  end
                else NaN
            end
          else NaN
      | None => NaN
      end
  | None => NaN
  end.

(** [new Date(string)]. *)
Definition Date_of_string (tza : Z) (s : jsstring) : Date := Date_parse tza s.

End ESDate.

Import ESDate.

(* ================================================================== *)
(** ** Shared vocabulary of the two validators *)
(* ================================================================== *)

(** An entry of the error summary: [{ text, href }]. *)
Record FieldError := mkFieldError { text : jsstring; href : jsstring }.

(** [errors.push(e)]. *)
Definition push (errors : list FieldError) (e : FieldError)
  : list FieldError := errors ++ [e].

(** The host a program runs on: its zone offset and its [Intl] formatter
    for [toLocaleDateString('en-GB', { day, month, year, hour, minute })],
    which belongs to the runtime and is left open. *)
Record Host := mkHost {
  LocalTZA : Z;
  toLocaleDateString_enGB : Date -> jsstring
}.

(* ================================================================== *)
(** ** [src/main/routes/home.ts] *)
(* ================================================================== *)

Module Server.

(** [TaskFormData]: the parsed request body.  A field that was not sent is
    [undefined] ([None]). *)
Record TaskFormData := mkTaskFormData {
  title : option jsstring;
  description : option jsstring;
  status : option jsstring;
  due_date_day : option jsstring;
  due_date_month : option jsstring;
  due_date_year : option jsstring
}.

(** [TaskApiResponse]: a task as the backend returns it. *)
Record Task := mkTask {
  task_id : Z;
  task_title : jsstring;
  task_description : jsstring;
  task_status : jsstring;
  task_dueDate : option jsstring;
  task_createdAt : jsstring;
  task_updatedAt : jsstring
}.

(** [s?.trim()] and [parseInt(s)] on a value that may be [undefined]
    ([parseInt(undefined)] reads the text "undefined" and is NaN). *)
Definition trim_opt (v : option jsstring) : option jsstring :=
  option_map trim v.

Definition parseInt_opt (v : option jsstring) : Number :=
  match v with Some s => parseInt s | None => NaN end.

Definition title_required : FieldError :=
  mkFieldError (js "Title is required") (js "#title").
Definition description_required : FieldError :=
  mkFieldError (js "Description is required") (js "#description").
Definition date_incomplete : FieldError :=
  mkFieldError
    (js "Please enter a complete due date or leave all fields blank")
    (js "#due-date-day").
Definition date_invalid : FieldError :=
  mkFieldError (js "Please enter a valid due date") (js "#due-date-day").
Definition date_not_future : FieldError :=
  mkFieldError (js "Due date must be in the future") (js "#due-date-day").

(** The validation block of [POST /tasks/create] (lines 168 to 202), which
    [POST /tasks/:id/edit] repeats word for word (lines 274 to 308), as its
    three statements in turn; each takes the [errors] array as the earlier
    ones left it. *)

(** [if (!title?.trim()) errors.push(...)]. *)
Definition check_title (body : TaskFormData) (errors : list FieldError)
  : list FieldError :=
  if negb (truthy_opt (trim_opt (title body)))
  then push errors title_required else errors.

(** [if (!description?.trim()) errors.push(...)]. *)
Definition check_description (body : TaskFormData)
           (errors : list FieldError) : list FieldError :=
  if negb (truthy_opt (trim_opt (description body)))
  then push errors description_required else errors.

(** The due-date statement.  [now] is the value [new Date()] has when it
    runs.  The result is the [errors] array and [dueDate] ([None] is
    [null]); the outer [None] is the RangeError [toISOString] throws on an
    invalid Date. *)
Definition check_due_date (h : Host) (now : Z) (body : TaskFormData)
           (errors : list FieldError)
  : option (list FieldError * option jsstring) :=
  let tza := LocalTZA h in
  let dueDay := due_date_day body in
  let dueMonth := due_date_month body in
  let dueYear := due_date_year body in
  let dueDate : option jsstring := None in
  if truthy_opt dueDay || truthy_opt dueMonth || truthy_opt dueYear then
    if negb (truthy_opt dueDay) || negb (truthy_opt dueMonth)
       || negb (truthy_opt dueYear)
    then Some (push errors date_incomplete, dueDate)
    else
      let dateObj :=
        Date_ymd tza (parseInt_opt dueYear)
                 (num_sub (parseInt_opt dueMonth) (Some 1))
                 (parseInt_opt dueDay) in
      if num_ne (getDate tza dateObj) (parseInt_opt dueDay)
         || num_ne (getMonth tza dateObj)
                   (num_sub (parseInt_opt dueMonth) (Some 1))
      then Some (push errors date_invalid, dueDate)
      else
        let today := setHours tza (Some now) 0 0 0 0 in
        if date_le dateObj today
        then Some (push errors date_not_future, dueDate)
        else
          match toISOString dateObj with
          | Some iso => Some (errors, Some iso)
          | None => None
          end
  else Some (errors, dueDate).

Definition validate (h : Host) (now : Z) (body : TaskFormData)
  : option (list FieldError * option jsstring) :=
  check_due_date h now body (check_description body (check_title body [])).

(** *** View helpers *)

(** An element of [formatTasksWithDates]'s result: the task's own fields
    ([...task]) and the two computed ones. *)
Record ListedTask := mkListedTask {
  listed_task : Task;
  listed_formattedDueDate : option jsstring;
  listed_isOverdue : bool
}.

(** [new Date(task.dueDate) < now && task.status !== 'COMPLETED']. *)
Definition overdue (dueDate : Date) (now : Z) (status : jsstring) : bool :=
  date_lt dueDate (Some now) && negb (jsstring_eqb status (js "COMPLETED")).

Definition formatTasksWithDates (h : Host) (now : Z) (tasks : list Task)
  : list ListedTask :=
  List.map (fun task =>
    {| listed_task := task;
       listed_formattedDueDate :=
         match task_dueDate task with
         | Some s =>
             if truthy s
             then Some (toLocaleDateString_enGB h
                          (Date_of_string (LocalTZA h) s))
             else None
         | None => None
         end;
       listed_isOverdue :=
         match task_dueDate task with
         | Some s =>
             if truthy s
             then overdue (Date_of_string (LocalTZA h) s) now
                          (task_status task)
             else false
         | None => false
         end |}) tasks.

(** The result of [formatSingleTask]. *)
Record SingleTask := mkSingleTask {
  single_task : Task;
  formattedDueDate : option jsstring;
  formattedCreatedAt : jsstring;
  formattedUpdatedAt : jsstring;
  isOverdue : bool;
  dueDateDay : jsstring;
  dueDateMonth : jsstring;
  dueDateYear : jsstring
}.

(** [n.toString()] of a Number that may be NaN. *)
Definition toString_num (n : Number) : jsstring :=
  match n with Some z => Number_toString z | None => js "NaN" end.

Definition formatSingleTask (h : Host) (now : Z) (task : Task)
  : SingleTask :=
  let tza := LocalTZA h in
  (* [task.dueDate ? new Date(task.dueDate) : null] *)
  let dueDate : option Date :=
    match task_dueDate task with
    | Some s => if truthy s then Some (Date_of_string tza s) else None
    | None => None
    end in
  let createdAt := Date_of_string tza (task_createdAt task) in
  let updatedAt := Date_of_string tza (task_updatedAt task) in
  {| single_task := task;
     formattedDueDate := option_map (toLocaleDateString_enGB h) dueDate;
     formattedCreatedAt := toLocaleDateString_enGB h createdAt;
     formattedUpdatedAt := toLocaleDateString_enGB h updatedAt;
     isOverdue :=
       match dueDate with
       | Some d => overdue d now (task_status task)
       | None => false
       end;
     dueDateDay :=
       match dueDate with
       | Some d => padStart0 2 (toString_num (getDate tza d))
       | None => []
       end;
     dueDateMonth :=
       match dueDate with
       | Some d =>
           padStart0 2 (toString_num (num_add (getMonth tza d) (Some 1)))
       | None => []
       end;
     dueDateYear :=
       match dueDate with
       | Some d => toString_num (getFullYear tza d)
       | None => []
       end |}.

(** *** Request handlers *)

(** The body of a write sent to the backend. *)
Record Payload := mkPayload {
  p_title : jsstring;
  p_description : jsstring;
  p_status : option jsstring;
  p_dueDate : option jsstring
}.

Inductive Call :=
| GET (url : jsstring)
| POST (url : jsstring) (data : Payload)
| PUT (url : jsstring) (data : Payload).

(** What one [axios] call comes to: it resolves with response data, or
    rejects with the HTTP status of the response, if there was one.  Either
    way some time has passed. *)
Inductive Outcome :=
| Resolved (elapsed : Z) (data : Task)
| Rejected (elapsed : Z) (httpStatus : option Z).

(** The world a handler runs in: the clock, the outcomes the backend will
    give to the calls still to come, and the calls made so far. *)
Record World := mkWorld {
  clock : Z;
  backend : list Outcome;
  calls : list Call
}.

Inductive Exn :=
| AxiosError (httpStatus : option Z)
| TypeError
| RangeError.

(** Computations that read and change the world and may throw. *)
Definition M (A : Type) : Type := World -> (A + Exn) * World.

Definition ret {A} (a : A) : M A := fun w => (inl a, w).

Definition throw {A} (e : Exn) : M A := fun w => (inr e, w).

Definition bind {A B} (m : M A) (k : A -> M B) : M B :=
  fun w =>
    match m w with
    | (inl a, w') => k a w'
    | (inr e, w') => (inr e, w')
    end.

(** [try { m } catch (error) { handler }]. *)
Definition try_catch {A} (m : M A) (handler : Exn -> M A) : M A :=
  fun w =>
    match m w with
    | (inl a, w') => (inl a, w')
    | (inr e, w') => handler e w'
    end.

Notation "x <- m ;; k" := (bind m (fun x => k))
  (at level 61, m at next level, right associativity).
Notation "' pat <- m ;; k" := (bind m (fun x => let 'pat := x in k))
  (at level 61, pat pattern, m at next level, right associativity).
Notation "m ;;; k" := (bind m (fun _ => k))
  (at level 61, right associativity).

(** [new Date()] read off the clock. *)
Definition Date_now : M Z := fun w => (inl (clock w), w).

(** [await axios.get/post/put(...)]: the call is recorded and the next
    outcome of the backend is taken; a backend with nothing left to say
    does not answer. *)
Definition axios (c : Call) : M Task :=
  fun w =>
    match backend w with
    | Resolved dt data :: rest =>
        (inl data, mkWorld (clock w + dt) rest (calls w ++ [c]))
    | Rejected dt st :: rest =>
        (inr (AxiosError st), mkWorld (clock w + dt) rest (calls w ++ [c]))
    | [] => (inr (AxiosError None), mkWorld (clock w) [] (calls w ++ [c]))
    end.

Record Request := mkRequest {
  params_id : jsstring;
  body : TaskFormData;
  csrfToken : option jsstring
}.

(** The locals handed to [res.render]; a key that is not passed is [None]. *)
Record Locals := mkLocals {
  l_task : option SingleTask;
  l_errors : option (list FieldError);
  l_formData : option TaskFormData;
  l_error : option jsstring;
  l_message : option jsstring;
  l_csrfToken : option jsstring
}.

Inductive Response :=
| Render (view : jsstring) (locals : Locals)
| Redirect (url : jsstring).

(** [(req as any).csrfToken?.() || 'csrf-token-placeholder']. *)
Definition csrf (req : Request) : jsstring :=
  match csrfToken req with
  | Some t => if truthy t then t else js "csrf-token-placeholder"
  | None => js "csrf-token-placeholder"
  end.

(** [title.trim()] where [title] may be [undefined]. *)
Definition trim_or_throw (v : option jsstring) : M jsstring :=
  match v with Some s => ret (trim s) | None => throw TypeError end.

Definition run_validate (h : Host) (body : TaskFormData)
  : M (list FieldError * option jsstring) :=
  now <- Date_now ;;
  match validate h now body with
  | Some r => ret r
  | None => throw RangeError
  end.

Definition formatSingleTaskM (h : Host) (task : Task) : M SingleTask :=
  now <- Date_now ;;
  ret (formatSingleTask h now task).

Section Handlers.

Variable BACKEND_URL : jsstring.
Variable h : Host.

(** [app.post('/tasks/create', ...)]. *)
Definition post_tasks_create (req : Request) : M Response :=
  try_catch
    ('(errors, dueDate) <- run_validate h (body req) ;;
     if (0 <? Z.of_nat (List.length errors)) then
       ret (Render (js "tasks/create")
              {| l_task := None;
                 l_errors := Some errors;
                 l_formData := Some (body req);
                 l_error := None;
                 l_message := None;
                 l_csrfToken := Some (csrf req) |})
     else
       t <- trim_or_throw (title (body req)) ;;
       d <- trim_or_throw (description (body req)) ;;
       axios (POST (BACKEND_URL ++ js "/api/tasks")
                {| p_title := t;
                   p_description := d;
                   p_status :=
                     if truthy_opt (status (body req))
                     then status (body req) else Some (js "TODO");
                   p_dueDate := dueDate |}) ;;;
       ret (Redirect (js "/")))
    (fun _ =>
       ret (Render (js "tasks/create")
              {| l_task := None;
                 l_errors := None;
                 l_formData := Some (body req);
                 l_error := Some (js "Failed to create task. Please try again.");
                 l_message := None;
                 l_csrfToken := Some (csrf req) |})).

(** [app.post('/tasks/:id/edit', ...)]. *)
Definition post_tasks_edit (req : Request) : M Response :=
  let task_url := BACKEND_URL ++ js "/api/tasks/" ++ params_id req in
  try_catch
    ('(errors, dueDate) <- run_validate h (body req) ;;
     if (0 <? Z.of_nat (List.length errors)) then
       data <- axios (GET task_url) ;;
       task <- formatSingleTaskM h data ;;
       ret (Render (js "tasks/edit")
              {| l_task := Some task;
                 l_errors := Some errors;
                 l_formData := Some (body req);
                 l_error := None;
                 l_message := None;
                 l_csrfToken := Some (csrf req) |})
     else
       t <- trim_or_throw (title (body req)) ;;
       d <- trim_or_throw (description (body req)) ;;
       axios (PUT task_url
                {| p_title := t;
                   p_description := d;
                   p_status := status (body req);
                   p_dueDate := dueDate |}) ;;;
       ret (Redirect (js "/tasks/" ++ params_id req)))
    (fun _ =>
       try_catch
         (data <- axios (GET task_url) ;;
          task <- formatSingleTaskM h data ;;
          ret (Render (js "tasks/edit")
                 {| l_task := Some task;
                    l_errors := None;
                    l_formData := Some (body req);
                    l_error :=
                      Some (js "Failed to update task. Please try again.");
                    l_message := None;
                    l_csrfToken := Some (csrf req) |}))
         (fun _ =>
            ret (Render (js "error")
                   {| l_task := None;
                      l_errors := None;
                      l_formData := None;
                      l_error := None;
                      l_message := Some (js "Failed to update task");
                      l_csrfToken := None |}))).

End Handlers.

End Server.

(* ================================================================== *)
(** ** [task-validation.js]: the submit handler of a task form *)
(* ================================================================== *)

Module Client.

(** The form as the handler sees it: the [value] of each input it looks up
    with [form.querySelector], [None] when the form has no such element. *)
Record Form := mkForm {
  titleInput : option jsstring;
  descriptionInput : option jsstring;
  dayInput : option jsstring;
  monthInput : option jsstring;
  yearInput : option jsstring
}.

(** The elements the handler marks or attaches a message to; [DateGroup]
    is [dayInput.parentNode.parentNode.parentNode]. *)
Inductive Element :=
| TitleInput | DescriptionInput | DayInput | MonthInput | YearInput
| DateGroup.

(** What the handler has done so far: the [hasErrors] flag, the [errors]
    array, the inputs given an error class and the inline messages added
    with [addErrorMessage]. *)
Record State := mkState {
  hasErrors : bool;
  errors : list FieldError;
  marked : list Element;
  messages : list (Element * jsstring)
}.

Definition initial : State := mkState false [] [] [].

(** The four statements every failing check runs: set [hasErrors], add the
    error class to [inputs], add the inline message at [anchor], push the
    summary entry. *)
Definition fail (st : State) (inputs : list Element) (anchor : Element)
           (message hrefTo : jsstring) : State :=
  {| hasErrors := true;
     errors := push (errors st) (mkFieldError message hrefTo);
     marked := marked st ++ inputs;
     messages := messages st ++ [(anchor, message)] |}.

Definition check_title (form : Form) (st : State) : State :=
  match titleInput form with
  | Some value =>
      let title := trim value in
      if negb (truthy title) then
        fail st [TitleInput] TitleInput (js "Title is required") (js "#title")
      else if (List.length title <? 3)%nat then
        fail st [TitleInput] TitleInput
             (js "Title must be at least 3 characters long") (js "#title")
      else st
  | None => st
  end.

Definition check_description (form : Form) (st : State) : State :=
  match descriptionInput form with
  | Some value =>
      let description := trim value in
      if negb (truthy description) then
        fail st [DescriptionInput] DescriptionInput
             (js "Description is required") (js "#description")
      else if (List.length description <? 10)%nat then
        fail st [DescriptionInput] DescriptionInput
             (js "Description must be at least 10 characters long")
             (js "#description")
      else st
  | None => st
  end.

Definition fail_date (st : State) (message : jsstring) : State :=
  fail st [DayInput; MonthInput; YearInput] DateGroup message
       (js "#due-date-day").

Definition check_due_date (h : Host) (now : Z) (form : Form) (st : State)
  : State :=
  let tza := LocalTZA h in
  match dayInput form, monthInput form, yearInput form with
  | Some dayValue, Some monthValue, Some yearValue =>
      let day := trim dayValue in
      let month := trim monthValue in
      let year := trim yearValue in
      if truthy day || truthy month || truthy year then
        if negb (truthy day) || negb (truthy month) || negb (truthy year)
        then
          fail_date st
            (js "Please enter a complete due date or leave all fields blank")
        else
          let dayNum := parseInt day in
          let monthNum := parseInt month in
          let yearNum := parseInt year in
          if isNaN dayNum || isNaN monthNum || isNaN yearNum
             || num_lt dayNum (Some 1) || num_gt dayNum (Some 31)
             || num_lt monthNum (Some 1) || num_gt monthNum (Some 12)
             || num_lt yearNum (Some 2020)
          then fail_date st (js "Please enter a valid due date")
          else
            let dateObj :=
              Date_ymd tza yearNum (num_sub monthNum (Some 1)) dayNum in
            if num_ne (getDate tza dateObj) dayNum
               || num_ne (getMonth tza dateObj) (num_sub monthNum (Some 1))
            then fail_date st (js "Please enter a valid due date")
            else
              let today := setHours tza (Some now) 0 0 0 0 in
              if date_lt dateObj today
              then fail_date st (js "Due date cannot be in the past")
              else st
      else st
  | _, _, _ => st
  end.

(** The submit listener, run on a form whose earlier error styling has just
    been cleared.  [now] is the value of [new Date()]. *)
Definition on_submit (h : Host) (now : Z) (form : Form) : State :=
  check_due_date h now form
    (check_description form (check_title form initial)).

(** [e.preventDefault()] is called, and the summary shown, exactly when
    [hasErrors] is set. *)
Definition defaultPrevented (h : Host) (now : Z) (form : Form) : bool :=
  hasErrors (on_submit h now form).

End Client.

(* ================================================================== *)
(** ** One form, two validators *)
(* ================================================================== *)

(** The values a user typed into the task form. *)
Record TaskFormInput := mkTaskFormInput {
  in_title : jsstring;
  in_description : jsstring;
  in_status : jsstring;
  in_day : jsstring;
  in_month : jsstring;
  in_year : jsstring
}.

(** The body the browser submits for it. *)
Definition to_body (i : TaskFormInput) : Server.TaskFormData :=
  {| Server.title := Some (in_title i);
     Server.description := Some (in_description i);
     Server.status := Some (in_status i);
     Server.due_date_day := Some (in_day i);
     Server.due_date_month := Some (in_month i);
     Server.due_date_year := Some (in_year i) |}.

(** The form the submit listener reads it from. *)
Definition to_form (i : TaskFormInput) : Client.Form :=
  {| Client.titleInput := Some (in_title i);
     Client.descriptionInput := Some (in_description i);
     Client.dayInput := Some (in_day i);
     Client.monthInput := Some (in_month i);
     Client.yearInput := Some (in_year i) |}.

(** The errors each side reports. *)
Definition server_errors (h : Host) (now : Z) (body : Server.TaskFormData)
  : list FieldError :=
  match Server.validate h now body with
  | Some (errors, _) => errors
  | None => []
  end.

Definition client_errors (h : Host) (now : Z) (form : Client.Form)
  : list FieldError :=
  Client.errors (Client.on_submit h now form).

(** Rejection classes.  The two wordings of the date comparison, "must be
    in the future" on the server and "cannot be in the past" in the
    browser, are one class. *)
Inductive Category :=
| TitleRequired | TitleTooShort
| DescriptionRequired | DescriptionTooShort
| DateIncomplete | DateInvalid | DateNotFuture
| Unknown.

Definition says (e : FieldError) (s : string) : bool :=
  jsstring_eqb (text e) (js s).

Definition category (e : FieldError) : Category :=
  if says e "Title is required" then TitleRequired
  else if says e "Title must be at least 3 characters long"
  then TitleTooShort
  else if says e "Description is required" then DescriptionRequired
  else if says e "Description must be at least 10 characters long"
  then DescriptionTooShort
  else if says e "Please enter a complete due date or leave all fields blank"
  then DateIncomplete
  else if says e "Please enter a valid due date" then DateInvalid
  else if says e "Due date must be in the future" then DateNotFuture
  else if says e "Due date cannot be in the past" then DateNotFuture
  else Unknown.

(** The two validators agree on an input when they report the same classes
    in the same order; in particular both accept or both reject. *)
Definition validators_agree (h : Host) (now : Z) (i : TaskFormInput) : Prop :=
  List.map category (server_errors h now (to_body i))
  = List.map category (client_errors h now (to_form i)).

(** A string that [trim] leaves as it is. *)
Definition trimmed (s : jsstring) : Prop := trim s = s.

(** A non-empty string of white space only. *)
Definition whitespace_only (s : jsstring) : Prop := s <> [] /\ trim s = [].

(* ================================================================== *)
(** ** Vocabulary of the statements *)
(* ================================================================== *)

(** A string that does not begin with white space. *)
Definition headed (s : jsstring) : Prop :=
  match s with [] => True | c :: _ => isWhiteSpace c = false end.

(** A submitted field that is missing or the empty string. *)
Definition is_empty (v : option jsstring) : Prop := truthy_opt v = false.

(** [dateObj] as both validators build it from the three parsed fields, and
    [today] as both compute it. *)
Definition dateObj_of (tza : Z) (yN mN dN : Number) : Date :=
  Date_ymd tza yN (num_sub mN (Some 1)) dN.

Definition today_of (tza now : Z) : Date := setHours tza (Some now) 0 0 0 0.

(** The test both validators make on [dateObj]: its day of the month or its
    month is not the one that was typed. *)
Definition mismatch (tza : Z) (yN mN dN : Number) : bool :=
  let dateObj := Date_ymd tza yN (num_sub mN (Some 1)) dN in
  num_ne (getDate tza dateObj) dN
  || num_ne (getMonth tza dateObj) (num_sub mN (Some 1)).

(** The browser's test on the parsed numbers before it builds a Date. *)
Definition range_check (yN mN dN : Number) : bool :=
  isNaN dN || isNaN mN || isNaN yN
  || num_lt dN (Some 1) || num_gt dN (Some 31)
  || num_lt mN (Some 1) || num_gt mN (Some 12)
  || num_lt yN (Some 2020).

(** A parsed field that is NaN or lies outside [lo..hi]. *)
Definition outside (n : Number) (lo hi : Z) : Prop :=
  match n with Some v => v < lo \/ hi < v | None => True end.


(** The parsed triple is the calendar date that instant [t] falls on in the
    host's zone. *)
Definition denotes (tza t : Z) (yN mN dN : Number) : Prop :=
  dN = Some (DateFromTime (LocalTime tza t))
  /\ mN = Some (MonthFromTime (LocalTime tza t) + 1)
  /\ yN = Some (YearFromTime (LocalTime tza t)).

(** The clock reads a time at least a day inside the range of Date, and its
    local year is [year] or later. *)
Definition clock_ok (tza now year : Z) : Prop :=
  Z.abs now <= maxTime - msPerDay
  /\ year <= YearFromTime (LocalTime tza now).

(** A host to try things on: a zone one hour east of Greenwich, at
    2026-11-02T12:00:00Z, which is 13:00 there. *)
Definition sample_host : Host := mkHost 3600000 (fun _ => []).
Definition sample_now : Z := 1793620800000.

(** Whether the [n]-th call a handler makes to the backend resolves. *)
Definition resolves (w : Server.World) (n : nat) : bool :=
  match nth_error (Server.backend w) n with
  | Some (Server.Resolved _ _) => true
  | _ => false
  end.

(** The entries only the browser produces. *)
Definition title_too_short : FieldError :=
  mkFieldError (js "Title must be at least 3 characters long") (js "#title").
Definition description_too_short : FieldError :=
  mkFieldError (js "Description must be at least 10 characters long")
               (js "#description").
Definition date_in_past : FieldError :=
  mkFieldError (js "Due date cannot be in the past") (js "#due-date-day").

(** What the two validators are to report for one text field, server first:
    both report it missing when it is blank after trimming; otherwise the
    server reports nothing and the browser reports it too short when what
    is left has fewer than [min] characters. *)
Definition text_verdicts (required too_short : FieldError) (min : nat)
           (value : jsstring) : list FieldError * list FieldError :=
  if negb (truthy (trim value)) then ([required], [required])
  else if (List.length (trim value) <? min)%nat then ([], [too_short])
  else ([], []).

(** What the two validators are to report for the three due-date strings,
    server first.  They part in three rows: a year below 2020, which only
    the browser calls invalid while the server compares the date with
    today; a date before today, which each words in its own way; and a
    date that is today, which only the server rejects. *)
Definition date_verdicts (tza now : Z) (day month year : jsstring)
  : list FieldError * list FieldError :=
  let dN := parseInt day in
  let mN := parseInt month in
  let yN := parseInt year in
  let dateObj := dateObj_of tza yN mN dN in
  let today := today_of tza now in
  if negb (truthy day || truthy month || truthy year)
  then ([], [])
  else if negb (truthy day && truthy month && truthy year)
  then ([Server.date_incomplete], [Server.date_incomplete])
  else if mismatch tza yN mN dN
  then ([Server.date_invalid], [Server.date_invalid])
  else if num_lt yN (Some 2020)
  then (if date_le dateObj today then [Server.date_not_future] else [],
        [Server.date_invalid])
  else if date_lt dateObj today
  then ([Server.date_not_future], [date_in_past])
  else if date_le dateObj today
  then ([Server.date_not_future], [])
  else ([], []).

(* ================================================================== *)
(** ** [encodeURIComponent] (ECMA-262, 19.2.6) *)
(* ================================================================== *)

Module URI.

(** The characters [encodeURIComponent] leaves alone: letters, digits and
    [- _ . ! ~ * ' ( )]. *)
Definition isUnescaped (c : N) : bool :=
  (((48 <=? c) && (c <=? 57)) || ((65 <=? c) && (c <=? 90))
   || ((97 <=? c) && (c <=? 122))
   || (c =? 45) || (c =? 95) || (c =? 46) || (c =? 33) || (c =? 126)
   || (c =? 42) || (c =? 39) || (c =? 40) || (c =? 41))%N.

Definition isHighSurrogate (c : N) : bool := ((55296 <=? c) && (c <=? 56319))%N.
Definition isLowSurrogate (c : N) : bool := ((56320 <=? c) && (c <=? 57343))%N.

(** The UTF-8 octets of a code point. *)
Definition utf8 (cp : N) : list N :=
  (if cp <? 128 then [cp]
   else if cp <? 2048 then [192 + cp / 64; 128 + cp mod 64]
   else if cp <? 65536 then
     [224 + cp / 4096; 128 + (cp / 64) mod 64; 128 + cp mod 64]
   else
     [240 + cp / 262144; 128 + (cp / 4096) mod 64; 128 + (cp / 64) mod 64;
      128 + cp mod 64])%N.

Definition hexDigit (n : N) : N :=
  (let d := n mod 16 in if d <? 10 then 48 + d else 55 + d)%N.

(** [%XX] for one octet, in upper-case hexadecimal. *)
Definition escapeOctet (b : N) : jsstring :=
  [ch "%"; hexDigit (b / 16); hexDigit b].

Definition escapeCodePoint (cp : N) : jsstring :=
  List.concat (List.map escapeOctet (utf8 cp)).

(** [encodeURIComponent(s)]; [None] is the URIError thrown on a surrogate
    code unit that has no partner. *)
Fixpoint encodeURIComponent (s : jsstring) : option jsstring :=
  match s with
  | [] => Some []
  | c :: rest =>
      if isUnescaped c then option_map (cons c) (encodeURIComponent rest)
      else if isLowSurrogate c then None
      else if isHighSurrogate c then
        match rest with
        | c2 :: rest' =>
            if isLowSurrogate c2 then
              option_map
                (app (escapeCodePoint
                        ((c - 55296) * 1024 + (c2 - 56320) + 65536)%N))
                (encodeURIComponent rest')
            else None
        | [] => None
        end
      else option_map (app (escapeCodePoint c)) (encodeURIComponent rest)
  end.

End URI.

(* ================================================================== *)
(** ** The other routes of [home.ts] *)
(* ================================================================== *)

Module Routes.

(** [TaskStatistics], which the handlers pass through untouched. *)
Record TaskStatistics := mkTaskStatistics {
  totalTasks : Z;
  todoTasks : Z;
  inProgressTasks : Z;
  completedTasks : Z;
  cancelledTasks : Z;
  overdueTasks : Z
}.

(** The [data] of a backend response: an array of tasks, or a value that is
    not an array. *)
Inductive Data :=
| TaskListData (tasks : list Server.Task)
| TaskData (task : Server.Task)
| StatisticsData (statistics : TaskStatistics)
| OtherData (json : jsstring).

Inductive Request :=
| Get (url : jsstring)
| Patch (url : jsstring) (status : option jsstring)
| Delete (url : jsstring).

Inductive Answer :=
| Resolve (data : Data)
| Reject (httpStatus : option Z).

Inductive Error :=
| AxiosError (httpStatus : option Z)
| TypeError
| URIError.

(** What these handlers see of the world: the answer the backend gives to
    each request, and the requests issued so far. *)
Record Net := mkNet {
  answer : Request -> Answer;
  issued : list Request
}.

Definition Eff (A : Type) : Type := Net -> (A + Error) * Net.

Definition ret {A} (a : A) : Eff A := fun n => (inl a, n).

Definition throw {A} (e : Error) : Eff A := fun n => (inr e, n).

Definition bind {A B} (m : Eff A) (k : A -> Eff B) : Eff B :=
  fun n =>
    match m n with
    | (inl a, n') => k a n'
    | (inr e, n') => (inr e, n')
    end.

Definition try_catch {A} (m : Eff A) (handler : Error -> Eff A) : Eff A :=
  fun n =>
    match m n with
    | (inl a, n') => (inl a, n')
    | (inr e, n') => handler e n'
    end.

Notation "x <- m ;; k" := (bind m (fun x => k))
  (at level 61, m at next level, right associativity).
Notation "' pat <- m ;; k" := (bind m (fun x => let 'pat := x in k))
  (at level 61, pat pattern, m at next level, right associativity).
Notation "m ;;; k" := (bind m (fun _ => k))
  (at level 61, right associativity).

(** Issuing a request, and awaiting its response. *)
Definition send (r : Request) : Eff unit :=
  fun n => (inl tt, mkNet (answer n) (issued n ++ [r])).

Definition await (r : Request) : Eff Data :=
  fun n =>
    match answer n r with
    | Resolve d => (inl d, n)
    | Reject st => (inr (AxiosError st), n)
    end.

(** [await axios.get(url)] and its siblings. *)
Definition axios (r : Request) : Eff Data := send r ;;; await r.

(** [await Promise.all([axios.get(a), axios.get(b)])]: both requests are
    issued before either is awaited, and one rejection rejects the whole. *)
Definition axios_all (a b : Request) : Eff (Data * Data) :=
  send a ;;; send b ;;;
  x <- await a ;;
  y <- await b ;;
  ret (x, y).

(** [tasks.map(...)] needs an array. *)
Definition as_array (d : Data) : Eff (list Server.Task) :=
  match d with
  | TaskListData tasks => ret tasks
  | _ => throw TypeError
  end.

(** The locals of the [home] view; [None] is [null] or a key left out. *)
Record HomeLocals := mkHomeLocals {
  error : option jsstring;
  tasks : list Server.ListedTask;
  statistics : option Data;
  example : option Data;
  currentFilter : jsstring;
  searchTerm : option jsstring
}.

Inductive Body :=
| HomeView (locals : HomeLocals)
| OtherView (view : jsstring) (locals : Server.Locals)
| Location (url : jsstring).

(** A response: its status code and what it carries.  [res.render] answers
    200 unless [res.status] was set, [res.redirect] answers 302. *)
Record Reply := mkReply { statusCode : Z; body : Body }.

Definition render_home (locals : HomeLocals) : Reply :=
  mkReply 200 (HomeView locals).
Definition render (view : jsstring) (locals : Server.Locals) : Reply :=
  mkReply 200 (OtherView view locals).
Definition redirect (url : jsstring) : Reply := mkReply 302 (Location url).

Definition no_locals : Server.Locals :=
  Server.mkLocals None None None None None None.

Section Handlers.

Variable BACKEND_URL : jsstring.
Variable h : Host.

(** The value [new Date()] has inside [formatTasksWithDates]. *)
Variable now : Z.

Definition failed_home (message filter : jsstring)
           (term : option jsstring) : HomeLocals :=
  {| error := Some message;
     tasks := [];
     statistics := None;
     example := None;
     currentFilter := filter;
     searchTerm := term |}.

(** [app.get('/', ...)]. *)
Definition get_home : Eff Reply :=
  try_catch
    ('(tasksData, statsData) <-
       axios_all (Get (BACKEND_URL ++ js "/api/tasks"))
                 (Get (BACKEND_URL ++ js "/api/tasks/statistics")) ;;
     exampleCase <-
       try_catch
         (d <- axios (Get (BACKEND_URL ++ js "/get-example-case")) ;;
          ret (Some d))
         (fun _ => ret None) ;;
     list <- as_array tasksData ;;
     ret (render_home
            {| error := None;
               tasks := Server.formatTasksWithDates h now list;
               statistics := Some statsData;
               example := exampleCase;
               currentFilter := js "all";
               searchTerm := None |}))
    (fun _ =>
       ret (render_home
              (failed_home (js "Failed to load tasks. Please try again later.")
                           (js "all") None))).


(** [app.get('/tasks/search', ...)]; [q] is [req.query.q]. *)
Definition get_tasks_search (q : option jsstring) : Eff Reply :=
  try_catch
    (match q with
     | Some query =>
         if truthy query then
           encoded <- match URI.encodeURIComponent query with
                      | Some e => ret e
                      | None => throw URIError
                      end ;;
           '(tasksData, statsData) <-
             axios_all
               (Get (BACKEND_URL ++ js "/api/tasks/search?query=" ++ encoded))
               (Get (BACKEND_URL ++ js "/api/tasks/statistics")) ;;
           list <- as_array tasksData ;;
           ret (render_home
                  {| error := None;
                     tasks := Server.formatTasksWithDates h now list;
                     statistics := Some statsData;
                     example := None;
                     currentFilter := js "search";
                     searchTerm := Some query |})
         else ret (redirect (js "/"))
     | None => ret (redirect (js "/"))
     end)
    (fun _ =>
       ret (render_home
              (failed_home (js "Search failed. Please try again.")
                           (js "search") q))).

(** [app.post('/tasks/:id/status', ...)]; [status] is [req.body.status]. *)
Definition post_tasks_status (id : jsstring) (status : option jsstring)
  : Eff Reply :=
  try_catch
    (axios (Patch (BACKEND_URL ++ js "/api/tasks/" ++ id ++ js "/status")
                  status) ;;;
     ret (redirect (js "/tasks/" ++ id)))
    (fun _ => ret (redirect (js "/tasks/" ++ id))).

(** [app.post('/tasks/:id/delete', ...)]. *)
Definition post_tasks_delete (id : jsstring) : Eff Reply :=
  try_catch
    (axios (Delete (BACKEND_URL ++ js "/api/tasks/" ++ id)) ;;;
     ret (redirect (js "/")))
    (fun _ => ret (redirect (js "/tasks/" ++ id))).

(** [app.get('/tasks/create', ...)]. *)
Definition get_tasks_create (req : Server.Request) : Reply :=
  render (js "tasks/create")
    {| Server.l_task := None;
       Server.l_errors := None;
       Server.l_formData := None;
       Server.l_error := None;
       Server.l_message := None;
       Server.l_csrfToken := Some (Server.csrf req) |}.

(** The [catch] of the two routes that load one task: the not-found view
    with status 404 when the backend answered 404, the error view
    otherwise. *)
Definition load_failed (message : jsstring) (e : Server.Exn) : Reply :=
  match e with
  | Server.AxiosError (Some 404) => mkReply 404 (OtherView (js "not-found") no_locals)
  | _ =>
      render (js "error")
        {| Server.l_task := None;
           Server.l_errors := None;
           Server.l_formData := None;
           Server.l_error := None;
           Server.l_message := Some message;
           Server.l_csrfToken := None |}
  end.

Definition load_task (view message : jsstring) (req : Server.Request)
  : Server.M Reply :=
  Server.try_catch
    (Server.bind
       (Server.axios
          (Server.GET (BACKEND_URL ++ js "/api/tasks/" ++ Server.params_id req)))
       (fun data =>
          Server.bind (Server.formatSingleTaskM h data)
            (fun task =>
               Server.ret
                 (render view
                    {| Server.l_task := Some task;
                       Server.l_errors := None;
                       Server.l_formData := None;
                       Server.l_error := None;
                       Server.l_message := None;
                       Server.l_csrfToken := Some (Server.csrf req) |}))))
    (fun e => Server.ret (load_failed message e)).

(** [app.get('/tasks/:id', ...)]. *)
Definition get_task (req : Server.Request) : Server.M Reply :=
  load_task (js "tasks/view") (js "Failed to load task details") req.

(** [app.get('/tasks/:id/edit', ...)]. *)
Definition get_task_edit (req : Server.Request) : Server.M Reply :=
  load_task (js "tasks/edit") (js "Failed to load task for editing") req.

End Handlers.

End Routes.

(* ================================================================== *)
(** ** The rest of [task-validation.js] *)
(* ================================================================== *)

Module Page.

(** The submit listener of the search form: whether it prevents the
    submission.  [value] is the value of the [q] input, if the form has
    one. *)
Definition search_prevented (value : option jsstring) : bool :=
  match value with
  | Some v => negb (truthy (trim v))
  | None => false
  end.

End Page.

(* ================================================================== *)
(** ** More vocabulary of the statements *)
(* ================================================================== *)

(** What one check of the browser's listener does to the state: nothing, or
    the four statements of a failing check for a field with anchor
    [hrefTo]. *)
Definition steps (hrefTo : jsstring) (st st' : Client.State) : Prop :=
  st' = st
  \/ exists inputs anchor message,
       st' = Client.fail st inputs anchor message hrefTo.

(** The state the listener keeps is coherent: the flag is set exactly when
    there are errors, and the inline messages are the texts of the errors,
    in order. *)
Definition coherent (st : Client.State) : Prop :=
  Client.hasErrors st = negb (Nat.eqb (List.length (Client.errors st)) 0)
  /\ List.map snd (Client.messages st) = List.map text (Client.errors st).

(** A character that may appear in the output of [encodeURIComponent]:
    an unescaped one, or the percent sign of an escape. *)
Definition uri_safe (c : N) : Prop := URI.isUnescaped c = true \/ c = ch "%".

(** [f] holds at [z], [z + 1], ... for [fuel] integers in a row. *)
Fixpoint all_from (f : Z -> bool) (fuel : nat) (z : Z) : bool :=
  match fuel with
  | O => true
  | S k => f z && all_from f k (z + 1)
  end.

(** Reading back what [toString] printed, with and without [padStart]. *)
Definition reads_back (n : Z) : bool :=
  match parseInt (Number_toString n) with
  | Some v => v =? n
  | None => false
  end.

Definition reads_back_padded (n : Z) : bool :=
  match parseInt (padStart0 2 (Number_toString n)) with
  | Some v => (v =? n) && Nat.eqb (List.length (padStart0 2 (Number_toString n))) 2
  | None => false
  end.

(* ================================================================== *)
(** ** First checks on concrete inputs *)
(* ================================================================== *)

Example parseInt_15 : parseInt (js "15") = Some 15.
Proof. reflexivity. Qed.

Example parseInt_trailing : parseInt (js " 15abc") = Some 15.
Proof. reflexivity. Qed.

Example parseInt_hex : parseInt (js "0x7EA") = Some 2026.
Proof. reflexivity. Qed.

Example parseInt_nan : parseInt (js "abc") = NaN.
Proof. reflexivity. Qed.

Example trim_ex : trim (js "  a b ") = js "a b".
Proof. reflexivity. Qed.

Example toString_ex : padStart0 2 (Number_toString 5) = js "05".
Proof. reflexivity. Qed.

Example iso_ex : ISOString 1767225600000 = js "2026-01-01T00:00:00.000Z".
Proof. vm_compute. reflexivity. Qed.

Example parse_ex :
  Date_parse 0 (js "2024-12-31T10:00:00Z") = Some 1735639200000.
Proof. vm_compute. reflexivity. Qed.

Example parse_iso_ex :
  Date_parse 3600000 (js "2026-01-01T00:00:00.000Z") = Some 1767225600000.
Proof. vm_compute. reflexivity. Qed.

Example ymd_ex : Date_ymd 0 (Some 2026) (Some 0) (Some 1) = Some 1767225600000.
Proof. vm_compute. reflexivity. Qed.

(** Well-known instants: 1 January 2000, 29 February 2024, 1 January 1900
    and 1601, the last day a Date can hold and the day after, a two-digit
    year, and months that carry into the next and the previous year. *)
Example ymd_epochs :
  Date_ymd 0 (Some 2000) (Some 0) (Some 1) = Some 946684800000
  /\ Date_ymd 0 (Some 2024) (Some 1) (Some 29) = Some 1709164800000
  /\ Date_ymd 0 (Some 1900) (Some 0) (Some 1) = Some (-2208988800000)
  /\ Date_ymd 0 (Some 1601) (Some 0) (Some 1) = Some (-11644473600000)
  /\ Date_ymd 0 (Some 275760) (Some 8) (Some 13) = Some 8640000000000000
  /\ Date_ymd 0 (Some 275760) (Some 8) (Some 14) = NaN
  /\ Date_ymd 0 (Some 99) (Some 0) (Some 1) = Some 915148800000
  /\ option_map ISOString (Date_ymd 0 (Some 2026) (Some 13) (Some 1))
     = Some (js "2027-02-01T00:00:00.000Z")
  /\ option_map ISOString (Date_ymd 0 (Some 2026) (Some (-1)) (Some 0))
     = Some (js "2025-11-30T00:00:00.000Z").
Proof. repeat split; vm_compute; reflexivity. Qed.

Example parseInt_more :
  parseInt (js "-0x1F") = Some (-31) /\ parseInt (js "  +12px") = Some 12
  /\ parseInt (js "0x") = NaN /\ parseInt (js "-") = NaN
  /\ parseInt (js "1e3") = Some 1 /\ parseInt (js "012") = Some 12.
Proof. repeat split; reflexivity. Qed.

Example feb30 : getMonth 0 (Date_ymd 0 (Some 2024) (Some 1) (Some 30)) = Some 2
  /\ getDate 0 (Date_ymd 0 (Some 2024) (Some 1) (Some 30)) = Some 1.
Proof. vm_compute. auto. Qed.

Example y1970 :
  YearFromTime 0 = 1970 /\ YearFromTime (-1) = 1969
  /\ MonthFromTime (-1) = 11 /\ DateFromTime (-1) = 31.
Proof. vm_compute. auto. Qed.

(* ================================================================== *)
(** ** Calendar arithmetic *)
(* ================================================================== *)

Lemma DayFromYear_step y : DayFromYear (y + 1) = DayFromYear y + DaysInYear y.
Proof.
  unfold DayFromYear, DaysInYear.
  destruct (Z.eqb_spec (y mod 4) 0), (Z.eqb_spec (y mod 100) 0),
    (Z.eqb_spec (y mod 400) 0); cbn [negb];
    Z.div_mod_to_equations; lia.
Qed.

Lemma YearFromDay_bounds d :
  let y := 1970 + (400 * d) / 146097 in
  DayFromYear (y - 1) <= d < DayFromYear (y + 2).
Proof.
  cbv zeta. unfold DayFromYear. Z.div_mod_to_equations. lia.
Qed.

Lemma DayFromYear_lt y1 y2 : y1 < y2 -> DayFromYear y1 < DayFromYear y2.
Proof. unfold DayFromYear. intros. Z.div_mod_to_equations. lia. Qed.

Lemma DayFromYear_le y1 y2 : y1 <= y2 -> DayFromYear y1 <= DayFromYear y2.
Proof. unfold DayFromYear. intros. Z.div_mod_to_equations. lia. Qed.

Lemma YearFromTime_spec t :
  DayFromYear (YearFromTime t) <= Day t < DayFromYear (YearFromTime t + 1).
Proof.
  unfold YearFromTime. cbv zeta.
  pose proof (YearFromDay_bounds (Day t)) as B. cbv zeta in B.
  set (y := 1970 + 400 * Day t / 146097) in *.
  destruct (Z.ltb_spec (Day t) (DayFromYear y)).
  - replace (y - 1 + 1) with y by lia. lia.
  - destruct (Z.leb_spec (DayFromYear (y + 1)) (Day t)).
    + replace (y + 1 + 1) with (y + 2) by lia. lia.
    + lia.
Qed.

Lemma YearFromTime_unique t y :
  DayFromYear y <= Day t < DayFromYear (y + 1) -> YearFromTime t = y.
Proof.
  intros H. pose proof (YearFromTime_spec t) as S.
  destruct (Z.lt_trichotomy (YearFromTime t) y) as [L | [E | G]]; auto.
  - pose proof (DayFromYear_le (YearFromTime t + 1) y ltac:(lia)). lia.
  - pose proof (DayFromYear_le (y + 1) (YearFromTime t) ltac:(lia)). lia.
Qed.

Lemma Day_bounds t : Day t * msPerDay <= t < Day t * msPerDay + msPerDay.
Proof. unfold Day, msPerDay. Z.div_mod_to_equations. lia. Qed.

(** So [YearFromTime] is what the standard asks for: the largest year that
    starts at or before [t]. *)
Theorem YearFromTime_largest t :
  TimeFromYear (YearFromTime t) <= t
  /\ forall y, TimeFromYear y <= t -> y <= YearFromTime t.
Proof.
  pose proof (YearFromTime_spec t) as S. pose proof (Day_bounds t) as B.
  assert (P : 0 < msPerDay) by reflexivity.
  unfold TimeFromYear. split; [ nia | ].
  intros y H.
  destruct (Z.le_gt_cases y (YearFromTime t)) as [L | G]; [ exact L | ].
  pose proof (DayFromYear_le (YearFromTime t + 1) y ltac:(lia)). nia.
Qed.

Lemma DaysInYear_cases y : DaysInYear y = 365 \/ DaysInYear y = 366.
Proof.
  unfold DaysInYear.
  destruct (y mod 4 =? 0), (y mod 100 =? 0), (y mod 400 =? 0); cbn; auto.
Qed.

Lemma DayWithinYear_bounds t :
  0 <= DayWithinYear t < DaysInYear (YearFromTime t).
Proof.
  unfold DayWithinYear. pose proof (YearFromTime_spec t).
  rewrite DayFromYear_step in H. lia.
Qed.

Lemma leapDays_cases y :
  leapDays y = 0 /\ DaysInYear y = 365 \/ leapDays y = 1 /\ DaysInYear y = 366.
Proof.
  unfold leapDays. destruct (DaysInYear_cases y) as [E | E]; rewrite E; cbn; auto.
Qed.

Lemma InLeapYear_DaysInYear t :
  DaysInYear (YearFromTime t) = 365 + InLeapYear t.
Proof.
  unfold InLeapYear.
  destruct (leapDays_cases (YearFromTime t)) as [[L E] | [L E]]; lia.
Qed.

Lemma InLeapYear_cases t : InLeapYear t = 0 \/ InLeapYear t = 1.
Proof.
  unfold InLeapYear.
  destruct (leapDays_cases (YearFromTime t)) as [[L E] | [L E]]; auto.
Qed.

Ltac split_ltb :=
  repeat match goal with
  | |- context [ ?a <? ?b ] => destruct (Z.ltb_spec a b)
  | |- context [ ?a =? ?b ] => destruct (Z.eqb_spec a b)
  end.

Lemma MonthFromTime_range t : 0 <= MonthFromTime t <= 11.
Proof. unfold MonthFromTime. cbv zeta. split_ltb; lia. Qed.

Lemma DateFromTime_range t : 1 <= DateFromTime t <= 31.
Proof.
  unfold DateFromTime, MonthFromTime, DaysBeforeMonth. cbv zeta.
  pose proof (DayWithinYear_bounds t). rewrite InLeapYear_DaysInYear in H.
  destruct (InLeapYear_cases t) as [E | E]; rewrite E in *;
  repeat match goal with
  | |- context [ DayWithinYear t <? ?b ] =>
      destruct (Z.ltb_spec (DayWithinYear t) b); cbn [Z.eqb Pos.eqb]
  end; lia.
Qed.

Lemma MakeDay_of_time t :
  MakeDay (YearFromTime t) (MonthFromTime t) (DateFromTime t) = Day t.
Proof.
  pose proof (MonthFromTime_range t) as R.
  unfold MakeDay. cbv zeta.
  rewrite Z.div_small, Z.mod_small by lia. rewrite Z.add_0_r.
  fold (InLeapYear t). unfold DateFromTime, DayWithinYear. lia.
Qed.

Lemma Day_MakeDate day time :
  0 <= time < msPerDay -> Day (MakeDate day time) = day.
Proof.
  intros H. unfold Day, MakeDate.
  rewrite Z.add_comm, Z.div_add by (unfold msPerDay; lia).
  rewrite Z.div_small; lia.
Qed.

Lemma Day_ext_Year t1 t2 : Day t1 = Day t2 -> YearFromTime t1 = YearFromTime t2.
Proof. unfold YearFromTime. intros ->. reflexivity. Qed.

Lemma Day_ext_Month t1 t2 : Day t1 = Day t2 -> MonthFromTime t1 = MonthFromTime t2.
Proof.
  intros E. unfold MonthFromTime, DayWithinYear, InLeapYear.
  rewrite (Day_ext_Year _ _ E), E. reflexivity.
Qed.

Lemma Day_ext_Date t1 t2 : Day t1 = Day t2 -> DateFromTime t1 = DateFromTime t2.
Proof.
  intros E. unfold DateFromTime, DayWithinYear, InLeapYear.
  rewrite (Day_ext_Month _ _ E), (Day_ext_Year _ _ E), E. reflexivity.
Qed.

Lemma MakeDay_in_range y m d :
  0 <= m <= 11 -> MakeDay y m d = DayFromYear y + DaysBeforeMonth (leapDays y) m + d - 1.
Proof.
  intros. unfold MakeDay. cbv zeta.
  rewrite Z.div_small, Z.mod_small by lia. rewrite Z.add_0_r. reflexivity.
Qed.

Lemma MakeDay_year y m d t :
  0 <= m <= 11 -> 1 <= d <= 31 -> Day t = MakeDay y m d -> YearFromTime t = y.
Proof.
  intros Hm Hd E. apply YearFromTime_unique.
  rewrite E, MakeDay_in_range, DayFromYear_step by assumption.
  destruct (leapDays_cases y) as [[L Y] | [L Y]]; rewrite L, Y;
    unfold DaysBeforeMonth; split_ltb; lia.
Qed.

Lemma MakeDay_month_date y m d t :
  0 <= m <= 11 -> 1 <= d <= 31 -> Day t = MakeDay y m d ->
  (MonthFromTime t = m <-> d <= DaysInMonth (leapDays y) m)
  /\ (MonthFromTime t = m -> DateFromTime t = d).
Proof.
  intros Hm Hd E.
  pose proof (MakeDay_year _ _ _ _ Hm Hd E) as Y.
  assert (W : DayWithinYear t = DaysBeforeMonth (leapDays y) m + d - 1).
  { unfold DayWithinYear. rewrite Y, E, MakeDay_in_range by assumption. lia. }
  assert (L : InLeapYear t = leapDays y).
  { unfold InLeapYear, leapDays. rewrite Y. reflexivity. }
  split.
  - unfold MonthFromTime. cbv zeta. rewrite W, L.
    destruct (leapDays_cases y) as [[L' _] | [L' _]]; rewrite L';
    unfold DaysBeforeMonth, DaysInMonth;
    assert (M : m = 0 \/ m = 1 \/ m = 2 \/ m = 3 \/ m = 4 \/ m = 5 \/ m = 6
                \/ m = 7 \/ m = 8 \/ m = 9 \/ m = 10 \/ m = 11) by lia;
    repeat (destruct M as [M | M]; [subst m; cbn [Z.eqb Pos.eqb orb]; split_ltb; lia | ]);
    subst m; cbn [Z.eqb Pos.eqb orb]; split_ltb; lia.
  - intros M. unfold DateFromTime. rewrite W, L, M. lia.
Qed.

(** *** ISO text *)

Lemma digitChar_range d : 0 <= d <= 9 -> (48 <= digitChar d <= 57)%N.
Proof. unfold digitChar. lia. Qed.

Lemma digitValue_digitChar d : 0 <= d <= 9 -> digitValue 10 (digitChar d) = Some d.
Proof.
  intros H. pose proof (digitChar_range d H) as R. unfold digitValue.
  destruct (N.leb_spec 48 (digitChar d)); [ | lia ].
  destruct (N.leb_spec (digitChar d) 57); [ | lia ].
  cbn [andb]. replace (Z.of_N (digitChar d) - 48) with d by (unfold digitChar; lia).
  destruct (Z.ltb_spec d 10); [ reflexivity | lia ].
Qed.

Lemma readDigits_fixed k : forall j n rest acc,
  0 <= n < 10 ^ Z.of_nat k ->
  readDigits (k + j) (fixedDigits k n ++ rest) acc
  = readDigits j rest (acc * 10 ^ Z.of_nat k + n).
Proof.
  induction k as [ | k IH]; intros j n rest acc H.
  - cbn in *. f_equal. lia.
  - cbn [fixedDigits]. rewrite <- app_assoc. cbn [app].
    replace (S k + j)%nat with (k + S j)%nat by lia.
    rewrite Nat2Z.inj_succ, Z.pow_succ_r in H by lia.
    rewrite IH by (Z.div_mod_to_equations; lia).
    cbn [readDigits]. rewrite digitValue_digitChar by (Z.div_mod_to_equations; lia).
    f_equal. rewrite Nat2Z.inj_succ, Z.pow_succ_r by lia.
    Z.div_mod_to_equations. lia.
Qed.

Lemma readDigits_fixed0 k n rest :
  0 <= n < 10 ^ Z.of_nat k ->
  readDigits k (fixedDigits k n ++ rest) 0 = Some (n, rest).
Proof.
  intros H. replace k with (k + 0)%nat at 1 by lia.
  rewrite readDigits_fixed by assumption. reflexivity.
Qed.

Lemma startsWith_cons c s : startsWith c (c :: s) = Some s.
Proof. cbn. rewrite N.eqb_refl. reflexivity. Qed.

Lemma startsWith_fixed c k n rest :
  (c < 48 \/ 57 < c)%N -> startsWith c (fixedDigits (S k) n ++ rest) = None.
Proof.
  revert n rest. induction k as [ | k IH]; intros n rest H.
  - cbn. pose proof (digitChar_range (n mod 10) ltac:(Z.div_mod_to_equations; lia)).
    destruct (N.eqb_spec (digitChar (n mod 10)) c); [ lia | reflexivity ].
  - change (fixedDigits (S (S k)) n) with (fixedDigits (S k) (n / 10) ++ [digitChar (n mod 10)]).
    rewrite <- app_assoc. apply IH, H.
Qed.

Lemma time_decompose t :
  MakeDate (Day t)
    (MakeTime (HourFromTime t) (MinFromTime t) (SecFromTime t) (msFromTime t)) = t.
Proof.
  unfold MakeDate, MakeTime, Day, HourFromTime, MinFromTime, SecFromTime, msFromTime,
    msPerDay, msPerHour, msPerMinute, msPerSecond.
  Z.div_mod_to_equations. lia.
Qed.

Lemma time_fields_range t :
  0 <= HourFromTime t < 24 /\ 0 <= MinFromTime t < 60
  /\ 0 <= SecFromTime t < 60 /\ 0 <= msFromTime t < 1000.
Proof.
  unfold HourFromTime, MinFromTime, SecFromTime, msFromTime, msPerSecond.
  repeat split; Z.div_mod_to_equations; lia.
Qed.

Lemma YearFromTime_clip t :
  Z.abs t <= maxTime -> -271821 <= YearFromTime t <= 275760.
Proof.
  intros H. pose proof (YearFromTime_spec t) as S.
  assert (D : -100000000 <= Day t <= 100000000).
  { unfold Day, msPerDay. unfold maxTime in H. Z.div_mod_to_equations. lia. }
  split.
  - destruct (Z.le_gt_cases (-271821) (YearFromTime t)); auto.
    pose proof (DayFromYear_le (YearFromTime t + 1) (-271821) ltac:(lia)) as L.
    change (DayFromYear (-271821)) with (-100000109) in L. lia.
  - destruct (Z.le_gt_cases (YearFromTime t) 275760); auto.
    pose proof (DayFromYear_le 275761 (YearFromTime t) ltac:(lia)) as L.
    change (DayFromYear 275761) with 100000110 in L. lia.
Qed.

Lemma parseYear_ISO y rest :
  -999999 <= y <= 999999 ->
  parseYear ((if (0 <=? y) && (y <=? 9999) then fixedDigits 4 y
              else (if 0 <=? y then ch "+" else ch "-") :: fixedDigits 6 (Z.abs y))
             ++ rest) = Some (y, rest).
Proof.
  intros H. unfold parseYear.
  destruct (Z.leb_spec 0 y) as [P | P]; cbn [andb].
  - destruct (Z.leb_spec y 9999) as [Q | Q].
    + rewrite !startsWith_fixed by (cbn; lia).
      apply readDigits_fixed0. cbn. lia.
    + cbn [app]. rewrite startsWith_cons.
      rewrite readDigits_fixed0 by (cbn; lia). f_equal. f_equal. lia.
  - cbn [app]. change (startsWith (ch "+") (ch "-" :: ?s)) with (@None jsstring).
    rewrite startsWith_cons, readDigits_fixed0 by (cbn; lia).
    destruct (Z.eqb_spec (Z.abs y) 0); [ lia | ]. f_equal. f_equal. lia.
Qed.

Lemma parseMonthDay_ISO mo d rest :
  0 <= mo < 100 -> 0 <= d < 100 ->
  parseMonthDay (ch "-" :: fixedDigits 2 mo ++ ch "-" :: fixedDigits 2 d ++ rest)
  = Some (mo, d, rest).
Proof.
  intros Hm Hd. unfold parseMonthDay.
  rewrite startsWith_cons, readDigits_fixed0, startsWith_cons, readDigits_fixed0
    by (cbn; lia).
  reflexivity.
Qed.

Lemma parseTime_ISO hh mi se ms rest :
  0 <= hh < 24 -> 0 <= mi < 60 -> 0 <= se < 60 -> 0 <= ms < 1000 ->
  parseTime (fixedDigits 2 hh ++ ch ":" :: fixedDigits 2 mi ++ ch ":"
             :: fixedDigits 2 se ++ ch "." :: fixedDigits 3 ms ++ rest)
  = Some (MakeTime hh mi se ms, rest).
Proof.
  intros Hh Hm Hs Hms. unfold parseTime.
  rewrite readDigits_fixed0, startsWith_cons, readDigits_fixed0, startsWith_cons,
    readDigits_fixed0, startsWith_cons, readDigits_fixed0 by (cbn; lia).
  destruct (Z.leb_spec hh 24); [ | lia ].
  destruct (Z.leb_spec mi 59); [ | lia ].
  destruct (Z.leb_spec se 59); [ | lia ].
  destruct (Z.ltb_spec hh 24); [ | lia ].
  reflexivity.
Qed.

Theorem Date_parse_ISOString tza t :
  Z.abs t <= maxTime -> Date_parse tza (ISOString t) = Some t.
Proof.
  intros H.
  pose proof (YearFromTime_clip t H) as Y.
  pose proof (MonthFromTime_range t) as Mo.
  pose proof (DateFromTime_range t) as Dt.
  destruct (time_fields_range t) as (Hh & Hm & Hs & Hms).
  unfold Date_parse, ISOString. cbv zeta.
  rewrite parseYear_ISO by lia.
  cbn [app]. rewrite parseMonthDay_ISO by (auto; lia).
  destruct (Z.leb_spec 1 (MonthFromTime t + 1)); [ | lia ].
  destruct (Z.leb_spec (MonthFromTime t + 1) 12); [ | lia ].
  destruct (Z.leb_spec 1 (DateFromTime t)); [ | lia ].
  destruct (Z.leb_spec (DateFromTime t) 31); [ | lia ].
  cbn [andb]. rewrite N.eqb_refl.
  rewrite parseTime_ISO by assumption.
  cbn [parseOffset]. rewrite N.eqb_refl.
  replace (MonthFromTime t + 1 - 1) with (MonthFromTime t) by lia.
  rewrite MakeDay_of_time, time_decompose, Z.sub_0_r.
  unfold TimeClip. destruct (Z.ltb_spec maxTime (Z.abs t)); [ lia | reflexivity ].
Qed.

(* ================================================================== *)
(** ** Strings: [trim] and [parseInt] *)
(* ================================================================== *)

Lemma isWhiteSpace_not_digit c :
  isWhiteSpace c = true ->
  (c <> 43 /\ c <> 45 /\ (c < 48 \/ 122 < c))%N.
Proof.
  unfold isWhiteSpace. rewrite !orb_true_iff, andb_true_iff, !N.eqb_eq, !N.leb_le. lia.
Qed.

Lemma digitValue_ws radix c : isWhiteSpace c = true -> digitValue radix c = None.
Proof.
  intros W. apply isWhiteSpace_not_digit in W. unfold digitValue.
  destruct (N.leb_spec 48 c), (N.leb_spec c 57), (N.leb_spec 97 c), (N.leb_spec c 122),
    (N.leb_spec 65 c), (N.leb_spec c 90); cbn [andb]; try reflexivity; lia.
Qed.

Lemma trimStart_split s :
  exists w, Forall (fun c => isWhiteSpace c = true) w /\ s = w ++ trimStart s.
Proof.
  induction s as [ | c s IH]; cbn.
  - exists []. split; [ constructor | reflexivity ].
  - destruct (isWhiteSpace c) eqn:W.
    + destruct IH as (w & F & E). exists (c :: w). split; [ constructor; assumption | ].
      cbn. f_equal. exact E.
    + exists []. split; [ constructor | reflexivity ].
Qed.

Lemma trimStart_ws w : Forall (fun c => isWhiteSpace c = true) w -> trimStart w = [].
Proof. induction 1 as [ | c w W _ IH]; cbn; [ | rewrite W ]; auto. Qed.

Lemma trimStart_headed s : headed (trimStart s).
Proof.
  induction s as [ | c s IH]; cbn; [ exact I | ].
  destruct (isWhiteSpace c) eqn:W; [ exact IH | exact W ].
Qed.

Lemma trimStart_id s : headed s -> trimStart s = s.
Proof. destruct s as [ | c s]; cbn; [ reflexivity | intros -> ; reflexivity ]. Qed.

Lemma trimEnd_split s :
  exists w, Forall (fun c => isWhiteSpace c = true) w /\ s = trimEnd s ++ w.
Proof.
  unfold trimEnd. destruct (trimStart_split (rev s)) as (w & F & E).
  exists (rev w). split.
  - apply Forall_rev, F.
  - rewrite <- rev_app_distr, <- E, rev_involutive. reflexivity.
Qed.

Lemma parseDigits_app_ws radix w : Forall (fun c => isWhiteSpace c = true) w ->
  forall s acc seen, parseDigits radix (s ++ w) acc seen = parseDigits radix s acc seen.
Proof.
  intros F. induction s as [ | c s IH]; intros acc seen; cbn.
  - destruct F as [ | c w W _]; cbn; [ reflexivity | ].
    rewrite (digitValue_ws _ _ W). reflexivity.
  - destruct (digitValue radix c); [ apply IH | reflexivity ].
Qed.

Lemma parseInt_app_ws s w :
  headed s -> Forall (fun c => isWhiteSpace c = true) w ->
  parseInt (s ++ w) = parseInt s.
Proof.
  intros Hs F. unfold parseInt.
  rewrite (trimStart_id s Hs).
  destruct s as [ | c s].
  - cbn [app]. rewrite (trimStart_ws w F). reflexivity.
  - cbn [app]. cbn [headed] in Hs. cbn [trimStart]. rewrite Hs.
    assert (P : forall sign r,
      (let '(radix, s0) :=
         match r ++ w with
         | c0 :: c1 :: s' =>
             if ((c0 =? ch "0") && ((c1 =? ch "x") || (c1 =? ch "X")))%N
             then (16, s') else (10, r ++ w)
         | _ => (10, r ++ w)
         end in
       match parseDigits radix s0 0 false with
       | Some m => Some (sign * m) | None => NaN end)
      = (let '(radix, s0) :=
         match r with
         | c0 :: c1 :: s' =>
             if ((c0 =? ch "0") && ((c1 =? ch "x") || (c1 =? ch "X")))%N
             then (16, s') else (10, r)
         | _ => (10, r)
         end in
       match parseDigits radix s0 0 false with
       | Some m => Some (sign * m) | None => NaN end)).
    { intros sign r. destruct r as [ | c0 [ | c1 r]].
      - cbn [app]. destruct F as [ | a w Wa F]; [ reflexivity | ].
        pose proof (isWhiteSpace_not_digit a Wa) as Na.
        assert (Z0 : (a =? ch "0")%N = false) by (apply N.eqb_neq; cbn; lia).
        destruct w as [ | b w]; [ | rewrite Z0; cbn [andb] ];
          cbn [parseDigits]; rewrite (digitValue_ws _ _ Wa); reflexivity.
      - cbn [app]. destruct F as [ | a w Wa F]; [ reflexivity | ].
        pose proof (isWhiteSpace_not_digit a Wa) as Na.
        assert (X0 : (a =? ch "x")%N = false) by (apply N.eqb_neq; cbn; lia).
        assert (X1 : (a =? ch "X")%N = false) by (apply N.eqb_neq; cbn; lia).
        rewrite X0, X1, andb_false_r.
        change (c0 :: a :: w) with ([c0] ++ a :: w).
        rewrite parseDigits_app_ws by (constructor; assumption). reflexivity.
      - cbn [app]. destruct ((c0 =? ch "0") && ((c1 =? ch "x") || (c1 =? ch "X")))%N.
        + rewrite parseDigits_app_ws by assumption. reflexivity.
        + change (c0 :: c1 :: r ++ w) with ((c0 :: c1 :: r) ++ w).
          rewrite parseDigits_app_ws by assumption. reflexivity. }
    destruct (c =? ch "-")%N; [ apply P | ].
    destruct (c =? ch "+")%N; [ apply P | ].
    apply (P 1 (c :: s)).
Qed.

Lemma trim_split s :
  exists w1 w2, Forall (fun c => isWhiteSpace c = true) w1
    /\ Forall (fun c => isWhiteSpace c = true) w2
    /\ s = w1 ++ trim s ++ w2 /\ headed (trim s).
Proof.
  destruct (trimStart_split s) as (w1 & F1 & E1).
  destruct (trimEnd_split (trimStart s)) as (w2 & F2 & E2).
  exists w1, w2. repeat split; auto.
  - unfold trim. rewrite <- E2. exact E1.
  - pose proof (trimStart_headed s) as H. unfold trim.
    rewrite E2 in H. destruct (trimEnd (trimStart s)); [ exact I | exact H ].
Qed.

Lemma trimStart_app_ws w s :
  Forall (fun c => isWhiteSpace c = true) w -> trimStart (w ++ s) = trimStart s.
Proof. induction 1 as [ | c w W _ IH]; cbn; [ | rewrite W ]; auto. Qed.

Lemma parseInt_trimStart s : parseInt (trimStart s) = parseInt s.
Proof.
  unfold parseInt. rewrite (trimStart_id _ (trimStart_headed s)). reflexivity.
Qed.

Theorem parseInt_trim s : parseInt (trim s) = parseInt s.
Proof.
  destruct (trim_split s) as (w1 & w2 & F1 & F2 & E & H).
  rewrite E at 2.
  rewrite <- (parseInt_trimStart (w1 ++ _)), trimStart_app_ws by assumption.
  rewrite parseInt_trimStart, parseInt_app_ws by assumption. reflexivity.
Qed.

Lemma trim_nil_of_nil : trim [] = [].
Proof. reflexivity. Qed.

Lemma parseInt_nil : parseInt [] = NaN.
Proof. reflexivity. Qed.

Lemma parseInt_some_truthy s n : parseInt s = Some n -> truthy (trim s) = true /\ truthy s = true.
Proof.
  intros E. split.
  - rewrite <- parseInt_trim in E. destruct (trim s); [ discriminate | reflexivity ].
  - destruct s; [ discriminate | reflexivity ].
Qed.

Lemma whitespace_only_truthy s : whitespace_only s -> truthy s = true.
Proof. intros [N _]. destruct s; [ contradiction | reflexivity ]. Qed.

Lemma truthy_trim s : truthy (trim s) = true -> truthy s = true.
Proof. destruct s; [ discriminate | reflexivity ]. Qed.

(* ================================================================== *)
(** ** Building a Date and reading it back *)
(* ================================================================== *)

Lemma TimeClip_some t tv : TimeClip t = Some tv -> tv = t /\ Z.abs t <= maxTime.
Proof.
  unfold TimeClip. destruct (Z.ltb_spec maxTime (Z.abs t)); [ discriminate | ].
  intros [= <-]. auto.
Qed.

Lemma TimeClip_ok t : Z.abs t <= maxTime -> TimeClip t = Some t.
Proof.
  intros H. unfold TimeClip. destruct (Z.ltb_spec maxTime (Z.abs t)); [ lia | reflexivity ].
Qed.

Lemma Date_ymd_midnight tza y m d :
  Date_ymd tza (Some y) (Some m) (Some d)
  = TimeClip (MakeDay (MakeFullYear y) m d * msPerDay - tza).
Proof.
  unfold Date_ymd, UTC, MakeDate, MakeTime. f_equal. lia.
Qed.

Lemma Day_midnight day : Day (day * msPerDay) = day.
Proof. unfold Day. apply Z.div_mul. discriminate. Qed.

Lemma getDate_some tza tv :
  getDate tza (Some tv) = Some (DateFromTime (LocalTime tza tv)).
Proof. reflexivity. Qed.

Lemma getMonth_some tza tv :
  getMonth tza (Some tv) = Some (MonthFromTime (LocalTime tza tv)).
Proof. reflexivity. Qed.

Lemma getFullYear_some tza tv :
  getFullYear tza (Some tv) = Some (YearFromTime (LocalTime tza tv)).
Proof. reflexivity. Qed.

Lemma num_ne_false a b : num_ne a b = false -> exists n, a = Some n /\ b = Some n.
Proof.
  destruct a as [x | ], b as [y | ]; try discriminate. cbn.
  intros H. apply negb_false_iff, Z.eqb_eq in H. subst. eauto.
Qed.

Lemma LocalTime_UTC tza t : LocalTime tza (t - tza) = t.
Proof. unfold LocalTime. lia. Qed.

Lemma match_sound tza yN mN dN :
  mismatch tza yN mN dN = false ->
  exists y m d tv,
    yN = Some y /\ mN = Some m /\ dN = Some d
    /\ Date_ymd tza yN (num_sub mN (Some 1)) dN = Some tv
    /\ Z.abs tv <= maxTime
    /\ LocalTime tza tv = MakeDay (MakeFullYear y) (m - 1) d * msPerDay
    /\ 1 <= m <= 12
    /\ 1 <= d <= DaysInMonth (leapDays (MakeFullYear y)) (m - 1)
    /\ YearFromTime (LocalTime tza tv) = MakeFullYear y
    /\ MonthFromTime (LocalTime tza tv) = m - 1
    /\ DateFromTime (LocalTime tza tv) = d.
Proof.
  unfold mismatch. intros H. apply orb_false_elim in H. destruct H as [Hd Hm].
  apply num_ne_false in Hd, Hm.
  destruct Hd as (d & Gd & ->). destruct Hm as (m1 & Gm & Em).
  destruct mN as [m | ]; [ | discriminate Em ].
  destruct yN as [y | ]; [ | discriminate Gd ].
  injection Em as Em. subst m1.
  unfold num_sub in Gd, Gm. rewrite Date_ymd_midnight in Gd, Gm.
  unfold num_sub. rewrite Date_ymd_midnight.
  destruct (TimeClip _) as [tv | ] eqn:C; [ | discriminate Gd ].
  apply TimeClip_some in C. destruct C as [-> C].
  rewrite getDate_some in Gd. rewrite getMonth_some in Gm.
  rewrite LocalTime_UTC in Gd, Gm. injection Gd as Gd. injection Gm as Gm.
  pose proof (DateFromTime_range (MakeDay (MakeFullYear y) (m - 1) d * msPerDay)) as Rd.
  pose proof (MonthFromTime_range (MakeDay (MakeFullYear y) (m - 1) d * msPerDay)) as Rm.
  pose proof (Day_midnight (MakeDay (MakeFullYear y) (m - 1) d)) as DX.
  pose proof (MakeDay_year (MakeFullYear y) (m - 1) d _ ltac:(lia) ltac:(lia) DX) as Y.
  destruct (MakeDay_month_date (MakeFullYear y) (m - 1) d _ ltac:(lia) ltac:(lia) DX) as [MI _].
  exists y, m, d, (MakeDay (MakeFullYear y) (m - 1) d * msPerDay - tza).
  rewrite LocalTime_UTC.
  repeat split; auto; try lia; apply MI; exact Gm.
Qed.

Lemma DaysInMonth_le_31 leap m : leap = 0 \/ leap = 1 -> DaysInMonth leap m <= 31.
Proof.
  intros L. unfold DaysInMonth.
  destruct (m =? 1); [ lia | ]. destruct ((m =? 3) || (m =? 5) || (m =? 8) || (m =? 10)); lia.
Qed.

Lemma match_complete tza y m d :
  1 <= m <= 12 ->
  1 <= d <= DaysInMonth (leapDays (MakeFullYear y)) (m - 1) ->
  Z.abs (MakeDay (MakeFullYear y) (m - 1) d * msPerDay - tza) <= maxTime ->
  mismatch tza (Some y) (Some m) (Some d) = false.
Proof.
  intros Hm Hd C. unfold mismatch, num_sub.
  rewrite Date_ymd_midnight, TimeClip_ok by assumption.
  rewrite getDate_some, getMonth_some, LocalTime_UTC.
  pose proof (Day_midnight (MakeDay (MakeFullYear y) (m - 1) d)) as DX.
  assert (D31 : d <= 31).
  { pose proof (DaysInMonth_le_31 (leapDays (MakeFullYear y)) (m - 1)) as B.
    destruct (leapDays_cases (MakeFullYear y)) as [[L _] | [L _]]; lia. }
  destruct (MakeDay_month_date (MakeFullYear y) (m - 1) d _ ltac:(lia) ltac:(lia) DX) as [MI MD].
  assert (M : MonthFromTime (MakeDay (MakeFullYear y) (m - 1) d * msPerDay)
              = m - 1) by (apply MI; lia).
  rewrite M, (MD M). unfold num_ne. rewrite !Z.eqb_refl. reflexivity.
Qed.

(* ================================================================== *)
(** ** The due-date checks, case by case *)
(* ================================================================== *)

Section ServerDueDate.

Variables (h : Host) (now : Z) (body : Server.TaskFormData).
Variable errors : list FieldError.

Let tza := LocalTZA h.
Let dd := Server.due_date_day body.
Let mm := Server.due_date_month body.
Let yy := Server.due_date_year body.
Let dN := Server.parseInt_opt dd.
Let mN := Server.parseInt_opt mm.
Let yN := Server.parseInt_opt yy.

Lemma server_absent :
  is_empty dd -> is_empty mm -> is_empty yy ->
  Server.check_due_date h now body errors = Some (errors, None).
Proof.
  unfold is_empty, dd, mm, yy, Server.check_due_date. intros -> -> ->. reflexivity.
Qed.

Lemma server_incomplete :
  is_empty dd \/ is_empty mm \/ is_empty yy ->
  ~ (is_empty dd /\ is_empty mm /\ is_empty yy) ->
  Server.check_due_date h now body errors
  = Some (push errors Server.date_incomplete, None).
Proof.
  unfold is_empty, dd, mm, yy, Server.check_due_date. intros H N.
  destruct (truthy_opt (Server.due_date_day body)),
    (truthy_opt (Server.due_date_month body)),
    (truthy_opt (Server.due_date_year body)); cbn [orb negb];
    try reflexivity; exfalso;
    first [ tauto | destruct H as [H | [H | H]]; discriminate H ].
Qed.

Lemma server_complete_cases :
  truthy_opt dd = true -> truthy_opt mm = true -> truthy_opt yy = true ->
  Server.check_due_date h now body errors
  = if mismatch tza yN mN dN
    then Some (push errors Server.date_invalid, None)
    else if date_le (dateObj_of tza yN mN dN) (today_of tza now)
         then Some (push errors Server.date_not_future, None)
         else match toISOString (dateObj_of tza yN mN dN) with
              | Some iso => Some (errors, Some iso)
              | None => None
              end.
Proof.
  unfold dd, mm, yy, Server.check_due_date. intros -> -> ->. reflexivity.
Qed.

End ServerDueDate.

Section ClientDueDate.

Variables (h : Host) (now : Z) (form : Client.Form) (st : Client.State).
Variables dayValue monthValue yearValue : jsstring.
Hypothesis Hday : Client.dayInput form = Some dayValue.
Hypothesis Hmonth : Client.monthInput form = Some monthValue.
Hypothesis Hyear : Client.yearInput form = Some yearValue.

Let tza := LocalTZA h.
Let dN := parseInt dayValue.
Let mN := parseInt monthValue.
Let yN := parseInt yearValue.

Lemma client_absent :
  trim dayValue = [] -> trim monthValue = [] -> trim yearValue = [] ->
  Client.check_due_date h now form st = st.
Proof.
  unfold Client.check_due_date. rewrite Hday, Hmonth, Hyear.
  intros -> -> ->. reflexivity.
Qed.

Lemma client_incomplete :
  trim dayValue = [] \/ trim monthValue = [] \/ trim yearValue = [] ->
  ~ (trim dayValue = [] /\ trim monthValue = [] /\ trim yearValue = []) ->
  Client.check_due_date h now form st
  = Client.fail_date st
      (js "Please enter a complete due date or leave all fields blank").
Proof.
  unfold Client.check_due_date. rewrite Hday, Hmonth, Hyear. intros H N.
  destruct (trim dayValue), (trim monthValue), (trim yearValue); cbn [truthy orb negb];
    try reflexivity; exfalso;
    first [ tauto | destruct H as [H | [H | H]]; discriminate H ].
Qed.

Lemma client_complete_cases :
  truthy (trim dayValue) = true -> truthy (trim monthValue) = true ->
  truthy (trim yearValue) = true ->
  Client.check_due_date h now form st
  = if range_check yN mN dN
    then Client.fail_date st (js "Please enter a valid due date")
    else if mismatch tza yN mN dN
    then Client.fail_date st (js "Please enter a valid due date")
    else if date_lt (dateObj_of tza yN mN dN) (today_of tza now)
    then Client.fail_date st (js "Due date cannot be in the past")
    else st.
Proof.
  unfold Client.check_due_date. rewrite Hday, Hmonth, Hyear. intros -> -> ->.
  unfold yN, mN, dN. rewrite <- !parseInt_trim with (s := dayValue),
    <- !parseInt_trim with (s := monthValue), <- !parseInt_trim with (s := yearValue).
  reflexivity.
Qed.

End ClientDueDate.

(* ================================================================== *)
(** ** Server validation as a whole *)
(* ================================================================== *)

(** The server's three statements only ever append. *)
Lemma check_title_app body errors :
  Server.check_title body errors
  = errors ++ (if negb (truthy_opt (Server.trim_opt (Server.title body)))
               then [Server.title_required] else []).
Proof.
  unfold Server.check_title, push.
  destruct (negb _); [ reflexivity | rewrite app_nil_r; reflexivity ].
Qed.

Lemma check_description_app body errors :
  Server.check_description body errors
  = errors ++ (if negb (truthy_opt (Server.trim_opt (Server.description body)))
               then [Server.description_required] else []).
Proof.
  unfold Server.check_description, push.
  destruct (negb _); [ reflexivity | rewrite app_nil_r; reflexivity ].
Qed.

Lemma dateObj_of_valid tza yN mN dN :
  mismatch tza yN mN dN = false -> exists tv, dateObj_of tza yN mN dN = Some tv.
Proof.
  intros H. destruct (match_sound _ _ _ _ H) as (y & m & d & tv & _ & _ & _ & E & _).
  exists tv. exact E.
Qed.

(** The due-date statement on its own: what it appends and the [dueDate] it
    leaves do not depend on the errors found before it. *)
Lemma check_due_date_app h now body errors :
  exists dateErrors dueDate,
    (List.length dateErrors <= 1)%nat
    /\ Server.check_due_date h now body [] = Some (dateErrors, dueDate)
    /\ Server.check_due_date h now body errors = Some (errors ++ dateErrors, dueDate)
    /\ (dateErrors = [] \/ dueDate = None).
Proof.
  destruct (truthy_opt (Server.due_date_day body)) eqn:Ed;
  destruct (truthy_opt (Server.due_date_month body)) eqn:Em;
  destruct (truthy_opt (Server.due_date_year body)) eqn:Ey.
  1: { rewrite !server_complete_cases by assumption.
       destruct (mismatch _ _ _ _) eqn:Mi.
       - exists [Server.date_invalid], None. cbn. auto.
       - destruct (date_le _ _).
         + exists [Server.date_not_future], None. cbn. auto.
         + destruct (dateObj_of_valid _ _ _ _ Mi) as (tv & ->). cbn [toISOString option_map].
           exists [], (Some (ISOString tv)). rewrite app_nil_r. cbn. auto. }
  7: { rewrite !server_absent by assumption. exists [], None. rewrite app_nil_r. cbn. auto. }
  all: rewrite !server_incomplete
         by (unfold is_empty; first [ tauto | intros (A & B & C); congruence ]);
       exists [Server.date_incomplete], None; cbn; auto.
Qed.

Lemma validate_total h now body :
  exists errors dueDate, Server.validate h now body = Some (errors, dueDate).
Proof.
  unfold Server.validate.
  destruct (check_due_date_app h now body
              (Server.check_description body (Server.check_title body [])))
    as (de & due & _ & _ & E & _).
  eauto.
Qed.

Lemma validate_server_errors h now body :
  exists dueDate, Server.validate h now body = Some (server_errors h now body, dueDate).
Proof.
  unfold server_errors. destruct (validate_total h now body) as (e & d & ->). eauto.
Qed.

Lemma validate_errors_split h now body :
  exists dateErrors dueDate,
    Server.validate h now body
    = Some ((if negb (truthy_opt (Server.trim_opt (Server.title body)))
             then [Server.title_required] else [])
            ++ (if negb (truthy_opt (Server.trim_opt (Server.description body)))
                then [Server.description_required] else [])
            ++ dateErrors, dueDate)
    /\ Server.check_due_date h now body [] = Some (dateErrors, dueDate).
Proof.
  unfold Server.validate.
  destruct (check_due_date_app h now body
              (Server.check_description body (Server.check_title body [])))
    as (de & due & _ & E0 & E & _).
  exists de, due. split; [ | exact E0 ].
  rewrite E, check_description_app, check_title_app, <- app_assoc. reflexivity.
Qed.

Lemma no_errors_texts h now body :
  server_errors h now body = [] ->
  exists t d, Server.title body = Some t /\ Server.description body = Some d.
Proof.
  unfold server_errors.
  destruct (validate_errors_split h now body) as (de & due & -> & _).
  destruct (Server.title body) as [t | ], (Server.description body) as [d | ];
    cbn [Server.trim_opt option_map truthy_opt negb]; try discriminate.
  - intros _. eauto.
  - destruct (negb _); discriminate.
Qed.

Lemma run_validate_run h body w :
  exists dueDate,
    Server.validate h (Server.clock w) body
    = Some (server_errors h (Server.clock w) body, dueDate)
    /\ Server.run_validate h body w
       = (inl (server_errors h (Server.clock w) body, dueDate), w).
Proof.
  destruct (validate_server_errors h (Server.clock w) body) as (due & E).
  exists due. split; [ exact E | ].
  unfold Server.run_validate, Server.bind, Server.Date_now. rewrite E. reflexivity.
Qed.

Lemma has_errors (errors : list FieldError) :
  (0 <? Z.of_nat (List.length errors)) = match errors with [] => false | _ => true end.
Proof. destruct errors; reflexivity. Qed.

Lemma axios_run c w :
  Server.axios c w
  = match Server.backend w with
    | Server.Resolved dt data :: rest =>
        (inl data, Server.mkWorld (Server.clock w + dt) rest (Server.calls w ++ [c]))
    | Server.Rejected dt st :: rest =>
        (inr (Server.AxiosError st),
         Server.mkWorld (Server.clock w + dt) rest (Server.calls w ++ [c]))
    | [] => (inr (Server.AxiosError None),
             Server.mkWorld (Server.clock w) [] (Server.calls w ++ [c]))
    end.
Proof. reflexivity. Qed.

(* ================================================================== *)
(** ** Invalid dates *)
(* ================================================================== *)

Lemma mismatch_cases tza yN mN dN :
  mismatch tza yN mN dN = true \/ mismatch tza yN mN dN = false.
Proof. destruct (mismatch tza yN mN dN); auto. Qed.

Lemma mismatch_outside tza yN mN dN :
  outside dN 1 31 \/ outside mN 1 12 \/ yN = NaN ->
  mismatch tza yN mN dN = true.
Proof.
  intros H. destruct (mismatch_cases tza yN mN dN) as [T | F]; [ exact T | exfalso ].
  destruct (match_sound _ _ _ _ F) as (y & m & d & tv & -> & -> & -> & _ & _ & _ & Hm & Hd & _).
  pose proof (DaysInMonth_le_31 (leapDays (MakeFullYear y)) (m - 1)) as B.
  assert (L : leapDays (MakeFullYear y) = 0 \/ leapDays (MakeFullYear y) = 1)
    by (destruct (leapDays_cases (MakeFullYear y)) as [[L _] | [L _]]; auto).
  specialize (B L). cbn in H. destruct H as [H | [H | H]]; [ lia | lia | discriminate H ].
Qed.

Lemma mismatch_impossible tza yN mN dN :
  (dN = Some 30 /\ mN = Some 2) \/ (dN = Some 31 /\ mN = Some 2)
  \/ (dN = Some 31 /\ mN = Some 4) ->
  mismatch tza yN mN dN = true.
Proof.
  intros H. destruct (mismatch_cases tza yN mN dN) as [T | F]; [ exact T | exfalso ].
  destruct (match_sound _ _ _ _ F) as (y & m & d & tv & _ & Em & Ed & _ & _ & _ & Hm & Hd & _).
  destruct (leapDays_cases (MakeFullYear y)) as [[L _] | [L _]]; rewrite L in Hd;
  destruct H as [[D M] | [[D M] | [D M]]]; rewrite D in Ed; rewrite M in Em;
    injection Ed as <-; injection Em as <-; cbn in Hd; lia.
Qed.


Section InvalidDate.

Variables (h : Host) (now : Z) (i : TaskFormInput).

Let tza := LocalTZA h.
Let dN := parseInt (in_day i).
Let mN := parseInt (in_month i).
Let yN := parseInt (in_year i).

Lemma server_invalid :
  truthy (in_day i) = true -> truthy (in_month i) = true ->
  truthy (in_year i) = true ->
  mismatch tza yN mN dN = true ->
  server_errors h now (to_body i)
  = push (Server.check_description (to_body i)
            (Server.check_title (to_body i) []))
         (mkFieldError (js "Please enter a valid due date") (js "#due-date-day")).
Proof.
  intros Td Tm Ty Mi. unfold server_errors, Server.validate.
  rewrite server_complete_cases by assumption.
  cbn [to_body Server.due_date_day Server.due_date_month Server.due_date_year
       Server.parseInt_opt].
  fold tza dN mN yN. rewrite Mi. reflexivity.
Qed.

Lemma client_invalid :
  truthy (trim (in_day i)) = true -> truthy (trim (in_month i)) = true ->
  truthy (trim (in_year i)) = true ->
  range_check yN mN dN = true \/ mismatch tza yN mN dN = true ->
  client_errors h now (to_form i)
  = push (Client.errors (Client.check_description (to_form i)
                           (Client.check_title (to_form i) Client.initial)))
         (mkFieldError (js "Please enter a valid due date") (js "#due-date-day")).
Proof.
  intros Td Tm Ty H. unfold client_errors, Client.on_submit.
  rewrite (client_complete_cases h now (to_form i) _ (in_day i) (in_month i) (in_year i))
    by (reflexivity || assumption).
  fold tza dN mN yN.
  destruct (range_check yN mN dN); [ reflexivity | ].
  destruct H as [H | H]; [ discriminate H | ]. rewrite H. reflexivity.
Qed.

End InvalidDate.

(* ================================================================== *)
(** ** Today and tomorrow *)
(* ================================================================== *)

Lemma YearFromTime_mono a b : Day a <= Day b -> YearFromTime a <= YearFromTime b.
Proof.
  intros H. pose proof (YearFromTime_spec a) as Sa. pose proof (YearFromTime_spec b) as Sb.
  destruct (Z.le_gt_cases (YearFromTime a) (YearFromTime b)) as [L | G]; [ exact L | ].
  pose proof (DayFromYear_le (YearFromTime b + 1) (YearFromTime a) ltac:(lia)). lia.
Qed.

Lemma Day_plus_day t : Day (t + msPerDay) = Day t + 1.
Proof.
  unfold Day. replace (t + msPerDay) with (t + 1 * msPerDay) by lia.
  apply Z.div_add. discriminate.
Qed.

Lemma today_of_value tza now :
  Z.abs now <= maxTime - msPerDay ->
  today_of tza now = Some (Day (LocalTime tza now) * msPerDay - tza).
Proof.
  intros H. unfold today_of, setHours, UTC, MakeDate, MakeTime.
  replace (Day (LocalTime tza now) * msPerDay
           + (0 * msPerHour + 0 * msPerMinute + 0 * msPerSecond + 0) - tza)
    with (Day (LocalTime tza now) * msPerDay - tza) by lia.
  apply TimeClip_ok.
  pose proof (Day_bounds (LocalTime tza now)) as B. unfold LocalTime in *.
  assert (0 < msPerDay) by reflexivity. lia.
Qed.

Lemma MakeFullYear_id y : ~ (0 <= y <= 99) -> MakeFullYear y = y.
Proof.
  intros H. unfold MakeFullYear.
  destruct (Z.leb_spec 0 y), (Z.leb_spec y 99); cbn [andb]; try reflexivity. lia.
Qed.

Lemma mismatch_dateObj tza yN mN dN :
  mismatch tza yN mN dN
  = num_ne (getDate tza (dateObj_of tza yN mN dN)) dN
    || num_ne (getMonth tza (dateObj_of tza yN mN dN)) (num_sub mN (Some 1)).
Proof. reflexivity. Qed.

(** The Date built from the calendar date of instant [t] is local midnight
    of that day, and it reads back as typed. *)
Lemma denotes_dateObj tza t yN mN dN :
  denotes tza t yN mN dN ->
  ~ (0 <= YearFromTime (LocalTime tza t) <= 99) ->
  Z.abs (Day (LocalTime tza t) * msPerDay - tza) <= maxTime ->
  dateObj_of tza yN mN dN = Some (Day (LocalTime tza t) * msPerDay - tza)
  /\ mismatch tza yN mN dN = false.
Proof.
  intros (-> & -> & ->) Y C.
  assert (E : dateObj_of tza (Some (YearFromTime (LocalTime tza t)))
                (Some (MonthFromTime (LocalTime tza t) + 1))
                (Some (DateFromTime (LocalTime tza t)))
              = Some (Day (LocalTime tza t) * msPerDay - tza)).
  { unfold dateObj_of, num_sub. rewrite Date_ymd_midnight, MakeFullYear_id by assumption.
    replace (MonthFromTime (LocalTime tza t) + 1 - 1) with (MonthFromTime (LocalTime tza t)) by lia.
    rewrite MakeDay_of_time. apply TimeClip_ok, C. }
  split; [ exact E | ].
  rewrite mismatch_dateObj, E, getDate_some, getMonth_some, LocalTime_UTC.
  rewrite (Day_ext_Date _ (LocalTime tza t)) by apply Day_midnight.
  rewrite (Day_ext_Month _ (LocalTime tza t)) by apply Day_midnight.
  unfold num_sub, num_ne.
  replace (MonthFromTime (LocalTime tza t) + 1 - 1) with (MonthFromTime (LocalTime tza t)) by lia.
  rewrite !Z.eqb_refl. reflexivity.
Qed.

Lemma denotes_range tza t yN mN dN year :
  denotes tza t yN mN dN -> year <= YearFromTime (LocalTime tza t) -> year = 2020 ->
  range_check yN mN dN = false.
Proof.
  intros (-> & -> & ->) Y ->.
  pose proof (DateFromTime_range (LocalTime tza t)).
  pose proof (MonthFromTime_range (LocalTime tza t)).
  unfold range_check, isNaN, num_lt, num_gt, num_lt. cbn [orb].
  rewrite !orb_false_iff, !Z.ltb_ge. lia.
Qed.

Section TodayTomorrow.

Variables (h : Host) (now : Z) (i : TaskFormInput).

Let tza := LocalTZA h.
Let dN := parseInt (in_day i).
Let mN := parseInt (in_month i).
Let yN := parseInt (in_year i).

Lemma denotes_truthy t :
  denotes tza t yN mN dN ->
  (truthy (in_day i) = true /\ truthy (in_month i) = true
   /\ truthy (in_year i) = true)
  /\ (truthy (trim (in_day i)) = true /\ truthy (trim (in_month i)) = true
      /\ truthy (trim (in_year i)) = true).
Proof.
  intros (D & M & Y).
  destruct (parseInt_some_truthy _ _ D), (parseInt_some_truthy _ _ M),
    (parseInt_some_truthy _ _ Y). auto 7.
Qed.

Lemma server_rejects_today :
  clock_ok tza now 100 -> denotes tza now yN mN dN ->
  server_errors h now (to_body i)
  = push (Server.check_description (to_body i)
            (Server.check_title (to_body i) []))
         (mkFieldError (js "Due date must be in the future") (js "#due-date-day")).
Proof.
  intros [C Y] De. destruct (denotes_truthy _ De) as [(Td & Tm & Ty) _].
  pose proof (today_of_value tza now C) as T.
  destruct (denotes_dateObj tza now yN mN dN De) as [E Mi]; [ lia | | ].
  { pose proof (Day_bounds (LocalTime tza now)) as B. unfold LocalTime in *.
    assert (0 < msPerDay) by reflexivity. lia. }
  unfold server_errors, Server.validate.
  rewrite server_complete_cases by assumption.
  cbn [to_body Server.due_date_day Server.due_date_month Server.due_date_year
       Server.parseInt_opt].
  fold tza dN mN yN. rewrite Mi, E, T.
  unfold date_le, num_le. rewrite Z.leb_refl. reflexivity.
Qed.

Lemma client_accepts_today :
  clock_ok tza now 2020 -> denotes tza now yN mN dN ->
  client_errors h now (to_form i)
  = Client.errors (Client.check_description (to_form i)
                     (Client.check_title (to_form i) Client.initial)).
Proof.
  intros [C Y] De. destruct (denotes_truthy _ De) as [_ (Td & Tm & Ty)].
  pose proof (today_of_value tza now C) as T.
  destruct (denotes_dateObj tza now yN mN dN De) as [E Mi]; [ lia | | ].
  { pose proof (Day_bounds (LocalTime tza now)) as B. unfold LocalTime in *.
    assert (0 < msPerDay) by reflexivity. lia. }
  unfold client_errors, Client.on_submit.
  rewrite (client_complete_cases h now (to_form i) _ (in_day i) (in_month i) (in_year i))
    by (reflexivity || assumption).
  fold tza dN mN yN.
  rewrite (denotes_range tza now yN mN dN 2020 De Y eq_refl), Mi, E, T.
  unfold date_lt, num_lt. rewrite Z.ltb_irrefl. reflexivity.
Qed.

Lemma tomorrow_dateObj :
  clock_ok tza now 100 -> denotes tza (now + msPerDay) yN mN dN ->
  dateObj_of tza yN mN dN
  = Some (Day (LocalTime tza now) * msPerDay + msPerDay - tza)
  /\ mismatch tza yN mN dN = false
  /\ today_of tza now = Some (Day (LocalTime tza now) * msPerDay - tza).
Proof.
  intros [C Y] De.
  pose proof (today_of_value tza now C) as T.
  assert (L : LocalTime tza (now + msPerDay) = LocalTime tza now + msPerDay)
    by (unfold LocalTime; lia).
  pose proof (Day_plus_day (LocalTime tza now)) as D1.
  pose proof (YearFromTime_mono (LocalTime tza now) (LocalTime tza now + msPerDay)
                ltac:(lia)) as Mo.
  destruct (denotes_dateObj tza (now + msPerDay) yN mN dN De) as [E Mi].
  - rewrite L. lia.
  - rewrite L, D1. pose proof (Day_bounds (LocalTime tza now)) as B. unfold LocalTime in *.
    assert (0 < msPerDay) by reflexivity. lia.
  - rewrite L, D1 in E. split; [ | split; assumption ].
    rewrite E. f_equal. lia.
Qed.

Lemma server_accepts_tomorrow :
  clock_ok tza now 100 -> denotes tza (now + msPerDay) yN mN dN ->
  Server.validate h now (to_body i)
  = Some (Server.check_description (to_body i)
            (Server.check_title (to_body i) []),
          Some (ISOString (Day (LocalTime tza now) * msPerDay + msPerDay - tza))).
Proof.
  intros C De. destruct (denotes_truthy _ De) as [(Td & Tm & Ty) _].
  destruct (tomorrow_dateObj C De) as (E & Mi & T).
  unfold Server.validate.
  rewrite server_complete_cases by assumption.
  cbn [to_body Server.due_date_day Server.due_date_month Server.due_date_year
       Server.parseInt_opt].
  fold tza dN mN yN. rewrite Mi, E, T.
  unfold date_le, num_le.
  assert (0 < msPerDay) by reflexivity.
  destruct (Z.leb_spec (Day (LocalTime tza now) * msPerDay + msPerDay - tza)
              (Day (LocalTime tza now) * msPerDay - tza)); [ lia | reflexivity ].
Qed.

Lemma client_accepts_tomorrow :
  clock_ok tza now 2020 -> denotes tza (now + msPerDay) yN mN dN ->
  client_errors h now (to_form i)
  = Client.errors (Client.check_description (to_form i)
                     (Client.check_title (to_form i) Client.initial)).
Proof.
  intros [C Y] De. destruct (denotes_truthy _ De) as [_ (Td & Tm & Ty)].
  destruct (tomorrow_dateObj (conj C (Z.le_trans 100 2020 _ ltac:(lia) Y)) De) as (E & Mi & T).
  assert (Y' : 2020 <= YearFromTime (LocalTime tza (now + msPerDay))).
  { pose proof (YearFromTime_mono (LocalTime tza now) (LocalTime tza (now + msPerDay))) as Mo.
    replace (LocalTime tza (now + msPerDay)) with (LocalTime tza now + msPerDay) in *
      by (unfold LocalTime; lia).
    rewrite Day_plus_day in Mo. lia. }
  unfold client_errors, Client.on_submit.
  rewrite (client_complete_cases h now (to_form i) _ (in_day i) (in_month i) (in_year i))
    by (reflexivity || assumption).
  fold tza dN mN yN.
  rewrite (denotes_range tza _ yN mN dN 2020 De Y' eq_refl), Mi, E, T.
  unfold date_lt, num_lt.
  assert (0 < msPerDay) by reflexivity.
  destruct (Z.ltb_spec (Day (LocalTime tza now) * msPerDay + msPerDay - tza)
              (Day (LocalTime tza now) * msPerDay - tza)); [ lia | reflexivity ].
Qed.

End TodayTomorrow.

Lemma server_accept_inv h now body errors errors' iso :
  Server.check_due_date h now body errors = Some (errors', Some iso) ->
  let tza := LocalTZA h in
  let dN := Server.parseInt_opt (Server.due_date_day body) in
  let mN := Server.parseInt_opt (Server.due_date_month body) in
  let yN := Server.parseInt_opt (Server.due_date_year body) in
  errors' = errors
  /\ mismatch tza yN mN dN = false
  /\ date_le (dateObj_of tza yN mN dN) (today_of tza now) = false
  /\ toISOString (dateObj_of tza yN mN dN) = Some iso.
Proof.
  destruct (truthy_opt (Server.due_date_day body)) eqn:Ed;
  destruct (truthy_opt (Server.due_date_month body)) eqn:Em;
  destruct (truthy_opt (Server.due_date_year body)) eqn:Ey.
  1: { rewrite server_complete_cases by assumption. cbv zeta.
       destruct (mismatch _ _ _ _); [ discriminate | ].
       destruct (date_le _ _); [ discriminate | ].
       destruct (toISOString _); [ | discriminate ].
       intros [= <- <-]. auto. }
  7: { rewrite server_absent by assumption. discriminate. }
  all: rewrite server_incomplete
         by (unfold is_empty; first [ tauto | intros (A & B & C); congruence ]);
       discriminate.
Qed.

(** A due date the server accepts is a day of the calendar: the month is
    1..12 and the day exists in that month of that year, and [dueDate] is
    the ISO text of its local midnight. *)
Theorem accepted_date_is_on_the_calendar h now body errors iso :
  Server.validate h now body = Some (errors, Some iso) ->
  exists y m d tv,
    Server.parseInt_opt (Server.due_date_year body) = Some y
    /\ Server.parseInt_opt (Server.due_date_month body) = Some m
    /\ Server.parseInt_opt (Server.due_date_day body) = Some d
    /\ 1 <= m <= 12
    /\ 1 <= d <= DaysInMonth (leapDays (MakeFullYear y)) (m - 1)
    /\ LocalTime (LocalTZA h) tv
       = MakeDate (MakeDay (MakeFullYear y) (m - 1) d) 0
    /\ iso = ISOString tv.
Proof.
  intros V. unfold Server.validate in V. apply server_accept_inv in V.
  cbv zeta in V. destruct V as (_ & Mi & _ & Iso).
  destruct (match_sound _ _ _ _ Mi)
    as (y & m & d & tv & Ey & Em & Ed & E & _ & LT & Hm & Hd & _).
  unfold dateObj_of in Iso. rewrite E in Iso. injection Iso as <-.
  exists y, m, d, tv. unfold MakeDate. rewrite Z.add_0_r. auto 10.
Qed.


(* ================================================================== *)
(** ** The two validators side by side *)
(* ================================================================== *)

Lemma client_title_verdict (i : TaskFormInput) st :
  Client.errors (Client.check_title (to_form i) st)
  = Client.errors st
    ++ snd (text_verdicts Server.title_required title_too_short 3 (in_title i)).
Proof.
  unfold Client.check_title, text_verdicts. cbn [to_form Client.titleInput].
  destruct (truthy (trim (in_title i))); cbn [negb].
  - destruct (List.length (trim (in_title i)) <? 3)%nat;
      [ reflexivity | cbn [snd]; rewrite app_nil_r; reflexivity ].
  - reflexivity.
Qed.

Lemma client_description_verdict (i : TaskFormInput) st :
  Client.errors (Client.check_description (to_form i) st)
  = Client.errors st
    ++ snd (text_verdicts Server.description_required description_too_short 10
              (in_description i)).
Proof.
  unfold Client.check_description, text_verdicts. cbn [to_form Client.descriptionInput].
  destruct (truthy (trim (in_description i))); cbn [negb].
  - destruct (List.length (trim (in_description i)) <? 10)%nat;
      [ reflexivity | cbn [snd]; rewrite app_nil_r; reflexivity ].
  - reflexivity.
Qed.

Lemma server_text_verdict required too_short min value :
  (if negb (truthy_opt (Server.trim_opt (Some value))) then [required] else [])
  = fst (text_verdicts required too_short min value).
Proof.
  unfold text_verdicts. cbn [Server.trim_opt option_map truthy_opt].
  destruct (truthy (trim value)); cbn [negb]; [ | reflexivity ].
  destruct (List.length (trim value) <? min)%nat; reflexivity.
Qed.

Lemma num_lt_le a b : num_lt a b = true -> num_le a b = true.
Proof.
  destruct a, b; cbn; try discriminate. rewrite Z.ltb_lt, Z.leb_le. lia.
Qed.

Lemma truthy_false s : truthy s = false -> s = [].
Proof. destruct s; [ reflexivity | discriminate ]. Qed.

(** A field that is not white space only is empty exactly when it is empty
    after trimming. *)
Lemma truthy_trim_eq s : ~ whitespace_only s -> truthy (trim s) = truthy s.
Proof.
  intros N. destruct (truthy (trim s)) eqn:T.
  - symmetry. apply truthy_trim, T.
  - apply truthy_false in T. destruct s as [ | c s]; [ reflexivity | ].
    exfalso. apply N. split; [ discriminate | exact T ].
Qed.

(** Once the Date reads back as typed, the browser's range test only looks
    at the year. *)
Lemma range_check_year tza yN mN dN :
  mismatch tza yN mN dN = false ->
  range_check yN mN dN = num_lt yN (Some 2020).
Proof.
  intros F.
  destruct (match_sound _ _ _ _ F)
    as (y & m & d & tv & -> & -> & -> & _ & _ & _ & Hm & Hd & _).
  pose proof (DaysInMonth_le_31 (leapDays (MakeFullYear y)) (m - 1)) as B.
  assert (L : leapDays (MakeFullYear y) = 0 \/ leapDays (MakeFullYear y) = 1)
    by (destruct (leapDays_cases (MakeFullYear y)) as [[L _] | [L _]]; auto).
  specialize (B L).
  unfold range_check, isNaN, num_gt, num_lt. cbn [orb].
  replace (d <? 1) with false by (symmetry; apply Z.ltb_ge; lia).
  replace (31 <? d) with false by (symmetry; apply Z.ltb_ge; lia).
  replace (m <? 1) with false by (symmetry; apply Z.ltb_ge; lia).
  replace (12 <? m) with false by (symmetry; apply Z.ltb_ge; lia).
  reflexivity.
Qed.

Lemma due_date_verdicts h now (i : TaskFormInput) st :
  ~ whitespace_only (in_day i) -> ~ whitespace_only (in_month i) ->
  ~ whitespace_only (in_year i) ->
  exists dueDate,
    Server.check_due_date h now (to_body i) []
    = Some (fst (date_verdicts (LocalTZA h) now (in_day i) (in_month i) (in_year i)),
            dueDate)
    /\ Client.errors (Client.check_due_date h now (to_form i) st)
       = Client.errors st
         ++ snd (date_verdicts (LocalTZA h) now (in_day i) (in_month i) (in_year i)).
Proof.
  intros Wd Wm Wy.
  pose proof (truthy_trim_eq _ Wd) as Rd. pose proof (truthy_trim_eq _ Wm) as Rm.
  pose proof (truthy_trim_eq _ Wy) as Ry.
  pose proof (client_absent h now (to_form i) st (in_day i) (in_month i) (in_year i)
                eq_refl eq_refl eq_refl) as CA.
  pose proof (client_incomplete h now (to_form i) st (in_day i) (in_month i) (in_year i)
                eq_refl eq_refl eq_refl) as CI.
  pose proof (client_complete_cases h now (to_form i) st (in_day i) (in_month i) (in_year i)
                eq_refl eq_refl eq_refl) as CC.
  pose proof (server_absent h now (to_body i) []) as SA.
  pose proof (server_incomplete h now (to_body i) []) as SI.
  pose proof (server_complete_cases h now (to_body i) []) as SC.
  unfold is_empty in SA, SI.
  cbn [to_body Server.due_date_day Server.due_date_month Server.due_date_year
       Server.parseInt_opt truthy_opt] in SA, SI, SC.
  rewrite Rd, Rm, Ry in CC.
  unfold date_verdicts.
  destruct (truthy (in_day i)) eqn:Td; destruct (truthy (in_month i)) eqn:Tm;
    destruct (truthy (in_year i)) eqn:Ty; cbn [orb andb negb].
  1: { rewrite CC, SC by reflexivity.
       destruct (mismatch _ _ _ _) eqn:Mi.
       - exists None. split; [ reflexivity | ].
         destruct (range_check _ _ _); reflexivity.
       - rewrite (range_check_year _ _ _ _ Mi).
         destruct (dateObj_of_valid _ _ _ _ Mi) as (tv & ->).
         cbn [toISOString option_map].
         destruct (num_lt (parseInt (in_year i)) (Some 2020)).
         + destruct (date_le (Some tv) (today_of (LocalTZA h) now));
             eexists; split; reflexivity.
         + destruct (date_lt (Some tv) (today_of (LocalTZA h) now)) eqn:Lt.
           * unfold date_le. rewrite (num_lt_le _ _ Lt).
             eexists; split; reflexivity.
           * destruct (date_le (Some tv) (today_of (LocalTZA h) now));
               eexists; (split; [ reflexivity | ]); cbn [snd];
               rewrite ?app_nil_r; reflexivity. }
  7: { apply truthy_false in Td, Tm, Ty.
       rewrite CA, SA by (rewrite ?Td, ?Tm, ?Ty; reflexivity).
       exists None. split; [ reflexivity | cbn [snd]; rewrite app_nil_r; reflexivity ]. }
  all: rewrite CI, SI; [ exists None; split; reflexivity | .. ].
  all: try solve [ left; first [ assumption | reflexivity | apply truthy_false; assumption ]
                 | right; left; first [ assumption | reflexivity | apply truthy_false; assumption ]
                 | right; right; first [ assumption | reflexivity | apply truthy_false; assumption ] ].
  all: intros (A & B & C); try discriminate A; try discriminate B; try discriminate C.
  all: try (rewrite A in Rd; discriminate Rd).
  all: try (rewrite B in Rm; discriminate Rm).
  all: try (rewrite C in Ry; discriminate Ry).
Qed.

(* ================================================================== *)
(** ** The view helpers *)
(* ================================================================== *)

Lemma jsstring_eqb_false a b : jsstring_eqb a b = false <-> a <> b.
Proof.
  unfold jsstring_eqb. destruct (jsstring_eq_dec a b); split; intros; congruence.
Qed.

Lemma Date_parse_nil tza : Date_parse tza [] = NaN.
Proof. reflexivity. Qed.

Lemma overdue_true d now st :
  Server.overdue d now st = true
  <-> exists t, d = Some t /\ t < now /\ st <> js "COMPLETED".
Proof.
  unfold Server.overdue, date_lt, num_lt. rewrite andb_true_iff, negb_true_iff, jsstring_eqb_false.
  destruct d as [t | ].
  - rewrite Z.ltb_lt. split.
    + intros [L N]. eauto.
    + intros (t' & [= <-] & L & N). auto.
  - split; [ intros [F _]; discriminate F | intros (t' & F & _); discriminate F ].
Qed.

(* ================================================================== *)
(** ** The request handlers *)
(* ================================================================== *)

Section Create.

Variables (BACKEND_URL : jsstring) (h : Host) (req : Server.Request) (w : Server.World).

Let errors := server_errors h (Server.clock w) (Server.body req).
Let response := fst (Server.post_tasks_create BACKEND_URL h req w).

Lemma create_invalid :
  errors <> [] ->
  response
  = inl (Server.Render (js "tasks/create")
           {| Server.l_task := None;
              Server.l_errors := Some errors;
              Server.l_formData := Some (Server.body req);
              Server.l_error := None;
              Server.l_message := None;
              Server.l_csrfToken := Some (Server.csrf req) |}).
Proof.
  unfold response, errors. intros N.
  destruct (run_validate_run h (Server.body req) w) as (due & _ & R).
  unfold Server.post_tasks_create, Server.try_catch, Server.bind.
  rewrite R, has_errors.
  destruct (server_errors h (Server.clock w) (Server.body req)); [ congruence | reflexivity ].
Qed.

Lemma create_write_fails :
  errors = [] -> resolves w 0 = false ->
  response
  = inl (Server.Render (js "tasks/create")
           {| Server.l_task := None;
              Server.l_errors := None;
              Server.l_formData := Some (Server.body req);
              Server.l_error := Some (js "Failed to create task. Please try again.");
              Server.l_message := None;
              Server.l_csrfToken := Some (Server.csrf req) |}).
Proof.
  unfold response, errors. intros E F.
  destruct (run_validate_run h (Server.body req) w) as (due & _ & R).
  destruct (no_errors_texts _ _ _ E) as (t & d & Et & Ed).
  unfold Server.post_tasks_create, Server.try_catch, Server.bind.
  rewrite R, has_errors, E, Et, Ed. cbn [Server.trim_or_throw Server.ret].
  rewrite axios_run. unfold resolves in F.
  destruct (Server.backend w) as [ | [dt data | dt st] rest]; cbn in F;
    [ reflexivity | discriminate F | reflexivity ].
Qed.

Lemma create_written :
  errors = [] -> resolves w 0 = true ->
  response = inl (Server.Redirect (js "/")).
Proof.
  unfold response, errors. intros E F.
  destruct (run_validate_run h (Server.body req) w) as (due & _ & R).
  destruct (no_errors_texts _ _ _ E) as (t & d & Et & Ed).
  unfold Server.post_tasks_create, Server.try_catch, Server.bind.
  rewrite R, has_errors, E, Et, Ed. cbn [Server.trim_or_throw Server.ret].
  rewrite axios_run. unfold resolves in F.
  destruct (Server.backend w) as [ | [dt data | dt st] rest]; cbn in F;
    [ discriminate F | reflexivity | discriminate F ].
Qed.

End Create.

Section Edit.

Variables (BACKEND_URL : jsstring) (h : Host) (req : Server.Request) (w : Server.World).

Let errors := server_errors h (Server.clock w) (Server.body req).
Let response := fst (Server.post_tasks_edit BACKEND_URL h req w).

Lemma edit_invalid_refetched :
  errors <> [] -> resolves w 0 = true ->
  exists task,
    response
    = inl (Server.Render (js "tasks/edit")
             {| Server.l_task := Some task;
                Server.l_errors := Some errors;
                Server.l_formData := Some (Server.body req);
                Server.l_error := None;
                Server.l_message := None;
                Server.l_csrfToken := Some (Server.csrf req) |}).
Proof.
  unfold response, errors. intros N F.
  destruct (run_validate_run h (Server.body req) w) as (due & _ & R).
  unfold Server.post_tasks_edit, Server.try_catch, Server.bind.
  rewrite R, has_errors.
  destruct (server_errors h (Server.clock w) (Server.body req)) as [ | e es]; [ congruence | ].
  rewrite axios_run. unfold resolves in F.
  destruct (Server.backend w) as [ | [dt data | dt st] rest]; cbn in F; try discriminate F.
  eexists. reflexivity.
Qed.

Lemma edit_written :
  errors = [] -> resolves w 0 = true ->
  response = inl (Server.Redirect (js "/tasks/" ++ Server.params_id req)).
Proof.
  unfold response, errors. intros E F.
  destruct (run_validate_run h (Server.body req) w) as (due & _ & R).
  destruct (no_errors_texts _ _ _ E) as (t & d & Et & Ed).
  unfold Server.post_tasks_edit, Server.try_catch, Server.bind.
  rewrite R, has_errors, E, Et, Ed. cbn [Server.trim_or_throw Server.ret].
  rewrite axios_run. unfold resolves in F.
  destruct (Server.backend w) as [ | [dt data | dt st] rest]; cbn in F;
    [ discriminate F | reflexivity | discriminate F ].
Qed.

Lemma edit_recovered :
  resolves w 0 = false -> resolves w 1 = true ->
  exists task,
    response
    = inl (Server.Render (js "tasks/edit")
             {| Server.l_task := Some task;
                Server.l_errors := None;
                Server.l_formData := Some (Server.body req);
                Server.l_error := Some (js "Failed to update task. Please try again.");
                Server.l_message := None;
                Server.l_csrfToken := Some (Server.csrf req) |}).
Proof.
  unfold response. intros F0 F1.
  destruct (run_validate_run h (Server.body req) w) as (due & _ & R).
  unfold Server.post_tasks_edit, Server.try_catch, Server.bind.
  rewrite R, has_errors. unfold resolves in F0, F1.
  destruct (server_errors h (Server.clock w) (Server.body req)) as [ | e es] eqn:E.
  - destruct (no_errors_texts _ _ _ E) as (t & d & Et & Ed).
    rewrite Et, Ed. cbn [Server.trim_or_throw Server.ret].
    rewrite !axios_run.
    destruct (Server.backend w) as [ | [dt data | dt st] [ | [dt' data' | dt' st'] rest]];
      cbn in F0, F1; try discriminate F0; try discriminate F1.
    eexists. reflexivity.
  - rewrite !axios_run.
    destruct (Server.backend w) as [ | [dt data | dt st] [ | [dt' data' | dt' st'] rest]];
      cbn in F0, F1; try discriminate F0; try discriminate F1.
    eexists. reflexivity.
Qed.

Lemma edit_lost :
  resolves w 0 = false -> resolves w 1 = false ->
  response
  = inl (Server.Render (js "error")
           {| Server.l_task := None;
              Server.l_errors := None;
              Server.l_formData := None;
              Server.l_error := None;
              Server.l_message := Some (js "Failed to update task");
              Server.l_csrfToken := None |}).
Proof.
  unfold response. intros F0 F1.
  destruct (run_validate_run h (Server.body req) w) as (due & _ & R).
  unfold Server.post_tasks_edit, Server.try_catch, Server.bind.
  rewrite R, has_errors. unfold resolves in F0, F1.
  destruct (server_errors h (Server.clock w) (Server.body req)) as [ | e es] eqn:E.
  - destruct (no_errors_texts _ _ _ E) as (t & d & Et & Ed).
    rewrite Et, Ed. cbn [Server.trim_or_throw Server.ret].
    rewrite !axios_run.
    destruct (Server.backend w) as [ | [dt data | dt st] [ | [dt' data' | dt' st'] rest]];
      cbn in F0, F1; try discriminate F0; try discriminate F1; reflexivity.
  - rewrite !axios_run.
    destruct (Server.backend w) as [ | [dt data | dt st] [ | [dt' data' | dt' st'] rest]];
      cbn in F0, F1; try discriminate F0; try discriminate F1; reflexivity.
Qed.

End Edit.

(* ================================================================== *)
(** ** The claims *)
(* ================================================================== *)

(** C1 as stated fails: a two-letter title is accepted by the server and
    rejected by the browser, so the two validators do not make the same
    decision. *)
Lemma C1_counterexample :
  server_errors sample_host sample_now
    (to_body (mkTaskFormInput (js "ab") (js "A long enough description")
                (js "TODO") [] [] []))
  = []
  /\ client_errors sample_host sample_now
       (to_form (mkTaskFormInput (js "ab") (js "A long enough description")
                   (js "TODO") [] [] []))
     = [mkFieldError (js "Title must be at least 3 characters long") (js "#title")]
  /\ ~ validators_agree sample_host sample_now
         (mkTaskFormInput (js "ab") (js "A long enough description")
            (js "TODO") [] [] []).
Proof.
  split; [ | split ]; [ vm_compute; reflexivity | vm_compute; reflexivity | ].
  unfold validators_agree. vm_compute. discriminate.
Qed.

(** C1, amended.  For a form none of whose three due-date strings consists
    of white space only, run on one host at one instant, the two validators
    report their errors in the same order (title, description, due date),
    and field by field they report what [text_verdicts] and [date_verdicts]
    lay down.  So they agree except as follows: only the browser rejects a
    title shorter than 3 or a description shorter than 10 characters; only
    the browser calls a date invalid for a year below 2020, where the
    server compares the date with today; a date that is today is rejected
    by the server and accepted by the browser; and a date before today is
    worded "must be in the future" by the server and "cannot be in the
    past" by the browser. *)
Theorem C1_validators_related :
  forall (h : Host) (now : Z) (i : TaskFormInput),
    ~ whitespace_only (in_day i) ->
    ~ whitespace_only (in_month i) ->
    ~ whitespace_only (in_year i) ->
    server_errors h now (to_body i)
    = fst (text_verdicts Server.title_required title_too_short 3 (in_title i))
      ++ fst (text_verdicts Server.description_required description_too_short
                10 (in_description i))
      ++ fst (date_verdicts (LocalTZA h) now (in_day i) (in_month i) (in_year i))
    /\ client_errors h now (to_form i)
       = snd (text_verdicts Server.title_required title_too_short 3 (in_title i))
         ++ snd (text_verdicts Server.description_required description_too_short
                   10 (in_description i))
         ++ snd (date_verdicts (LocalTZA h) now (in_day i) (in_month i)
                   (in_year i)).
Proof.
  intros h now i Wd Wm Wy.
  destruct (validate_errors_split h now (to_body i)) as (de & due & V & D0).
  destruct (due_date_verdicts h now i
              (Client.check_description (to_form i)
                 (Client.check_title (to_form i) Client.initial)) Wd Wm Wy)
    as (due' & D0' & Ec).
  rewrite D0 in D0'. injection D0' as -> <-.
  split.
  - unfold server_errors. rewrite V.
    cbn [to_body Server.title Server.description].
    rewrite (server_text_verdict _ title_too_short 3),
      (server_text_verdict _ description_too_short 10). reflexivity.
  - unfold client_errors, Client.on_submit.
    rewrite Ec, client_description_verdict, client_title_verdict.
    cbn [Client.errors Client.initial app]. rewrite app_assoc. reflexivity.
Qed.

Lemma C1_validators_related_witness :
  server_errors sample_host sample_now
    (to_body (mkTaskFormInput (js "ab") [] (js "TODO")
                (js "2") (js "11") (js "2026")))
  = [Server.description_required; Server.date_not_future]
  /\ client_errors sample_host sample_now
       (to_form (mkTaskFormInput (js "ab") [] (js "TODO")
                   (js "2") (js "11") (js "2026")))
     = [title_too_short; Server.description_required].
Proof.
  destruct (C1_validators_related sample_host sample_now
              (mkTaskFormInput (js "ab") [] (js "TODO") (js "2") (js "11") (js "2026")))
    as [S C].
  - intros [_ T]. vm_compute in T. discriminate T.
  - intros [_ T]. vm_compute in T. discriminate T.
  - intros [_ T]. vm_compute in T. discriminate T.
  - split.
    + rewrite S. vm_compute. reflexivity.
    + rewrite C. vm_compute. reflexivity.
Defined.

(** C2 as stated fails in the browser, which only rejects dates before
    today: on 2 November 2026 the triple 2/11/2026 passes the browser's
    validation without any error, while the server rejects it. *)
Lemma C2_counterexample :
  denotes (LocalTZA sample_host) sample_now
    (parseInt (js "2026")) (parseInt (js "11")) (parseInt (js "2"))
  /\ client_errors sample_host sample_now
       (to_form (mkTaskFormInput (js "Pay rent") (js "Monthly payment") (js "TODO")
                   (js "2") (js "11") (js "2026")))
     = []
  /\ server_errors sample_host sample_now
       (to_body (mkTaskFormInput (js "Pay rent") (js "Monthly payment") (js "TODO")
                   (js "2") (js "11") (js "2026")))
     = [mkFieldError (js "Due date must be in the future") (js "#due-date-day")].
Proof. unfold denotes. repeat split; vm_compute; reflexivity. Qed.

(** C2, amended.  On a host whose clock is inside the range of Date and
    reads the year 2020 or later: a triple that denotes today's date is
    rejected by the server with "Due date must be in the future" at
    [#due-date-day], and is accepted by the browser, whose test only rejects
    dates before today; a triple that denotes tomorrow's date is accepted by
    both, and the server turns it into a [dueDate]. *)
Theorem C2_today_and_tomorrow :
  forall (h : Host) (now : Z) (i : TaskFormInput),
    clock_ok (LocalTZA h) now 2020 ->
    (denotes (LocalTZA h) now
       (parseInt (in_year i)) (parseInt (in_month i)) (parseInt (in_day i)) ->
     server_errors h now (to_body i)
     = push (Server.check_description (to_body i)
               (Server.check_title (to_body i) []))
            (mkFieldError (js "Due date must be in the future")
                          (js "#due-date-day"))
     /\ client_errors h now (to_form i)
        = Client.errors (Client.check_description (to_form i)
                           (Client.check_title (to_form i) Client.initial)))
    /\ (denotes (LocalTZA h) (now + msPerDay)
          (parseInt (in_year i)) (parseInt (in_month i)) (parseInt (in_day i)) ->
        (exists iso,
            Server.validate h now (to_body i)
            = Some (Server.check_description (to_body i)
                      (Server.check_title (to_body i) []),
                    Some iso))
        /\ client_errors h now (to_form i)
           = Client.errors (Client.check_description (to_form i)
                              (Client.check_title (to_form i) Client.initial))).
Proof.
  intros h now i C.
  assert (C100 : clock_ok (LocalTZA h) now 100) by (destruct C; split; [ assumption | lia ]).
  split; intros De.
  - split; [ apply server_rejects_today | apply client_accepts_today ]; assumption.
  - split; [ | apply client_accepts_tomorrow; assumption ].
    eexists. apply server_accepts_tomorrow; assumption.
Qed.

Lemma C2_today_and_tomorrow_witness :
  server_errors sample_host sample_now
    (to_body (mkTaskFormInput (js "Pay rent") (js "Monthly payment") (js "TODO")
                (js "2") (js "11") (js "2026")))
  = [mkFieldError (js "Due date must be in the future") (js "#due-date-day")]
  /\ exists iso,
       Server.validate sample_host sample_now
         (to_body (mkTaskFormInput (js "Pay rent") (js "Monthly payment") (js "TODO")
                     (js "3") (js "11") (js "2026")))
       = Some ([], Some iso).
Proof.
  split.
  - apply (proj1 (C2_today_and_tomorrow sample_host sample_now
              (mkTaskFormInput (js "Pay rent") (js "Monthly payment") (js "TODO")
                 (js "2") (js "11") (js "2026"))
              ltac:(split; vm_compute; discriminate))).
    repeat split; vm_compute; reflexivity.
  - apply (proj2 (C2_today_and_tomorrow sample_host sample_now
              (mkTaskFormInput (js "Pay rent") (js "Monthly payment") (js "TODO")
                 (js "3") (js "11") (js "2026"))
              ltac:(split; vm_compute; discriminate))).
    repeat split; vm_compute; reflexivity.
Defined.

(** C3 as stated fails in the browser, which trims each value before it
    looks at it: with a day of one space and the month and year empty, one
    but not all of the submitted strings is non-empty, the server answers
    with the incomplete-date error, and the browser reports nothing. *)
Lemma C3_counterexample :
  ~ is_empty (Some (js " "))
  /\ is_empty (Some [])
  /\ server_errors sample_host sample_now
       (to_body (mkTaskFormInput (js "Pay rent") (js "Monthly payment") (js "TODO")
                   (js " ") [] []))
     = [mkFieldError
          (js "Please enter a complete due date or leave all fields blank")
          (js "#due-date-day")]
  /\ client_errors sample_host sample_now
       (to_form (mkTaskFormInput (js "Pay rent") (js "Monthly payment") (js "TODO")
                   (js " ") [] []))
     = [].
Proof.
  split; [ discriminate | ]. split; [ reflexivity | ].
  split; vm_compute; reflexivity.
Qed.

(** C3, amended.  When at least one but not all of the three submitted
    due-date fields are empty, the server adds the error "Please enter a
    complete due date or leave all fields blank", anchored to
    [#due-date-day], after the errors of the title and description,
    whichever fields are the empty ones.  The browser trims the three
    values first and adds the same error whenever at least one but not all
    of the trimmed values are empty; so when one of the submitted strings
    is empty it adds that error unless the others hold nothing but white
    space, and then it adds no due-date error at all. *)
Theorem C3_incomplete_due_date :
  forall (h : Host) (now : Z),
    (forall body : Server.TaskFormData,
        is_empty (Server.due_date_day body)
        \/ is_empty (Server.due_date_month body)
        \/ is_empty (Server.due_date_year body) ->
        ~ (is_empty (Server.due_date_day body)
           /\ is_empty (Server.due_date_month body)
           /\ is_empty (Server.due_date_year body)) ->
        Server.validate h now body
        = Some (push (Server.check_description body
                        (Server.check_title body []))
                     (mkFieldError
                        (js "Please enter a complete due date or leave all fields blank")
                        (js "#due-date-day")),
                None))
    /\ (forall (form : Client.Form) (day month year : jsstring),
        Client.dayInput form = Some day ->
        Client.monthInput form = Some month ->
        Client.yearInput form = Some year ->
        trim day = [] \/ trim month = [] \/ trim year = [] ->
        ~ (trim day = [] /\ trim month = [] /\ trim year = []) ->
        client_errors h now form
        = push (Client.errors (Client.check_description form
                                 (Client.check_title form Client.initial)))
               (mkFieldError
                  (js "Please enter a complete due date or leave all fields blank")
                  (js "#due-date-day")))
    /\ (forall (form : Client.Form) (day month year : jsstring),
        Client.dayInput form = Some day ->
        Client.monthInput form = Some month ->
        Client.yearInput form = Some year ->
        day = [] \/ month = [] \/ year = [] ->
        client_errors h now form
        = if truthy (trim day) || truthy (trim month) || truthy (trim year)
          then push (Client.errors (Client.check_description form
                                      (Client.check_title form Client.initial)))
                    (mkFieldError
                       (js "Please enter a complete due date or leave all fields blank")
                       (js "#due-date-day"))
          else Client.errors (Client.check_description form
                                (Client.check_title form Client.initial))).
Proof.
  intros h now. split; [ | split ].
  - intros body H N. unfold Server.validate.
    rewrite server_incomplete by assumption. reflexivity.
  - intros form day month year Hd Hm Hy H N.
    unfold client_errors, Client.on_submit.
    rewrite (client_incomplete h now form _ day month year Hd Hm Hy H N).
    reflexivity.
  - intros form day month year Hd Hm Hy H.
    assert (E : trim day = [] \/ trim month = [] \/ trim year = [])
      by (destruct H as [-> | [-> | ->]]; auto).
    unfold client_errors, Client.on_submit.
    destruct (truthy (trim day)) eqn:Td; destruct (truthy (trim month)) eqn:Tm;
      destruct (truthy (trim year)) eqn:Ty; cbn [orb].
    8: { apply truthy_false in Td, Tm, Ty.
         rewrite (client_absent h now form _ day month year Hd Hm Hy Td Tm Ty).
         reflexivity. }
    all: rewrite (client_incomplete h now form _ day month year Hd Hm Hy E);
      [ reflexivity | ].
    all: intros (A & B & C);
      first [ rewrite A in Td; discriminate Td
            | rewrite B in Tm; discriminate Tm
            | rewrite C in Ty; discriminate Ty ].
Qed.

Lemma C3_incomplete_due_date_witness :
  Server.validate sample_host sample_now
    (Server.mkTaskFormData (Some (js "New Task")) (Some (js "Task description"))
       (Some (js "TODO")) (Some (js "15")) (Some (js "12")) None)
  = Some ([mkFieldError
             (js "Please enter a complete due date or leave all fields blank")
             (js "#due-date-day")], None).
Proof.
  apply (proj1 (C3_incomplete_due_date sample_host sample_now)
           (Server.mkTaskFormData (Some (js "New Task")) (Some (js "Task description"))
              (Some (js "TODO")) (Some (js "15")) (Some (js "12")) None)).
  - right. right. reflexivity.
  - intros (A & _). discriminate A.
Defined.




(** C5.  A day and month that no calendar has (30 or 31 February, 31
    April, whatever the year field holds), and more generally any triple
    whose Date does not read back as the day and month that were typed, is
    rejected by both validators with "Please enter a valid due date" at
    [#due-date-day]; nothing is carried over into the next month. *)
Theorem C5_impossible_dates_rejected :
  forall (h : Host) (now : Z) (i : TaskFormInput),
    (parseInt (in_day i) = Some 30 /\ parseInt (in_month i) = Some 2)
    \/ (parseInt (in_day i) = Some 31 /\ parseInt (in_month i) = Some 2)
    \/ (parseInt (in_day i) = Some 31 /\ parseInt (in_month i) = Some 4)
    \/ mismatch (LocalTZA h) (parseInt (in_year i)) (parseInt (in_month i))
                (parseInt (in_day i)) = true ->
    (truthy (in_day i) = true -> truthy (in_month i) = true ->
     truthy (in_year i) = true ->
     server_errors h now (to_body i)
     = push (Server.check_description (to_body i)
               (Server.check_title (to_body i) []))
            (mkFieldError (js "Please enter a valid due date")
                          (js "#due-date-day")))
    /\ (truthy (trim (in_day i)) = true -> truthy (trim (in_month i)) = true ->
        truthy (trim (in_year i)) = true ->
        client_errors h now (to_form i)
        = push (Client.errors (Client.check_description (to_form i)
                                 (Client.check_title (to_form i) Client.initial)))
               (mkFieldError (js "Please enter a valid due date")
                             (js "#due-date-day"))).
Proof.
  intros h now i H.
  assert (Mi : mismatch (LocalTZA h) (parseInt (in_year i)) (parseInt (in_month i))
                 (parseInt (in_day i)) = true).
  { destruct H as [H | [H | [H | H]]]; [ | | | exact H ];
      apply mismatch_impossible; tauto. }
  split; intros Td Tm Ty.
  - apply server_invalid; assumption.
  - apply client_invalid; auto.
Qed.

Lemma C5_impossible_dates_rejected_witness :
  server_errors sample_host sample_now
    (to_body (mkTaskFormInput (js "Pay rent") (js "Monthly payment") (js "TODO")
                (js "30") (js "02") (js "2028")))
  = [mkFieldError (js "Please enter a valid due date") (js "#due-date-day")]
  /\ client_errors sample_host sample_now
       (to_form (mkTaskFormInput (js "Pay rent") (js "Monthly payment") (js "TODO")
                   (js "30") (js "02") (js "2028")))
     = [mkFieldError (js "Please enter a valid due date") (js "#due-date-day")].
Proof.
  destruct (C5_impossible_dates_rejected sample_host sample_now
              (mkTaskFormInput (js "Pay rent") (js "Monthly payment") (js "TODO")
                 (js "30") (js "02") (js "2028"))) as [S C].
  - left. split; reflexivity.
  - split; [ apply S | apply C ]; reflexivity.
Defined.

(** C6.  Server-side validation runs every check and returns all errors at
    once, in the order title, description, due date: the errors returned
    are the title error if the title is blank, then the description error
    if the description is blank, then whatever the due-date statement
    reports when it is run on its own, and the [dueDate] is the one that
    statement leaves.  What the due-date statement reports is at most one
    error and depends on the three date fields only: nothing when all are
    empty, the incomplete-date error when some are, and with all three
    filled in the invalid-date error when the Date does not read back as
    typed, else the future-date error when it is today or earlier.  So no
    check is skipped because an earlier one failed, and validation always
    returns. *)
Theorem C6_all_errors_in_field_order :
  forall (h : Host) (now : Z) (body : Server.TaskFormData),
  exists (dateErrors : list FieldError) (dueDate : option jsstring),
    Server.check_due_date h now body [] = Some (dateErrors, dueDate)
    /\ Server.validate h now body
       = Some ((if negb (truthy_opt (Server.trim_opt (Server.title body)))
                then [mkFieldError (js "Title is required") (js "#title")]
                else [])
               ++ (if negb (truthy_opt (Server.trim_opt (Server.description body)))
                   then [mkFieldError (js "Description is required")
                                      (js "#description")]
                   else [])
               ++ dateErrors,
               dueDate)
    /\ dateErrors
       = (let dd := Server.due_date_day body in
          let mm := Server.due_date_month body in
          let yy := Server.due_date_year body in
          let dN := Server.parseInt_opt dd in
          let mN := Server.parseInt_opt mm in
          let yN := Server.parseInt_opt yy in
          if negb (truthy_opt dd || truthy_opt mm || truthy_opt yy)
          then []
          else if negb (truthy_opt dd && truthy_opt mm && truthy_opt yy)
          then [mkFieldError
                  (js "Please enter a complete due date or leave all fields blank")
                  (js "#due-date-day")]
          else if mismatch (LocalTZA h) yN mN dN
          then [mkFieldError (js "Please enter a valid due date")
                             (js "#due-date-day")]
          else if date_le (dateObj_of (LocalTZA h) yN mN dN)
                          (today_of (LocalTZA h) now)
          then [mkFieldError (js "Due date must be in the future")
                             (js "#due-date-day")]
          else [])
    /\ (List.length dateErrors <= 1)%nat.
Proof.
  intros h now body.
  destruct (validate_errors_split h now body) as (de & due & V & D0).
  exists de, due. split; [ exact D0 | ]. split; [ exact V | ].
  cbv zeta.
  assert (E : de
              = if negb (truthy_opt (Server.due_date_day body)
                         || truthy_opt (Server.due_date_month body)
                         || truthy_opt (Server.due_date_year body))
                then []
                else if negb (truthy_opt (Server.due_date_day body)
                              && truthy_opt (Server.due_date_month body)
                              && truthy_opt (Server.due_date_year body))
                then [Server.date_incomplete]
                else if mismatch (LocalTZA h)
                          (Server.parseInt_opt (Server.due_date_year body))
                          (Server.parseInt_opt (Server.due_date_month body))
                          (Server.parseInt_opt (Server.due_date_day body))
                then [Server.date_invalid]
                else if date_le
                          (dateObj_of (LocalTZA h)
                             (Server.parseInt_opt (Server.due_date_year body))
                             (Server.parseInt_opt (Server.due_date_month body))
                             (Server.parseInt_opt (Server.due_date_day body)))
                          (today_of (LocalTZA h) now)
                then [Server.date_not_future]
                else []).
  { pose proof (server_absent h now body []) as SA.
    pose proof (server_incomplete h now body []) as SI.
    pose proof (server_complete_cases h now body []) as SC.
    unfold is_empty in SA, SI.
    destruct (truthy_opt (Server.due_date_day body));
      destruct (truthy_opt (Server.due_date_month body));
      destruct (truthy_opt (Server.due_date_year body)); cbn [orb andb negb].
    1: { rewrite SC in D0 by reflexivity. unfold push in D0. cbn [app] in D0.
         destruct (mismatch _ _ _ _) eqn:Mi; [ congruence | ].
         destruct (date_le _ _); [ congruence | ].
         destruct (toISOString _); congruence. }
    7: { rewrite SA in D0 by reflexivity. congruence. }
    all: rewrite SI in D0;
      [ unfold push in D0; cbn [app] in D0; congruence
      | first [ left; reflexivity | right; left; reflexivity | right; right; reflexivity ]
      | intros (A & B & C);
        first [ discriminate A | discriminate B | discriminate C ] ]. }
  split; [ exact E | ].
  rewrite E.
  destruct (truthy_opt (Server.due_date_day body)),
    (truthy_opt (Server.due_date_month body)),
    (truthy_opt (Server.due_date_year body)); cbn [orb andb negb];
    try (cbn [List.length]; lia).
  destruct (mismatch _ _ _ _); [ cbn [List.length]; lia | ].
  destruct (date_le _ _); cbn [List.length]; lia.
Qed.

(** C7.  The overdue flag of an assembled task is set exactly when the task
    has a due date, that date is before the current instant, and the status
    is not COMPLETED; the list helper computes the same flag for each task;
    so a CANCELLED task whose due date has passed is flagged overdue. *)
Theorem C7_overdue_flag :
  forall (h : Host) (now : Z),
    (forall task : Server.Task,
        Server.isOverdue (Server.formatSingleTask h now task) = true
        <-> exists s t,
              Server.task_dueDate task = Some s
              /\ Date_of_string (LocalTZA h) s = Some t
              /\ t < now
              /\ Server.task_status task <> js "COMPLETED")
    /\ (forall tasks : list Server.Task,
        List.map Server.listed_isOverdue (Server.formatTasksWithDates h now tasks)
        = List.map (fun task =>
                      Server.isOverdue (Server.formatSingleTask h now task))
                   tasks)
    /\ (forall (task : Server.Task) s t,
        Server.task_status task = js "CANCELLED" ->
        Server.task_dueDate task = Some s ->
        Date_of_string (LocalTZA h) s = Some t ->
        t < now ->
        Server.isOverdue (Server.formatSingleTask h now task) = true).
Proof.
  intros h now.
  assert (Single : forall task : Server.Task,
        Server.isOverdue (Server.formatSingleTask h now task) = true
        <-> exists s t,
              Server.task_dueDate task = Some s
              /\ Date_of_string (LocalTZA h) s = Some t
              /\ t < now
              /\ Server.task_status task <> js "COMPLETED").
  { intros task. unfold Server.formatSingleTask. cbn [Server.isOverdue].
    destruct (Server.task_dueDate task) as [s | ].
    - destruct s as [ | c s]; cbn [truthy].
      + split; [ discriminate | ].
        intros (s' & t & [= <-] & P & _). discriminate P.
      + rewrite overdue_true. split.
        * intros (t & P & L & N). eauto 6.
        * intros (s' & t & [= <-] & P & L & N). eauto.
    - split; [ discriminate | intros (s & t & F & _); discriminate F ]. }
  split; [ exact Single | split ].
  - intros tasks. unfold Server.formatTasksWithDates. rewrite map_map.
    apply map_ext. intros task. cbn [Server.listed_isOverdue].
    unfold Server.formatSingleTask. cbn [Server.isOverdue].
    destruct (Server.task_dueDate task) as [s | ]; [ | reflexivity ].
    destruct (truthy s); reflexivity.
  - intros task s t St Es P L. apply Single. exists s, t.
    repeat split; auto. rewrite St. discriminate.
Qed.

Lemma C7_overdue_flag_witness :
  Server.isOverdue
    (Server.formatSingleTask sample_host sample_now
       (Server.mkTask 7 (js "File appeal") (js "Prepare the bundle")
          (js "CANCELLED") (Some (js "2024-12-31T10:00:00Z"))
          (js "2024-01-01T09:00:00Z") (js "2024-01-02T09:00:00Z")))
  = true.
Proof.
  apply (proj2 (proj2 (C7_overdue_flag sample_host sample_now))
           (Server.mkTask 7 (js "File appeal") (js "Prepare the bundle")
              (js "CANCELLED") (Some (js "2024-12-31T10:00:00Z"))
              (js "2024-01-01T09:00:00Z") (js "2024-01-02T09:00:00Z"))
           (js "2024-12-31T10:00:00Z") 1735639200000).
  - reflexivity.
  - reflexivity.
  - vm_compute. reflexivity.
  - vm_compute. reflexivity.
Defined.




(** C9 as stated fails when the host clock reads a year before 2000: the
    Date constructor takes a year typed as 0..99 for 1900..1999.  On 1 June
    1990 the fields 15, 6 and 95 are accepted, the [dueDate] is 15 June
    1995, and the view shows the year 1995 where 95 was typed. *)
Lemma C9_counterexample :
  Server.validate sample_host 644241600000
    (Server.mkTaskFormData (Some (js "Pay rent")) (Some (js "Monthly payment"))
       (Some (js "TODO")) (Some (js "15")) (Some (js "6")) (Some (js "95")))
  = Some ([], Some (js "1995-06-14T23:00:00.000Z"))
  /\ Server.parseInt_opt (Some (js "95")) = Some 95
  /\ Server.dueDateYear
       (Server.formatSingleTask sample_host 644241600000
          (Server.mkTask 1 (js "Pay rent") (js "Monthly payment") (js "TODO")
             (Some (js "1995-06-14T23:00:00.000Z"))
             (js "1990-06-01T12:00:00.000Z") (js "1990-06-01T12:00:00.000Z")))
     = js "1995"
  /\ Number_toString 95 = js "95"
  /\ js "1995" <> js "95".
Proof.
  repeat split; try (vm_compute; reflexivity). discriminate.
Qed.

(** C9, amended.  On a host whose clock is at least a day inside the range
    of Date and reads the year 2000 or later: when the server accepts a due
    date and turns it into the ISO text of [dueDate], the task view built
    from a task carrying that text shows the day, month and year that were
    typed: the day and month as two digits, the year as it is. *)
Theorem C9_due_date_round_trip :
  forall (h : Host) (now : Z) (body : Server.TaskFormData)
         (errors : list FieldError) (iso : jsstring),
    clock_ok (LocalTZA h) now 2000 ->
    Server.validate h now body = Some (errors, Some iso) ->
    exists d m y,
      Server.parseInt_opt (Server.due_date_day body) = Some d
      /\ Server.parseInt_opt (Server.due_date_month body) = Some m
      /\ Server.parseInt_opt (Server.due_date_year body) = Some y
      /\ forall (now' : Z) (task : Server.Task),
          Server.task_dueDate task = Some iso ->
          Server.dueDateDay (Server.formatSingleTask h now' task)
          = padStart0 2 (Number_toString d)
          /\ Server.dueDateMonth (Server.formatSingleTask h now' task)
             = padStart0 2 (Number_toString m)
          /\ Server.dueDateYear (Server.formatSingleTask h now' task)
             = Number_toString y.
Proof.
  intros h now body errors iso [C Y2k] V.
  unfold Server.validate in V. apply server_accept_inv in V. cbv zeta in V.
  destruct V as (_ & Mi & Le & Iso).
  destruct (match_sound _ _ _ _ Mi)
    as (y & m & d & tv & Ey & Em & Ed & E & Ctv & LT & Hm & Hd & Yr & Mo & Da).
  unfold dateObj_of in Le, Iso. rewrite E in Le, Iso.
  injection Iso as <-.
  rewrite (today_of_value _ _ C) in Le.
  unfold date_le, num_le in Le. apply Z.leb_gt in Le.
  assert (NY : ~ (0 <= y <= 99)).
  { intros R.
    assert (F : MakeFullYear y = 1900 + y).
    { unfold MakeFullYear. destruct (Z.leb_spec 0 y), (Z.leb_spec y 99); cbn [andb]; lia. }
    destruct (Z.le_gt_cases (Day (LocalTime (LocalTZA h) now))
                (Day (LocalTime (LocalTZA h) tv))) as [G | G].
    - pose proof (YearFromTime_mono _ _ G). lia.
    - rewrite LT, Day_midnight in G.
      assert (0 < msPerDay) by reflexivity.
      unfold LocalTime in LT. nia. }
  rewrite (MakeFullYear_id y NY) in Yr.
  pose proof (Date_parse_ISOString (LocalTZA h) tv Ctv) as P.
  exists d, m, y. split; [ exact Ed | split; [ exact Em | split; [ exact Ey | ] ] ].
  intros now' task Due.
  repeat split.
  all: unfold Server.formatSingleTask; rewrite Due;
       cbn [Server.dueDateDay Server.dueDateMonth Server.dueDateYear];
       destruct (ISOString tv) as [ | c s] eqn:N; [ discriminate P | ];
       cbn [truthy]; unfold Date_of_string; rewrite P.
  - rewrite getDate_some, Da. reflexivity.
  - rewrite getMonth_some, Mo. cbn [num_add Server.toString_num]. do 2 f_equal. lia.
  - rewrite getFullYear_some, Yr. reflexivity.
Qed.

Lemma C9_due_date_round_trip_witness :
  exists d m y,
    Server.parseInt_opt (Some (js "3")) = Some d
    /\ Server.parseInt_opt (Some (js "12")) = Some m
    /\ Server.parseInt_opt (Some (js "2026")) = Some y
    /\ forall (now' : Z) (task : Server.Task),
        Server.task_dueDate task = Some (js "2026-12-02T23:00:00.000Z") ->
        Server.dueDateDay (Server.formatSingleTask sample_host now' task)
        = padStart0 2 (Number_toString d)
        /\ Server.dueDateMonth (Server.formatSingleTask sample_host now' task)
           = padStart0 2 (Number_toString m)
        /\ Server.dueDateYear (Server.formatSingleTask sample_host now' task)
           = Number_toString y.
Proof.
  apply (C9_due_date_round_trip sample_host sample_now
           (Server.mkTaskFormData (Some (js "Pay rent")) (Some (js "Monthly payment"))
              (Some (js "TODO")) (Some (js "3")) (Some (js "12")) (Some (js "2026")))
           [] (js "2026-12-02T23:00:00.000Z")).
  - split; vm_compute; discriminate.
  - vm_compute. reflexivity.
Defined.

(** C10.  The server tests the raw due-date strings: if one of them is a
    non-empty string of white space and the other two are empty, the date is
    incomplete and the server reports "Please enter a complete due date or
    leave all fields blank".  The browser trims each field first, finds
    all three empty, and adds no due-date error. *)
Theorem C10_whitespace_only_date_field :
  forall (h : Host) (now : Z) (i : TaskFormInput),
    (whitespace_only (in_day i) /\ in_month i = [] /\ in_year i = [])
    \/ (in_day i = [] /\ whitespace_only (in_month i) /\ in_year i = [])
    \/ (in_day i = [] /\ in_month i = [] /\ whitespace_only (in_year i)) ->
    server_errors h now (to_body i)
    = push (Server.check_description (to_body i)
              (Server.check_title (to_body i) []))
           (mkFieldError
              (js "Please enter a complete due date or leave all fields blank")
              (js "#due-date-day"))
    /\ Client.check_due_date h now (to_form i)
         (Client.check_description (to_form i)
            (Client.check_title (to_form i) Client.initial))
       = Client.check_description (to_form i)
           (Client.check_title (to_form i) Client.initial)
    /\ client_errors h now (to_form i)
       = Client.errors (Client.check_description (to_form i)
                          (Client.check_title (to_form i) Client.initial)).
Proof.
  intros h now i H.
  assert (S : Server.validate h now (to_body i)
              = Some (push (Server.check_description (to_body i)
                              (Server.check_title (to_body i) []))
                           Server.date_incomplete, None)).
  { unfold Server.validate. apply server_incomplete; unfold is_empty;
      cbn [to_body Server.due_date_day Server.due_date_month
           Server.due_date_year truthy_opt];
      destruct H as [(W & E1 & E2) | [(E1 & W & E2) | (E1 & E2 & W)]];
      apply whitespace_only_truthy in W; rewrite E1, E2, W; cbn [truthy];
      first [ solve [ auto ] | intros (A & B & C); congruence ]. }
  assert (C : Client.check_due_date h now (to_form i)
         (Client.check_description (to_form i)
            (Client.check_title (to_form i) Client.initial))
       = Client.check_description (to_form i)
           (Client.check_title (to_form i) Client.initial)).
  { apply (client_absent h now (to_form i) _ (in_day i) (in_month i) (in_year i));
      try reflexivity;
      destruct H as [(W & E1 & E2) | [(E1 & W & E2) | (E1 & E2 & W)]];
      first [ exact (proj2 W) | rewrite E1; reflexivity | rewrite E2; reflexivity ]. }
  split; [ | split ].
  - unfold server_errors. rewrite S. reflexivity.
  - exact C.
  - unfold client_errors, Client.on_submit. rewrite C. reflexivity.
Qed.

Lemma C10_whitespace_only_date_field_witness :
  server_errors sample_host sample_now
    (to_body (mkTaskFormInput (js "Pay rent") (js "Monthly payment") (js "TODO")
                (js " ") [] []))
  = [mkFieldError
       (js "Please enter a complete due date or leave all fields blank")
       (js "#due-date-day")]
  /\ client_errors sample_host sample_now
       (to_form (mkTaskFormInput (js "Pay rent") (js "Monthly payment") (js "TODO")
                   (js " ") [] []))
     = [].
Proof.
  pose proof (C10_whitespace_only_date_field sample_host sample_now
           (mkTaskFormInput (js "Pay rent") (js "Monthly payment") (js "TODO")
                (js " ") [] [])) as W.
  destruct W as (S & _ & C).
  - left. repeat split; try reflexivity. discriminate.
  - split; [ exact S | exact C ].
Defined.

(* ================================================================== *)
(** ** More on [trim] *)
(* ================================================================== *)

Lemma trimStart_idem s : trimStart (trimStart s) = trimStart s.
Proof. apply trimStart_id, trimStart_headed. Qed.

Lemma trimEnd_idem s : trimEnd (trimEnd s) = trimEnd s.
Proof. unfold trimEnd. rewrite rev_involutive, trimStart_idem. reflexivity. Qed.

Lemma trim_headed s : headed (trim s).
Proof. destruct (trim_split s) as (_ & _ & _ & _ & _ & H). exact H. Qed.

Lemma trim_idem s : trim (trim s) = trim s.
Proof.
  unfold trim at 1. rewrite (trimStart_id _ (trim_headed s)).
  unfold trim. apply trimEnd_idem.
Qed.

(** The last character left by [trim], like the first, is not white space. *)
Lemma trim_last s c : last (trim s) c = c \/ isWhiteSpace (last (trim s) c) = false.
Proof.
  unfold trim, trimEnd.
  pose proof (trimStart_headed (rev (trimStart s))) as H.
  destruct (trimStart (rev (trimStart s))) as [ | x l]; [ left; reflexivity | right ].
  cbn [rev]. rewrite last_last. exact H.
Qed.

(* ================================================================== *)
(** ** The write handlers, run in full *)
(* ================================================================== *)

Lemma validate_no_errors h now body :
  server_errors h now body = [] ->
  exists t d dueDate,
    Server.title body = Some t /\ Server.description body = Some d
    /\ truthy (trim t) = true /\ truthy (trim d) = true
    /\ Server.validate h now body = Some ([], dueDate).
Proof.
  intros E. destruct (validate_server_errors h now body) as (due & V).
  rewrite E in V.
  pose proof V as V'. unfold Server.validate in V'.
  destruct (validate_errors_split h now body) as (de & due' & S & _).
  rewrite V in S. injection S as S _.
  destruct (Server.title body) as [t | ], (Server.description body) as [d | ];
    cbn [Server.trim_opt option_map truthy_opt] in S.
  - destruct (truthy (trim t)) eqn:Tt; [ | discriminate S ].
    destruct (truthy (trim d)) eqn:Td; [ | discriminate S ].
    exists t, d, due. auto 6.
  - destruct (negb _); discriminate S.
  - discriminate S.
  - discriminate S.
Qed.

Section CreateRun.

Variables (BACKEND_URL : jsstring) (h : Host) (req : Server.Request) (w : Server.World).

Let errors := server_errors h (Server.clock w) (Server.body req).


Lemma create_run_valid :
  errors = [] ->
  exists t d dueDate,
    Server.title (Server.body req) = Some t
    /\ Server.description (Server.body req) = Some d
    /\ truthy (trim t) = true /\ truthy (trim d) = true
    /\ Server.validate h (Server.clock w) (Server.body req) = Some ([], dueDate)
    /\ let call :=
         Server.POST (BACKEND_URL ++ js "/api/tasks")
           {| Server.p_title := trim t;
              Server.p_description := trim d;
              Server.p_status :=
                if truthy_opt (Server.status (Server.body req))
                then Server.status (Server.body req) else Some (js "TODO");
              Server.p_dueDate := dueDate |} in
       Server.calls (snd (Server.post_tasks_create BACKEND_URL h req w))
       = Server.calls w ++ [call]
       /\ (forall dt data rest,
            Server.backend w = Server.Resolved dt data :: rest ->
            Server.post_tasks_create BACKEND_URL h req w
            = (inl (Server.Redirect (js "/")),
               Server.mkWorld (Server.clock w + dt) rest (Server.calls w ++ [call]))).
Proof.
  unfold errors. intros E.
  destruct (validate_no_errors _ _ _ E) as (t & d & due & Et & Ed & Tt & Td & V).
  exists t, d, due. repeat (split; [ assumption | ]).
  assert (R : Server.run_validate h (Server.body req) w = (inl ([], due), w)).
  { unfold Server.run_validate, Server.bind, Server.Date_now. rewrite V. reflexivity. }
  cbv zeta. unfold Server.post_tasks_create, Server.try_catch, Server.bind.
  rewrite R, Et, Ed. cbn [Server.trim_or_throw Server.ret List.length Z.of_nat Z.ltb Z.compare].
  rewrite !axios_run.
  destruct (Server.backend w) as [ | [dt data | dt st] rest]; cbn [fst snd Server.calls].
  - split; [ reflexivity | intros; discriminate ].
  - split; [ reflexivity | ]. intros dt' data' rest' [= <- <- <-]. reflexivity.
  - split; [ reflexivity | intros; discriminate ].
Qed.

End CreateRun.

Section EditRun.

Variables (BACKEND_URL : jsstring) (h : Host) (req : Server.Request) (w : Server.World).

Let errors := server_errors h (Server.clock w) (Server.body req).
Let task_url := BACKEND_URL ++ js "/api/tasks/" ++ Server.params_id req.


Lemma edit_run_valid :
  errors = [] ->
  exists t d dueDate,
    Server.title (Server.body req) = Some t
    /\ Server.description (Server.body req) = Some d
    /\ truthy (trim t) = true /\ truthy (trim d) = true
    /\ Server.validate h (Server.clock w) (Server.body req) = Some ([], dueDate)
    /\ let call :=
         Server.PUT task_url
           {| Server.p_title := trim t;
              Server.p_description := trim d;
              Server.p_status := Server.status (Server.body req);
              Server.p_dueDate := dueDate |} in
       Server.calls (snd (Server.post_tasks_edit BACKEND_URL h req w))
       = Server.calls w
         ++ (if resolves w 0 then [call] else [call; Server.GET task_url])
       /\ (forall dt data rest,
            Server.backend w = Server.Resolved dt data :: rest ->
            Server.post_tasks_edit BACKEND_URL h req w
            = (inl (Server.Redirect (js "/tasks/" ++ Server.params_id req)),
               Server.mkWorld (Server.clock w + dt) rest (Server.calls w ++ [call]))).
Proof.
  unfold errors, task_url. intros E.
  destruct (validate_no_errors _ _ _ E) as (t & d & due & Et & Ed & Tt & Td & V).
  exists t, d, due. repeat (split; [ assumption | ]).
  assert (R : Server.run_validate h (Server.body req) w = (inl ([], due), w)).
  { unfold Server.run_validate, Server.bind, Server.Date_now. rewrite V. reflexivity. }
  cbv zeta. unfold Server.post_tasks_edit, Server.try_catch, Server.bind.
  rewrite R, Et, Ed. cbn [Server.trim_or_throw Server.ret List.length Z.of_nat Z.ltb Z.compare].
  rewrite !axios_run. unfold resolves.
  destruct (Server.backend w) as [ | [dt data | dt st] [ | [dt' data' | dt' st'] rest]];
    unfold Server.axios, Server.formatSingleTaskM, Server.bind, Server.Date_now,
      Server.ret;
    cbn [nth_error fst snd Server.calls Server.backend Server.clock];
    rewrite <- ?app_assoc; (split; [ reflexivity | ]);
    try (intros; discriminate);
    intros dt0 data0 rest0 [= <- <- <-]; reflexivity.
Qed.

End EditRun.

(* ================================================================== *)
(** ** Which dates are accepted *)
(* ================================================================== *)

Lemma dateObj_of_calendar tza y m d :
  Z.abs (MakeDay (MakeFullYear y) (m - 1) d * msPerDay - tza) <= maxTime ->
  dateObj_of tza (Some y) (Some m) (Some d)
  = Some (MakeDay (MakeFullYear y) (m - 1) d * msPerDay - tza).
Proof.
  intros C. unfold dateObj_of, num_sub. rewrite Date_ymd_midnight.
  apply TimeClip_ok, C.
Qed.

Lemma dateObj_of_sound tza y m d :
  mismatch tza (Some y) (Some m) (Some d) = false ->
  1 <= m <= 12
  /\ 1 <= d <= DaysInMonth (leapDays (MakeFullYear y)) (m - 1)
  /\ Z.abs (MakeDay (MakeFullYear y) (m - 1) d * msPerDay - tza) <= maxTime
  /\ dateObj_of tza (Some y) (Some m) (Some d)
     = Some (MakeDay (MakeFullYear y) (m - 1) d * msPerDay - tza).
Proof.
  intros Mi.
  destruct (match_sound _ _ _ _ Mi)
    as (y' & m' & d' & tv & [= <-] & [= <-] & [= <-] & E & Ctv & LT & Hm & Hd & _).
  assert (tv = MakeDay (MakeFullYear y) (m - 1) d * msPerDay - tza)
    by (unfold LocalTime in LT; lia).
  subst tv. auto.
Qed.

Section Accepted.

Variables (h : Host) (now : Z).
Variables y m d : Z.

Let tza := LocalTZA h.
Let day := MakeDay (MakeFullYear y) (m - 1) d.
Let today := Day (LocalTime tza now).

Hypothesis clock : Z.abs now <= maxTime - msPerDay.

(** The typed triple is a day of the calendar that a Date can hold. *)
Let on_calendar : Prop :=
  1 <= m <= 12
  /\ 1 <= d <= DaysInMonth (leapDays (MakeFullYear y)) (m - 1)
  /\ day * msPerDay - tza <= maxTime.

Lemma today_bounds : now - msPerDay < today * msPerDay - tza <= now.
Proof.
  unfold today. pose proof (Day_bounds (LocalTime tza now)) as B.
  unfold LocalTime in *. lia.
Qed.

Lemma compare_with_today (P : 0 < msPerDay) :
  today <= day ->
  Z.abs (day * msPerDay - tza) <= maxTime <-> day * msPerDay - tza <= maxTime.
Proof.
  intros L. pose proof today_bounds as B.
  assert (today * msPerDay <= day * msPerDay) by nia. lia.
Qed.

Lemma server_passes_iff (body : Server.TaskFormData) errors :
  truthy_opt (Server.due_date_day body) = true ->
  truthy_opt (Server.due_date_month body) = true ->
  truthy_opt (Server.due_date_year body) = true ->
  Server.parseInt_opt (Server.due_date_year body) = Some y ->
  Server.parseInt_opt (Server.due_date_month body) = Some m ->
  Server.parseInt_opt (Server.due_date_day body) = Some d ->
  (exists iso, Server.check_due_date h now body errors = Some (errors, Some iso))
  <-> on_calendar /\ today < day.
Proof.
  intros Td Tm Ty Ey Em Ed.
  assert (P : 0 < msPerDay) by reflexivity.
  pose proof today_bounds as B.
  rewrite server_complete_cases by assumption. rewrite Ey, Em, Ed.
  rewrite (today_of_value _ _ clock). fold tza today.
  split.
  - intros (iso & E).
    destruct (mismatch tza (Some y) (Some m) (Some d)) eqn:Mi; [ discriminate E | ].
    destruct (dateObj_of_sound _ _ _ _ Mi) as (Hm & Hd & C & D). fold day in C, D.
    rewrite D in E. unfold date_le, num_le in E.
    destruct (Z.leb_spec (day * msPerDay - tza) (today * msPerDay - tza));
      [ discriminate E | ].
    assert (today < day) by nia.
    unfold on_calendar. repeat split; try lia.
  - intros ((Hm & Hd & C) & L).
    assert (C' : Z.abs (day * msPerDay - tza) <= maxTime)
      by (apply compare_with_today; [ assumption | lia | assumption ]).
    rewrite (match_complete tza y m d Hm Hd C').
    rewrite (dateObj_of_calendar tza y m d C'). fold day.
    unfold date_le, num_le.
    destruct (Z.leb_spec (day * msPerDay - tza) (today * msPerDay - tza)); [ nia | ].
    cbn [toISOString option_map]. eauto.
Qed.

Lemma range_check_false_iff :
  range_check (Some y) (Some m) (Some d) = false
  <-> 1 <= d <= 31 /\ 1 <= m <= 12 /\ 2020 <= y.
Proof.
  unfold range_check, isNaN, num_gt, num_lt. cbn [orb].
  rewrite !orb_false_iff, !Z.ltb_ge. lia.
Qed.

Lemma client_passes_iff (form : Client.Form) (st : Client.State)
      (dayValue monthValue yearValue : jsstring) :
  Client.dayInput form = Some dayValue ->
  Client.monthInput form = Some monthValue ->
  Client.yearInput form = Some yearValue ->
  parseInt yearValue = Some y ->
  parseInt monthValue = Some m ->
  parseInt dayValue = Some d ->
  Client.check_due_date h now form st = st
  <-> on_calendar /\ 2020 <= y /\ today <= day.
Proof.
  intros Hd Hm Hy Ey Em Ed.
  assert (P : 0 < msPerDay) by reflexivity.
  pose proof today_bounds as B.
  destruct (parseInt_some_truthy _ _ Ey) as [Ty _].
  destruct (parseInt_some_truthy _ _ Em) as [Tm _].
  destruct (parseInt_some_truthy _ _ Ed) as [Td _].
  rewrite (client_complete_cases h now form st dayValue monthValue yearValue
             Hd Hm Hy Td Tm Ty).
  rewrite Ey, Em, Ed, (today_of_value _ _ clock). fold tza today.
  assert (Grow : forall msg, Client.fail_date st msg <> st).
  { intros msg E. apply (f_equal (fun s => List.length (Client.errors s))) in E.
    cbn in E. unfold push in E. rewrite length_app in E. cbn in E. lia. }
  split.
  - intros E.
    destruct (range_check (Some y) (Some m) (Some d)) eqn:Rc;
      [ exfalso; exact (Grow _ E) | ].
    destruct (mismatch tza (Some y) (Some m) (Some d)) eqn:Mi;
      [ exfalso; exact (Grow _ E) | ].
    destruct (dateObj_of_sound _ _ _ _ Mi) as (Hm' & Hd' & C & D). fold day in C, D.
    rewrite D in E. unfold date_lt, num_lt in E.
    destruct (Z.ltb_spec (day * msPerDay - tza) (today * msPerDay - tza));
      [ exfalso; exact (Grow _ E) | ].
    apply range_check_false_iff in Rc.
    assert (today <= day) by nia.
    unfold on_calendar. repeat split; lia.
  - intros ((Hm' & Hd' & C) & Y & L).
    assert (C' : Z.abs (day * msPerDay - tza) <= maxTime)
      by (apply compare_with_today; assumption).
    assert (Rc : range_check (Some y) (Some m) (Some d) = false).
    { apply range_check_false_iff.
      pose proof (DaysInMonth_le_31 (leapDays (MakeFullYear y)) (m - 1)) as D31.
      destruct (leapDays_cases (MakeFullYear y)) as [[Lp _] | [Lp _]]; lia. }
    rewrite Rc, (match_complete tza y m d Hm' Hd' C').
    rewrite (dateObj_of_calendar tza y m d C'). fold day.
    unfold date_lt, num_lt.
    destruct (Z.ltb_spec (day * msPerDay - tza) (today * msPerDay - tza)); [ nia | ].
    reflexivity.
Qed.

End Accepted.

(* ================================================================== *)
(** ** One error for each field *)
(* ================================================================== *)

Lemma check_due_date_hrefs h now body dateErrors dueDate :
  Server.check_due_date h now body [] = Some (dateErrors, dueDate) ->
  List.map href dateErrors = []
  \/ List.map href dateErrors = [js "#due-date-day"].
Proof.
  destruct (truthy_opt (Server.due_date_day body)) eqn:Ed;
  destruct (truthy_opt (Server.due_date_month body)) eqn:Em;
  destruct (truthy_opt (Server.due_date_year body)) eqn:Ey.
  1: { rewrite server_complete_cases by assumption.
       destruct (mismatch _ _ _ _); [ intros [= <- _]; right; reflexivity | ].
       destruct (date_le _ _); [ intros [= <- _]; right; reflexivity | ].
       destruct (toISOString _); [ | discriminate ].
       intros [= <- _]. left. reflexivity. }
  7: { rewrite server_absent by assumption. intros [= <- _]. left. reflexivity. }
  all: rewrite server_incomplete
         by (unfold is_empty; first [ tauto | intros (A & B & C); congruence ]);
       intros [= <- _]; right; reflexivity.
Qed.

Lemma server_hrefs h now body :
  exists t d e : bool,
    List.map href (server_errors h now body)
    = (if t then [js "#title"] else [])
      ++ (if d then [js "#description"] else [])
      ++ (if e then [js "#due-date-day"] else []).
Proof.
  destruct (validate_errors_split h now body) as (de & due & V & D0).
  unfold server_errors. rewrite V, !map_app.
  exists (negb (truthy_opt (Server.trim_opt (Server.title body)))),
    (negb (truthy_opt (Server.trim_opt (Server.description body)))).
  destruct (check_due_date_hrefs _ _ _ _ _ D0) as [E | E]; rewrite E;
    [ exists false | exists true ];
    destruct (negb (truthy_opt (Server.trim_opt (Server.title body)))),
      (negb (truthy_opt (Server.trim_opt (Server.description body))));
    reflexivity.
Qed.

Lemma three_hrefs_NoDup (t d e : bool) :
  NoDup ((if t then [js "#title"] else [])
         ++ (if d then [js "#description"] else [])
         ++ (if e then [js "#due-date-day"] else []))
  /\ (List.length ((if t then [js "#title"] else [])
                   ++ (if d then [js "#description"] else [])
                   ++ (if e then [js "#due-date-day"] else [])) <= 3)%nat.
Proof.
  destruct t, d, e; cbn [app List.length]; (split; [ | lia ]);
    repeat constructor; cbn [In]; intros F;
    repeat (destruct F as [F | F]; [ discriminate F | ]); exact F.
Qed.

(* ================================================================== *)
(** ** The browser's listener, step by step *)
(* ================================================================== *)

Lemma check_title_steps form st :
  steps (js "#title") st (Client.check_title form st).
Proof.
  unfold steps, Client.check_title.
  destruct (Client.titleInput form) as [v | ]; [ | left; reflexivity ].
  destruct (negb (truthy (trim v))); [ right; eauto | ].
  destruct (List.length (trim v) <? 3)%nat; [ right; eauto | left; reflexivity ].
Qed.

Lemma check_description_steps form st :
  steps (js "#description") st (Client.check_description form st).
Proof.
  unfold steps, Client.check_description.
  destruct (Client.descriptionInput form) as [v | ]; [ | left; reflexivity ].
  destruct (negb (truthy (trim v))); [ right; eauto | ].
  destruct (List.length (trim v) <? 10)%nat; [ right; eauto | left; reflexivity ].
Qed.

Lemma check_due_date_steps h now form st :
  steps (js "#due-date-day") st (Client.check_due_date h now form st).
Proof.
  unfold steps.
  destruct (Client.dayInput form) as [dv | ] eqn:Hd;
    [ | left; unfold Client.check_due_date; rewrite Hd; reflexivity ].
  destruct (Client.monthInput form) as [mv | ] eqn:Hm;
    [ | left; unfold Client.check_due_date; rewrite Hd, Hm; reflexivity ].
  destruct (Client.yearInput form) as [yv | ] eqn:Hy;
    [ | left; unfold Client.check_due_date; rewrite Hd, Hm, Hy; reflexivity ].
  destruct (truthy (trim dv)) eqn:Td; destruct (truthy (trim mv)) eqn:Tm;
    destruct (truthy (trim yv)) eqn:Ty;
    try apply truthy_false in Td; try apply truthy_false in Tm;
    try apply truthy_false in Ty.
  1: { rewrite (client_complete_cases h now form st dv mv yv) by assumption.
       destruct (range_check _ _ _); [ right; unfold Client.fail_date; eauto | ].
       destruct (mismatch _ _ _ _); [ right; unfold Client.fail_date; eauto | ].
       destruct (date_lt _ _); [ right; unfold Client.fail_date; eauto | ].
       left. reflexivity. }
  7: { left. apply (client_absent h now form st dv mv yv); assumption. }
  all: right; rewrite (client_incomplete h now form st dv mv yv Hd Hm Hy);
       [ unfold Client.fail_date; eauto | | ].
  all: try solve [ left; assumption | right; left; assumption
                 | right; right; assumption ].
  all: intros (A & B & C).
  all: try (rewrite A in Td; discriminate Td).
  all: try (rewrite B in Tm; discriminate Tm).
  all: try (rewrite C in Ty; discriminate Ty).
Qed.

Lemma steps_coherent hrefTo st st' :
  steps hrefTo st st' -> coherent st -> coherent st'.
Proof.
  intros [-> | (inputs & anchor & message & ->)] [F M]; [ split; assumption | ].
  unfold coherent, Client.fail, push. cbn [Client.hasErrors Client.errors Client.messages].
  rewrite !map_app, M, length_app. cbn [List.map List.length snd text]. split; [ | reflexivity ].
  destruct (List.length (Client.errors st) + 1)%nat eqn:E; [ lia | reflexivity ].
Qed.

Lemma steps_hrefs hrefTo st st' :
  steps hrefTo st st' ->
  exists b : bool,
    List.map href (Client.errors st')
    = List.map href (Client.errors st) ++ (if b then [hrefTo] else []).
Proof.
  intros [-> | (inputs & anchor & message & ->)].
  - exists false. rewrite app_nil_r. reflexivity.
  - exists true. unfold Client.fail, push. cbn [Client.errors].
    rewrite map_app. reflexivity.
Qed.

Lemma client_hrefs h now form :
  exists t d e : bool,
    List.map href (client_errors h now form)
    = (if t then [js "#title"] else [])
      ++ (if d then [js "#description"] else [])
      ++ (if e then [js "#due-date-day"] else []).
Proof.
  unfold client_errors, Client.on_submit.
  destruct (steps_hrefs _ _ _ (check_title_steps form Client.initial)) as (t & Et).
  destruct (steps_hrefs _ _ _
              (check_description_steps form (Client.check_title form Client.initial)))
    as (d & Ed).
  destruct (steps_hrefs _ _ _
              (check_due_date_steps h now form
                 (Client.check_description form
                    (Client.check_title form Client.initial)))) as (e & Ee).
  exists t, d, e. rewrite Ee, Ed, Et. cbn [Client.initial Client.errors List.map app].
  rewrite app_assoc. reflexivity.
Qed.

Lemma on_submit_coherent h now form : coherent (Client.on_submit h now form).
Proof.
  unfold Client.on_submit.
  eapply steps_coherent; [ apply check_due_date_steps | ].
  eapply steps_coherent; [ apply check_description_steps | ].
  eapply steps_coherent; [ apply check_title_steps | ].
  split; reflexivity.
Qed.

(* ================================================================== *)
(** ** The list routes, run in full *)
(* ================================================================== *)

Ltac run_eff :=
  cbv beta iota zeta delta
    [Routes.try_catch Routes.bind Routes.axios_all Routes.axios Routes.send
     Routes.await Routes.ret Routes.throw Routes.as_array
     Routes.answer Routes.issued fst snd].

Section ListRoutes.

Variables (BACKEND_URL : jsstring) (h : Host) (now : Z) (n : Routes.Net).

(** What [Promise.all] of two requests followed by [k] comes to. *)
Lemma axios_all_run (A : Type) (a b : Routes.Request)
      (k : Routes.Data * Routes.Data -> Routes.Eff A) :
  Routes.bind (Routes.axios_all a b) k n
  = match Routes.answer n a, Routes.answer n b with
    | Routes.Resolve x, Routes.Resolve y =>
        k (x, y) (Routes.mkNet (Routes.answer n) (Routes.issued n ++ [a; b]))
    | Routes.Reject st, _ =>
        (inr (Routes.AxiosError st),
         Routes.mkNet (Routes.answer n) (Routes.issued n ++ [a; b]))
    | Routes.Resolve _, Routes.Reject st =>
        (inr (Routes.AxiosError st),
         Routes.mkNet (Routes.answer n) (Routes.issued n ++ [a; b]))
    end.
Proof.
  run_eff.
  destruct n as [ans log]; run_eff.
  destruct (ans a), (ans b); run_eff; rewrite <- ?app_assoc; reflexivity.
Qed.

Let tasks_url := BACKEND_URL ++ js "/api/tasks".
Let stats_url := BACKEND_URL ++ js "/api/tasks/statistics".
Let example_url := BACKEND_URL ++ js "/get-example-case".

Lemma get_home_loaded list stats :
  Routes.answer n (Routes.Get tasks_url) = Routes.Resolve (Routes.TaskListData list) ->
  Routes.answer n (Routes.Get stats_url) = Routes.Resolve stats ->
  Routes.get_home BACKEND_URL h now n
  = (inl (Routes.render_home
            {| Routes.error := None;
               Routes.tasks := Server.formatTasksWithDates h now list;
               Routes.statistics := Some stats;
               Routes.example :=
                 match Routes.answer n (Routes.Get example_url) with
                 | Routes.Resolve d => Some d
                 | Routes.Reject _ => None
                 end;
               Routes.currentFilter := js "all";
               Routes.searchTerm := None |}),
     Routes.mkNet (Routes.answer n)
       (Routes.issued n
        ++ [Routes.Get tasks_url; Routes.Get stats_url; Routes.Get example_url])).
Proof.
  unfold tasks_url, stats_url, example_url. intros Et Es.
  unfold Routes.get_home. unfold Routes.try_catch at 1.
  rewrite axios_all_run, Et, Es.
  destruct n as [ans log]. cbn [Routes.answer Routes.issued] in *. run_eff.
  destruct (ans (Routes.Get (BACKEND_URL ++ js "/get-example-case")));
    rewrite <- ?app_assoc; reflexivity.
Qed.

Lemma get_home_failed :
  (forall list, Routes.answer n (Routes.Get tasks_url)
                <> Routes.Resolve (Routes.TaskListData list))
  \/ (exists st, Routes.answer n (Routes.Get stats_url) = Routes.Reject st) ->
  fst (Routes.get_home BACKEND_URL h now n)
  = inl (Routes.render_home
           (Routes.failed_home
              (js "Failed to load tasks. Please try again later.")
              (js "all") None)).
Proof.
  unfold tasks_url, stats_url. intros F.
  unfold Routes.get_home. unfold Routes.try_catch at 1.
  rewrite axios_all_run.
  destruct n as [ans log]. cbn [Routes.answer Routes.issued] in *.
  destruct (ans (Routes.Get (BACKEND_URL ++ js "/api/tasks")))
    as [[list | t | s | j] | st] eqn:Et;
    destruct (ans (Routes.Get (BACKEND_URL ++ js "/api/tasks/statistics")))
      as [stats | st'] eqn:Es; run_eff;
    try reflexivity;
    try (destruct (ans (Routes.Get (BACKEND_URL ++ js "/get-example-case")));
         reflexivity).
  exfalso. destruct F as [F | (st & F)]; [ apply (F list); reflexivity | discriminate F ].
Qed.

Lemma get_home_rejected_issued :
  (exists st, Routes.answer n (Routes.Get tasks_url) = Routes.Reject st)
  \/ (exists st, Routes.answer n (Routes.Get stats_url) = Routes.Reject st) ->
  Routes.issued (snd (Routes.get_home BACKEND_URL h now n))
  = Routes.issued n ++ [Routes.Get tasks_url; Routes.Get stats_url].
Proof.
  unfold tasks_url, stats_url. intros F.
  unfold Routes.get_home. unfold Routes.try_catch at 1.
  rewrite axios_all_run.
  destruct n as [ans log]. cbn [Routes.answer Routes.issued] in *.
  destruct (ans (Routes.Get (BACKEND_URL ++ js "/api/tasks")))
    as [d | st] eqn:Et;
    destruct (ans (Routes.Get (BACKEND_URL ++ js "/api/tasks/statistics")))
      as [stats | st'] eqn:Es; run_eff; try reflexivity.
  exfalso. destruct F as [(st & F) | (st & F)]; discriminate F.
Qed.


Lemma get_tasks_search_blank q :
  q = None \/ q = Some [] ->
  Routes.get_tasks_search BACKEND_URL h now q n
  = (inl (Routes.redirect (js "/")), n).
Proof. intros [-> | ->]; reflexivity. Qed.

Lemma get_tasks_search_run query :
  query <> [] ->
  Routes.get_tasks_search BACKEND_URL h now (Some query) n
  = match URI.encodeURIComponent query with
    | None =>
        (inl (Routes.render_home
                (Routes.failed_home (js "Search failed. Please try again.")
                   (js "search") (Some query))), n)
    | Some encoded =>
        (inl (Routes.render_home
                match Routes.answer n
                        (Routes.Get (BACKEND_URL ++ js "/api/tasks/search?query="
                                                 ++ encoded)),
                      Routes.answer n (Routes.Get stats_url) with
                | Routes.Resolve (Routes.TaskListData list), Routes.Resolve stats =>
                    {| Routes.error := None;
                       Routes.tasks := Server.formatTasksWithDates h now list;
                       Routes.statistics := Some stats;
                       Routes.example := None;
                       Routes.currentFilter := js "search";
                       Routes.searchTerm := Some query |}
                | _, _ =>
                    Routes.failed_home (js "Search failed. Please try again.")
                      (js "search") (Some query)
                end),
         Routes.mkNet (Routes.answer n)
           (Routes.issued n
            ++ [Routes.Get (BACKEND_URL ++ js "/api/tasks/search?query=" ++ encoded);
                Routes.Get stats_url]))
    end.
Proof.
  unfold stats_url. intros N.
  unfold Routes.get_tasks_search. unfold Routes.try_catch at 1.
  destruct query as [ | c query]; [ congruence | ]. cbn [truthy].
  destruct (URI.encodeURIComponent (c :: query)) as [encoded | ].
  - unfold Routes.bind at 1. unfold Routes.ret at 1.
    rewrite axios_all_run.
    destruct n as [ans log]. cbn [Routes.answer Routes.issued] in *.
    destruct (ans (Routes.Get (BACKEND_URL ++ js "/api/tasks/search?query=" ++ encoded)))
      as [[list | t | s | j] | st];
      destruct (ans (Routes.Get (BACKEND_URL ++ js "/api/tasks/statistics")))
        as [stats | st']; run_eff; reflexivity.
  - reflexivity.
Qed.

Lemma post_tasks_status_run id status :
  Routes.post_tasks_status BACKEND_URL id status n
  = (inl (Routes.redirect (js "/tasks/" ++ id)),
     Routes.mkNet (Routes.answer n)
       (Routes.issued n
        ++ [Routes.Patch (BACKEND_URL ++ js "/api/tasks/" ++ id ++ js "/status")
                         status])).
Proof.
  unfold Routes.post_tasks_status.
  destruct n as [ans log]. run_eff.
  destruct (ans _); reflexivity.
Qed.

Lemma post_tasks_delete_run id :
  Routes.post_tasks_delete BACKEND_URL id n
  = (inl (Routes.redirect
            match Routes.answer n (Routes.Delete (BACKEND_URL ++ js "/api/tasks/" ++ id)) with
            | Routes.Resolve _ => js "/"
            | Routes.Reject _ => js "/tasks/" ++ id
            end),
     Routes.mkNet (Routes.answer n)
       (Routes.issued n ++ [Routes.Delete (BACKEND_URL ++ js "/api/tasks/" ++ id)])).
Proof.
  unfold Routes.post_tasks_delete.
  destruct n as [ans log]. run_eff.
  destruct (ans _); reflexivity.
Qed.

End ListRoutes.

(* ================================================================== *)
(** ** Loading one task *)
(* ================================================================== *)

Section LoadTask.

Variables (BACKEND_URL : jsstring) (h : Host).
Variables (view message : jsstring) (req : Server.Request) (w : Server.World).

Let url := BACKEND_URL ++ js "/api/tasks/" ++ Server.params_id req.

Lemma load_task_run :
  Routes.load_task BACKEND_URL h view message req w
  = match Server.backend w with
    | Server.Resolved dt data :: rest =>
        (inl (Routes.render view
                {| Server.l_task :=
                     Some (Server.formatSingleTask h (Server.clock w + dt) data);
                   Server.l_errors := None;
                   Server.l_formData := None;
                   Server.l_error := None;
                   Server.l_message := None;
                   Server.l_csrfToken := Some (Server.csrf req) |}),
         Server.mkWorld (Server.clock w + dt) rest (Server.calls w ++ [Server.GET url]))
    | Server.Rejected dt st :: rest =>
        (inl (Routes.load_failed message (Server.AxiosError st)),
         Server.mkWorld (Server.clock w + dt) rest (Server.calls w ++ [Server.GET url]))
    | [] =>
        (inl (Routes.load_failed message (Server.AxiosError None)),
         Server.mkWorld (Server.clock w) [] (Server.calls w ++ [Server.GET url]))
    end.
Proof.
  unfold url, Routes.load_task, Server.try_catch, Server.bind.
  rewrite axios_run.
  destruct (Server.backend w) as [ | [dt data | dt st] rest]; reflexivity.
Qed.

End LoadTask.

(* ================================================================== *)
(** ** [encodeURIComponent] *)
(* ================================================================== *)

Lemma hexDigit_unescaped n : URI.isUnescaped (URI.hexDigit n) = true.
Proof.
  unfold URI.hexDigit. cbv zeta.
  pose proof (N.mod_upper_bound n 16 ltac:(discriminate)) as B.
  unfold URI.isUnescaped.
  generalize dependent (n mod 16)%N. intros r B.
  destruct (N.ltb_spec r 10) as [L | L].
  - assert (E : ((48 <=? 48 + r) && (48 + r <=? 57))%N = true)
      by (apply andb_true_iff; split; apply N.leb_le; lia).
    rewrite E. reflexivity.
  - assert (E : ((65 <=? 55 + r) && (55 + r <=? 90))%N = true)
      by (apply andb_true_iff; split; apply N.leb_le; lia).
    rewrite E, orb_true_r. reflexivity.
Qed.

Lemma escapeOctet_safe b : Forall uri_safe (URI.escapeOctet b).
Proof.
  unfold URI.escapeOctet.
  apply Forall_cons; [ right; reflexivity | ].
  apply Forall_cons; [ left; apply hexDigit_unescaped | ].
  apply Forall_cons; [ left; apply hexDigit_unescaped | apply Forall_nil ].
Qed.

Lemma escapeCodePoint_safe cp : Forall uri_safe (URI.escapeCodePoint cp).
Proof.
  unfold URI.escapeCodePoint. induction (URI.utf8 cp) as [ | b l IH]; cbn [List.map concat].
  - constructor.
  - apply Forall_app. split; [ apply escapeOctet_safe | exact IH ].
Qed.

Lemma encodeURIComponent_safe_upto (k : nat) : forall s e,
  (List.length s <= k)%nat ->
  URI.encodeURIComponent s = Some e -> Forall uri_safe e.
Proof.
  induction k as [ | k IH]; intros s e L E.
  - destruct s; [ | cbn in L; lia ]. injection E as <-. constructor.
  - destruct s as [ | c rest]; [ injection E as <-; constructor | ].
    cbn [List.length] in L. cbn [URI.encodeURIComponent] in E.
    destruct (URI.isUnescaped c) eqn:U.
    + destruct (URI.encodeURIComponent rest) as [e' | ] eqn:R; [ | discriminate E ].
      injection E as <-. constructor; [ left; exact U | ].
      apply (IH rest); [ lia | exact R ].
    + destruct (URI.isLowSurrogate c); [ discriminate E | ].
      destruct (URI.isHighSurrogate c).
      * destruct rest as [ | c2 rest']; [ discriminate E | ].
        destruct (URI.isLowSurrogate c2); [ | discriminate E ].
        destruct (URI.encodeURIComponent rest') as [e' | ] eqn:R; [ | discriminate E ].
        injection E as <-. apply Forall_app. split; [ apply escapeCodePoint_safe | ].
        apply (IH rest'); [ cbn [List.length] in L; lia | exact R ].
      * destruct (URI.encodeURIComponent rest) as [e' | ] eqn:R; [ | discriminate E ].
        injection E as <-. apply Forall_app. split; [ apply escapeCodePoint_safe | ].
        apply (IH rest); [ lia | exact R ].
Qed.

Lemma encodeURIComponent_safe s e :
  URI.encodeURIComponent s = Some e -> Forall uri_safe e.
Proof. apply (encodeURIComponent_safe_upto (List.length s)). lia. Qed.

Lemma encodeURIComponent_unescaped s :
  Forall (fun c => URI.isUnescaped c = true) s -> URI.encodeURIComponent s = Some s.
Proof.
  induction 1 as [ | c s U _ IH]; [ reflexivity | ].
  cbn [URI.encodeURIComponent]. rewrite U, IH. reflexivity.
Qed.

Lemma encodeURIComponent_no_surrogate s :
  Forall (fun c => URI.isHighSurrogate c = false /\ URI.isLowSurrogate c = false) s ->
  exists e, URI.encodeURIComponent s = Some e.
Proof.
  induction 1 as [ | c s [Hh Hl] _ (e & IH)]; [ eexists; reflexivity | ].
  cbn [URI.encodeURIComponent]. rewrite Hh, Hl, IH.
  destruct (URI.isUnescaped c); eexists; reflexivity.
Qed.

Lemma uri_safe_not_reserved c :
  uri_safe c ->
  c <> ch "&" /\ c <> ch "=" /\ c <> ch "#" /\ c <> ch "?" /\ c <> ch "/"
  /\ c <> ch "+" /\ c <> ch " ".
Proof.
  intros [U | ->]; [ | repeat split; discriminate ].
  unfold URI.isUnescaped in U.
  rewrite !orb_true_iff, !andb_true_iff, !N.leb_le, !N.eqb_eq in U.
  cbn. repeat split; lia.
Qed.

(* ================================================================== *)
(** ** Printing a number and reading it back *)
(* ================================================================== *)

Lemma all_from_spec f fuel : forall z,
  all_from f fuel z = true ->
  forall k, z <= k < z + Z.of_nat fuel -> f k = true.
Proof.
  induction fuel as [ | fuel IH]; intros z A k R; [ cbn in R; lia | ].
  cbn [all_from] in A. apply andb_true_iff in A. destruct A as [Fz A].
  destruct (Z.eq_dec k z) as [-> | N]; [ exact Fz | ].
  apply (IH (z + 1) A). rewrite Nat2Z.inj_succ in R. lia.
Qed.

Lemma years_read_back : all_from reads_back (Z.to_nat 275761) 0 = true.
Proof. vm_cast_no_check (@eq_refl bool true). Qed.

Lemma days_read_back : all_from reads_back_padded (Z.to_nat 100) 0 = true.
Proof. vm_compute. reflexivity. Qed.

Lemma parseInt_toString n :
  0 <= n <= 275760 -> parseInt (Number_toString n) = Some n.
Proof.
  intros R. pose proof (all_from_spec _ _ _ years_read_back n) as A.
  rewrite Z2Nat.id in A by lia. specialize (A ltac:(lia)).
  unfold reads_back in A. destruct (parseInt (Number_toString n)) as [v | ];
    [ | discriminate A ].
  apply Z.eqb_eq in A. congruence.
Qed.

Lemma parseInt_padded n :
  0 <= n <= 99 ->
  parseInt (padStart0 2 (Number_toString n)) = Some n
  /\ List.length (padStart0 2 (Number_toString n)) = 2%nat.
Proof.
  intros R. pose proof (all_from_spec _ _ _ days_read_back n) as A.
  rewrite Z2Nat.id in A by lia. specialize (A ltac:(lia)).
  unfold reads_back_padded in A.
  destruct (parseInt (padStart0 2 (Number_toString n))) as [v | ]; [ | discriminate A ].
  apply andb_true_iff in A. destruct A as [A B].
  apply Z.eqb_eq in A. apply Nat.eqb_eq in B. split; congruence.
Qed.

(* ================================================================== *)
(** ** Further properties of the validators *)
(* ================================================================== *)

Lemma parseInt_opt_truthy v n :
  Server.parseInt_opt v = Some n -> truthy_opt v = true.
Proof.
  destruct v as [s | ]; [ | discriminate ]. cbn.
  intros E. apply (parseInt_some_truthy _ _ E).
Qed.

(** X1.  The validation block of the two write routes never throws: it
    only calls [toISOString] on a Date that is valid. *)
Theorem validation_never_throws :
  forall (h : Host) (now : Z) (body : Server.TaskFormData),
    Server.validate h now body <> None.
Proof.
  intros h now body. destruct (validate_total h now body) as (e & d & ->).
  discriminate.
Qed.

(** X2.  With a clock inside the range of Date, the server accepts three
    due-date fields that parse as [y], [m], [d] exactly when they name a day
    of the calendar that a Date can hold and that day is later than today;
    a year 0..99 stands for 1900..1999 here. *)
Theorem server_accepts_days_after_today :
  forall (h : Host) (now : Z) (body : Server.TaskFormData) (y m d : Z),
    Z.abs now <= maxTime - msPerDay ->
    Server.parseInt_opt (Server.due_date_year body) = Some y ->
    Server.parseInt_opt (Server.due_date_month body) = Some m ->
    Server.parseInt_opt (Server.due_date_day body) = Some d ->
    (exists errors iso, Server.validate h now body = Some (errors, Some iso))
    <-> (1 <= m <= 12
         /\ 1 <= d <= DaysInMonth (leapDays (MakeFullYear y)) (m - 1)
         /\ MakeDay (MakeFullYear y) (m - 1) d * msPerDay - LocalTZA h
            <= maxTime)
        /\ Day (LocalTime (LocalTZA h) now) < MakeDay (MakeFullYear y) (m - 1) d.
Proof.
  intros h now body y m d C Ey Em Ed.
  pose proof (parseInt_opt_truthy _ _ Ey) as Ty.
  pose proof (parseInt_opt_truthy _ _ Em) as Tm.
  pose proof (parseInt_opt_truthy _ _ Ed) as Td.
  rewrite <- (server_passes_iff h now y m d C body
                (Server.check_description body (Server.check_title body []))
                Td Tm Ty Ey Em Ed).
  unfold Server.validate. split.
  - intros (errors & iso & V). pose proof V as V'.
    apply server_accept_inv in V'. destruct V' as (-> & _). eauto.
  - intros (iso & V). eauto.
Qed.

Lemma server_accepts_days_after_today_witness :
  exists errors iso,
    Server.validate sample_host sample_now
      (Server.mkTaskFormData (Some (js "Pay rent")) (Some (js "Monthly payment"))
         None (Some (js "29")) (Some (js "2")) (Some (js "2028")))
    = Some (errors, Some iso).
Proof.
  apply (proj2 (server_accepts_days_after_today sample_host sample_now
           (Server.mkTaskFormData (Some (js "Pay rent")) (Some (js "Monthly payment"))
              None (Some (js "29")) (Some (js "2")) (Some (js "2028")))
           2028 2 29
           ltac:(vm_compute; discriminate) eq_refl eq_refl eq_refl)).
  vm_compute. repeat split; discriminate.
Defined.

(** X3.  With a clock inside the range of Date, the browser lets three
    due-date inputs that parse as [y], [m], [d] pass exactly when they name
    a day of the calendar that a Date can hold, the year is 2020 or later,
    and the day is today or later. *)
Theorem browser_accepts_days_from_today :
  forall (h : Host) (now : Z) (form : Client.Form) (st : Client.State)
         (dayValue monthValue yearValue : jsstring) (y m d : Z),
    Z.abs now <= maxTime - msPerDay ->
    Client.dayInput form = Some dayValue ->
    Client.monthInput form = Some monthValue ->
    Client.yearInput form = Some yearValue ->
    parseInt yearValue = Some y ->
    parseInt monthValue = Some m ->
    parseInt dayValue = Some d ->
    Client.check_due_date h now form st = st
    <-> (1 <= m <= 12
         /\ 1 <= d <= DaysInMonth (leapDays (MakeFullYear y)) (m - 1)
         /\ MakeDay (MakeFullYear y) (m - 1) d * msPerDay - LocalTZA h
            <= maxTime)
        /\ 2020 <= y
        /\ Day (LocalTime (LocalTZA h) now) <= MakeDay (MakeFullYear y) (m - 1) d.
Proof.
  intros h now form st dv mv yv y m d C Hd Hm Hy Ey Em Ed.
  apply (client_passes_iff h now y m d C form st dv mv yv); assumption.
Qed.

Lemma browser_accepts_days_from_today_witness :
  Client.check_due_date sample_host sample_now
    (Client.mkForm None None (Some (js "2")) (Some (js " 11")) (Some (js "2026 ")))
    Client.initial
  = Client.initial.
Proof.
  apply (proj2 (browser_accepts_days_from_today sample_host sample_now
           (Client.mkForm None None (Some (js "2")) (Some (js " 11")) (Some (js "2026 ")))
           Client.initial (js "2") (js " 11") (js "2026 ") 2026 11 2
           ltac:(vm_compute; discriminate) eq_refl eq_refl eq_refl
           eq_refl eq_refl eq_refl)).
  vm_compute. repeat split; discriminate.
Defined.

(** X4.  The server reports at most one error for each field: the anchors
    of the errors it returns are all different, so there are at most
    three. *)
Theorem server_one_error_per_field :
  forall (h : Host) (now : Z) (body : Server.TaskFormData),
    NoDup (List.map href (server_errors h now body))
    /\ (List.length (server_errors h now body) <= 3)%nat.
Proof.
  intros h now body. destruct (server_hrefs h now body) as (t & d & e & E).
  rewrite <- (length_map href), E. apply three_hrefs_NoDup.
Qed.

(** X5.  The browser reports at most one error for each field, whatever
    inputs the form has: each field is checked by one [if]/[else if]
    chain, so the anchors of its errors are all different and there are at
    most three. *)
Theorem browser_one_error_per_field :
  forall (h : Host) (now : Z) (form : Client.Form),
    NoDup (List.map href (client_errors h now form))
    /\ (List.length (client_errors h now form) <= 3)%nat.
Proof.
  intros h now form. destruct (client_hrefs h now form) as (t & d & e & E).
  rewrite <- (length_map href), E. apply three_hrefs_NoDup.
Qed.

(** X6.  The browser's listener keeps its flag, its summary and its inline
    messages in step: the submission is prevented exactly when the summary
    has an entry, and the inline messages are the texts of the summary
    entries, in the same order. *)
Theorem browser_state_coherent :
  forall (h : Host) (now : Z) (form : Client.Form),
    (Client.defaultPrevented h now form = true <-> client_errors h now form <> [])
    /\ List.map snd (Client.messages (Client.on_submit h now form))
       = List.map text (client_errors h now form).
Proof.
  intros h now form. destruct (on_submit_coherent h now form) as [F M].
  split; [ | exact M ].
  unfold Client.defaultPrevented, client_errors. rewrite F.
  destruct (Client.errors (Client.on_submit h now form)); cbn; split;
    congruence.
Qed.

(** X7.  A form that has no title input, no description input and lacks one
    of the three date inputs is never held back, whatever the other inputs
    contain: the listener is attached to every form whose action mentions
    [/tasks], the status and delete forms among them. *)
Theorem browser_skips_missing_inputs :
  forall (h : Host) (now : Z) (form : Client.Form),
    Client.titleInput form = None ->
    Client.descriptionInput form = None ->
    Client.dayInput form = None \/ Client.monthInput form = None
    \/ Client.yearInput form = None ->
    Client.on_submit h now form = Client.initial
    /\ Client.defaultPrevented h now form = false.
Proof.
  intros h now form Ht Hd Hdate.
  assert (E : Client.on_submit h now form = Client.initial).
  { unfold Client.on_submit, Client.check_title, Client.check_description,
      Client.check_due_date.
    rewrite Ht, Hd.
    destruct (Client.dayInput form), (Client.monthInput form),
      (Client.yearInput form); try reflexivity.
    destruct Hdate as [F | [F | F]]; discriminate F. }
  split; [ exact E | ]. unfold Client.defaultPrevented. rewrite E. reflexivity.
Qed.

Lemma browser_skips_missing_inputs_witness :
  Client.on_submit sample_host sample_now
    (Client.mkForm None None (Some (js "31")) (Some (js "2")) None)
  = Client.initial
  /\ Client.defaultPrevented sample_host sample_now
       (Client.mkForm None None (Some (js "31")) (Some (js "2")) None)
     = false.
Proof.
  apply (browser_skips_missing_inputs sample_host sample_now
           (Client.mkForm None None (Some (js "31")) (Some (js "2")) None));
    [ reflexivity | reflexivity | right; right; reflexivity ].
Defined.

(** X8.  Trimming a field before [parseInt], as the browser does, never
    changes the number read: both validators work on the same day, month
    and year. *)
Theorem parseInt_ignores_outer_white_space :
  forall s : jsstring, parseInt (trim s) = parseInt s.
Proof. exact parseInt_trim. Qed.

(* ================================================================== *)
(** ** Further properties of the write routes *)
(* ================================================================== *)

Lemma trim_normal t :
  truthy (trim t) = true -> trim t <> [] /\ trimmed (trim t).
Proof.
  intros T. split; [ | apply trim_idem ].
  intros E. rewrite E in T. discriminate T.
Qed.

(** X9.  When a submitted form has no errors and the backend accepts the
    write, the create route makes exactly one call: a POST to [/api/tasks]
    with the trimmed title and description (neither of them empty), the
    status or [TODO] when none was sent, and the [dueDate] of validation,
    which is [null] when the three date fields were left empty; then it
    redirects to the list. *)
Theorem create_posts_normalised_task :
  forall (BACKEND_URL : jsstring) (h : Host) (req : Server.Request)
         (w : Server.World) dt data rest,
    server_errors h (Server.clock w) (Server.body req) = [] ->
    Server.backend w = Server.Resolved dt data :: rest ->
    exists t d dueDate,
      Server.title (Server.body req) = Some t
      /\ Server.description (Server.body req) = Some d
      /\ Server.validate h (Server.clock w) (Server.body req) = Some ([], dueDate)
      /\ Server.post_tasks_create BACKEND_URL h req w
         = (inl (Server.Redirect (js "/")),
            Server.mkWorld (Server.clock w + dt) rest
              (Server.calls w
               ++ [Server.POST (BACKEND_URL ++ js "/api/tasks")
                     {| Server.p_title := trim t;
                        Server.p_description := trim d;
                        Server.p_status :=
                          if truthy_opt (Server.status (Server.body req))
                          then Server.status (Server.body req)
                          else Some (js "TODO");
                        Server.p_dueDate := dueDate |}]))
      /\ (trim t <> [] /\ trimmed (trim t))
      /\ (trim d <> [] /\ trimmed (trim d))
      /\ (is_empty (Server.due_date_day (Server.body req)) ->
          is_empty (Server.due_date_month (Server.body req)) ->
          is_empty (Server.due_date_year (Server.body req)) ->
          dueDate = None).
Proof.
  intros url h req w dt data rest E B.
  destruct (create_run_valid url h req w E)
    as (t & d & due & Et & Ed & Tt & Td & V & _ & Run).
  exists t, d, due. repeat (split; [ assumption | ]).
  split; [ apply (Run dt data rest B) | ].
  split; [ apply trim_normal, Tt | ].
  split; [ apply trim_normal, Td | ].
  intros A1 A2 A3. unfold Server.validate in V.
  rewrite server_absent in V by assumption. congruence.
Qed.

Lemma create_posts_normalised_task_witness :
  exists t d dueDate,
    Some (js "  Pay rent ") = Some t /\ Some (js "Monthly payment") = Some d
    /\ Server.post_tasks_create (js "http://localhost:8080") sample_host
         (Server.mkRequest []
            (Server.mkTaskFormData (Some (js "  Pay rent "))
               (Some (js "Monthly payment")) None None None None) None)
         (Server.mkWorld sample_now
            [Server.Resolved 20
               (Server.mkTask 1 (js "Pay rent") (js "Monthly payment") (js "TODO")
                  None (js "2026-11-02T12:00:00Z") (js "2026-11-02T12:00:00Z"))] [])
       = (inl (Server.Redirect (js "/")),
          Server.mkWorld (sample_now + 20) []
            [Server.POST (js "http://localhost:8080/api/tasks")
               {| Server.p_title := trim t;
                  Server.p_description := trim d;
                  Server.p_status := Some (js "TODO");
                  Server.p_dueDate := dueDate |}])
    /\ dueDate = None.
Proof.
  destruct (create_posts_normalised_task (js "http://localhost:8080") sample_host
         (Server.mkRequest []
            (Server.mkTaskFormData (Some (js "  Pay rent "))
               (Some (js "Monthly payment")) None None None None) None)
         (Server.mkWorld sample_now
            [Server.Resolved 20
               (Server.mkTask 1 (js "Pay rent") (js "Monthly payment") (js "TODO")
                  None (js "2026-11-02T12:00:00Z") (js "2026-11-02T12:00:00Z"))] [])
         20 (Server.mkTask 1 (js "Pay rent") (js "Monthly payment") (js "TODO")
                  None (js "2026-11-02T12:00:00Z") (js "2026-11-02T12:00:00Z")) []
         ltac:(vm_compute; reflexivity) eq_refl)
    as (t & d & due & Et & Ed & _ & Run & _ & _ & Blank).
  exists t, d, due. repeat (split; [ assumption | ]).
  apply Blank; reflexivity.
Defined.

(** X10.  When a submitted form has no errors and the backend accepts the
    write, the edit route makes exactly one call: a PUT to the task's URL
    with the trimmed title and description (neither of them empty), the
    status exactly as it was sent (none is filled in when it is missing)
    and the [dueDate] of validation; then it redirects to the task. *)
Theorem edit_puts_normalised_task :
  forall (BACKEND_URL : jsstring) (h : Host) (req : Server.Request)
         (w : Server.World) dt data rest,
    server_errors h (Server.clock w) (Server.body req) = [] ->
    Server.backend w = Server.Resolved dt data :: rest ->
    exists t d dueDate,
      Server.title (Server.body req) = Some t
      /\ Server.description (Server.body req) = Some d
      /\ Server.validate h (Server.clock w) (Server.body req) = Some ([], dueDate)
      /\ Server.post_tasks_edit BACKEND_URL h req w
         = (inl (Server.Redirect (js "/tasks/" ++ Server.params_id req)),
            Server.mkWorld (Server.clock w + dt) rest
              (Server.calls w
               ++ [Server.PUT
                     (BACKEND_URL ++ js "/api/tasks/" ++ Server.params_id req)
                     {| Server.p_title := trim t;
                        Server.p_description := trim d;
                        Server.p_status := Server.status (Server.body req);
                        Server.p_dueDate := dueDate |}]))
      /\ (trim t <> [] /\ trimmed (trim t))
      /\ (trim d <> [] /\ trimmed (trim d)).
Proof.
  intros url h req w dt data rest E B.
  destruct (edit_run_valid url h req w E)
    as (t & d & due & Et & Ed & Tt & Td & V & _ & Run).
  exists t, d, due. repeat (split; [ assumption | ]).
  split; [ apply (Run dt data rest B) | ].
  split; apply trim_normal; assumption.
Qed.

Lemma edit_puts_normalised_task_witness :
  exists t d dueDate,
    Server.post_tasks_edit (js "http://localhost:8080") sample_host
      (Server.mkRequest (js "7")
         (Server.mkTaskFormData (Some (js "Pay rent"))
            (Some (js " Monthly payment")) None None None None) None)
      (Server.mkWorld sample_now
         [Server.Resolved 20
            (Server.mkTask 7 (js "Pay rent") (js "Monthly payment") (js "TODO")
               None (js "2026-11-02T12:00:00Z") (js "2026-11-02T12:00:00Z"))] [])
    = (inl (Server.Redirect (js "/tasks/7")),
       Server.mkWorld (sample_now + 20) []
         [Server.PUT (js "http://localhost:8080/api/tasks/7")
            {| Server.p_title := trim t;
               Server.p_description := trim d;
               Server.p_status := None;
               Server.p_dueDate := dueDate |}]).
Proof.
  destruct (edit_puts_normalised_task (js "http://localhost:8080") sample_host
      (Server.mkRequest (js "7")
         (Server.mkTaskFormData (Some (js "Pay rent"))
            (Some (js " Monthly payment")) None None None None) None)
      (Server.mkWorld sample_now
         [Server.Resolved 20
            (Server.mkTask 7 (js "Pay rent") (js "Monthly payment") (js "TODO")
               None (js "2026-11-02T12:00:00Z") (js "2026-11-02T12:00:00Z"))] [])
      20 (Server.mkTask 7 (js "Pay rent") (js "Monthly payment") (js "TODO")
               None (js "2026-11-02T12:00:00Z") (js "2026-11-02T12:00:00Z")) []
      ltac:(vm_compute; reflexivity) eq_refl)
    as (t & d & due & _ & _ & _ & Run & _).
  exists t, d, due. exact Run.
Defined.



(** X12.  The two write routes always answer: whatever the body and
    whatever the backend does, no exception leaves the handler. *)
Theorem write_routes_always_respond :
  forall (BACKEND_URL : jsstring) (h : Host) (req : Server.Request)
         (w : Server.World),
    (exists r, fst (Server.post_tasks_create BACKEND_URL h req w) = inl r)
    /\ (exists r, fst (Server.post_tasks_edit BACKEND_URL h req w) = inl r).
Proof.
  intros url h req w.
  assert (D : server_errors h (Server.clock w) (Server.body req) = []
              \/ server_errors h (Server.clock w) (Server.body req) <> [])
    by (destruct (server_errors h (Server.clock w) (Server.body req));
        [ left; reflexivity | right; discriminate ]).
  destruct (resolves w 0) eqn:R0; destruct (resolves w 1) eqn:R1;
    destruct D as [E | N]; split.
  all: try solve [ eexists; apply create_written; assumption
                 | eexists; apply create_invalid; assumption
                 | eexists; apply create_write_fails; assumption
                 | eexists; apply edit_written; assumption
                 | eexists; apply edit_lost; assumption ].
  all: try solve
         [ destruct (edit_invalid_refetched url h req w N R0) as (task & ->); eauto
         | destruct (edit_recovered url h req w R0 R1) as (task & ->); eauto ].
Qed.

(* ================================================================== *)
(** ** Properties of the list routes *)
(* ================================================================== *)

(** X13.  The home page is all or nothing.  When the task list arrives as
    an array and the statistics arrive, it shows both, with the example
    case if that endpoint answered and [null] if it did not.  When the
    task list is rejected or is not an array, or the statistics are
    rejected, it shows the failure message with an empty list, no
    statistics and no example.  Either way the view is [home] with filter
    [all]. *)
Theorem home_page_loaded_or_failed :
  forall (BACKEND_URL : jsstring) (h : Host) (now : Z) (n : Routes.Net),
    (forall list stats,
        Routes.answer n (Routes.Get (BACKEND_URL ++ js "/api/tasks"))
        = Routes.Resolve (Routes.TaskListData list) ->
        Routes.answer n (Routes.Get (BACKEND_URL ++ js "/api/tasks/statistics"))
        = Routes.Resolve stats ->
        fst (Routes.get_home BACKEND_URL h now n)
        = inl (Routes.mkReply 200
                 (Routes.HomeView
                    {| Routes.error := None;
                       Routes.tasks := Server.formatTasksWithDates h now list;
                       Routes.statistics := Some stats;
                       Routes.example :=
                         match Routes.answer n
                                 (Routes.Get (BACKEND_URL ++ js "/get-example-case"))
                         with
                         | Routes.Resolve d => Some d
                         | Routes.Reject _ => None
                         end;
                       Routes.currentFilter := js "all";
                       Routes.searchTerm := None |})))
    /\ ((forall list,
            Routes.answer n (Routes.Get (BACKEND_URL ++ js "/api/tasks"))
            <> Routes.Resolve (Routes.TaskListData list))
        \/ (exists st,
               Routes.answer n
                 (Routes.Get (BACKEND_URL ++ js "/api/tasks/statistics"))
               = Routes.Reject st) ->
        fst (Routes.get_home BACKEND_URL h now n)
        = inl (Routes.mkReply 200
                 (Routes.HomeView
                    {| Routes.error :=
                         Some (js "Failed to load tasks. Please try again later.");
                       Routes.tasks := [];
                       Routes.statistics := None;
                       Routes.example := None;
                       Routes.currentFilter := js "all";
                       Routes.searchTerm := None |}))).
Proof.
  intros url h now n. split.
  - intros list stats Et Es.
    rewrite (get_home_loaded url h now n list stats Et Es). reflexivity.
  - intros F. rewrite (get_home_failed url h now n F). reflexivity.
Qed.

Lemma home_page_loaded_or_failed_witness :
  fst (Routes.get_home (js "http://localhost:8080") sample_host sample_now
         (Routes.mkNet
            (fun r =>
               match r with
               | Routes.Get url =>
                   if jsstring_eqb url (js "http://localhost:8080/api/tasks")
                   then Routes.Resolve (Routes.TaskListData [])
                   else Routes.Reject (Some 500)
               | _ => Routes.Reject None
               end) []))
  = inl (Routes.mkReply 200
           (Routes.HomeView
              {| Routes.error :=
                   Some (js "Failed to load tasks. Please try again later.");
                 Routes.tasks := [];
                 Routes.statistics := None;
                 Routes.example := None;
                 Routes.currentFilter := js "all";
                 Routes.searchTerm := None |})).
Proof.
  apply (proj2 (home_page_loaded_or_failed (js "http://localhost:8080") sample_host
                  sample_now
                  (Routes.mkNet
                     (fun r =>
                        match r with
                        | Routes.Get url =>
                            if jsstring_eqb url (js "http://localhost:8080/api/tasks")
                            then Routes.Resolve (Routes.TaskListData [])
                            else Routes.Reject (Some 500)
                        | _ => Routes.Reject None
                        end) []))).
  right. exists (Some 500). vm_compute. reflexivity.
Defined.

(** X14.  The home page always asks for the task list and the statistics,
    in that order and both before it looks at either answer; it asks for
    the example case after them exactly when neither of the two was
    rejected. *)
Theorem home_page_requests :
  forall (BACKEND_URL : jsstring) (h : Host) (now : Z) (n : Routes.Net),
    Routes.issued (snd (Routes.get_home BACKEND_URL h now n))
    = Routes.issued n
      ++ [Routes.Get (BACKEND_URL ++ js "/api/tasks");
          Routes.Get (BACKEND_URL ++ js "/api/tasks/statistics")]
      ++ match Routes.answer n (Routes.Get (BACKEND_URL ++ js "/api/tasks")),
               Routes.answer n
                 (Routes.Get (BACKEND_URL ++ js "/api/tasks/statistics")) with
         | Routes.Resolve _, Routes.Resolve _ =>
             [Routes.Get (BACKEND_URL ++ js "/get-example-case")]
         | _, _ => []
         end.
Proof.
  intros url h now n.
  unfold Routes.get_home. unfold Routes.try_catch at 1.
  rewrite axios_all_run.
  destruct n as [ans log]. cbn [Routes.answer Routes.issued] in *.
  destruct (ans (Routes.Get (url ++ js "/api/tasks")))
    as [[list | t | s | j] | st];
    destruct (ans (Routes.Get (url ++ js "/api/tasks/statistics")))
      as [stats | st']; run_eff;
    try (destruct (ans (Routes.Get (url ++ js "/get-example-case"))));
    cbn [Routes.issued snd]; rewrite <- ?app_assoc; reflexivity.
Qed.


(** X16.  The search route redirects to the list exactly when the query
    parameter is missing or empty, and then it asks the backend
    nothing. *)
Theorem search_redirects_iff_no_query :
  forall (BACKEND_URL : jsstring) (h : Host) (now : Z) (n : Routes.Net)
         (q : option jsstring),
    (fst (Routes.get_tasks_search BACKEND_URL h now q n)
     = inl (Routes.redirect (js "/"))
     <-> q = None \/ q = Some [])
    /\ (q = None \/ q = Some [] ->
        snd (Routes.get_tasks_search BACKEND_URL h now q n) = n).
Proof.
  intros url h now n q. split; [ split | ].
  - intros R. destruct q as [[ | c query] | ]; auto.
    rewrite get_tasks_search_run in R by discriminate.
    destruct (URI.encodeURIComponent (c :: query)); discriminate R.
  - intros B. rewrite get_tasks_search_blank by exact B. reflexivity.
  - intros B. rewrite get_tasks_search_blank by exact B. reflexivity.
Qed.

(** X17.  A search term reaches the backend escaped: the route asks for
    [/api/tasks/search?query=] followed by the encoded term, in which no
    character can end or split the parameter (no ampersand, equals sign,
    hash, question mark, slash, plus or space), and then for the
    statistics.  The page it renders is [home] with filter [search] and
    the term as it was typed, whether the search worked or not. *)
Theorem search_term_is_escaped :
  forall (BACKEND_URL : jsstring) (h : Host) (now : Z) (n : Routes.Net)
         (query encoded : jsstring),
    query <> [] ->
    URI.encodeURIComponent query = Some encoded ->
    exists locals,
      Routes.get_tasks_search BACKEND_URL h now (Some query) n
      = (inl (Routes.mkReply 200 (Routes.HomeView locals)),
         Routes.mkNet (Routes.answer n)
           (Routes.issued n
            ++ [Routes.Get (BACKEND_URL ++ js "/api/tasks/search?query="
                                        ++ encoded);
                Routes.Get (BACKEND_URL ++ js "/api/tasks/statistics")]))
      /\ Routes.currentFilter locals = js "search"
      /\ Routes.searchTerm locals = Some query
      /\ Forall (fun c => c <> ch "&" /\ c <> ch "=" /\ c <> ch "#"
                          /\ c <> ch "?" /\ c <> ch "/" /\ c <> ch "+"
                          /\ c <> ch " ") encoded.
Proof.
  intros url h now n query encoded N E.
  rewrite get_tasks_search_run, E by exact N.
  eexists. split; [ reflexivity | ].
  split; [ | split ].
  - destruct (Routes.answer n (Routes.Get (url ++ js "/api/tasks/search?query=" ++ encoded)))
      as [[list | t | s | j] | st];
      destruct (Routes.answer n (Routes.Get (url ++ js "/api/tasks/statistics")))
        as [stats | st']; reflexivity.
  - destruct (Routes.answer n (Routes.Get (url ++ js "/api/tasks/search?query=" ++ encoded)))
      as [[list | t | s | j] | st];
      destruct (Routes.answer n (Routes.Get (url ++ js "/api/tasks/statistics")))
        as [stats | st']; reflexivity.
  - eapply Forall_impl; [ | apply (encodeURIComponent_safe query encoded E) ].
    intros c S. apply uri_safe_not_reserved, S.
Qed.

Lemma search_term_is_escaped_witness :
  exists locals,
    Routes.get_tasks_search (js "http://localhost:8080") sample_host sample_now
      (Some (js "a&b=c d"))
      (Routes.mkNet (fun _ => Routes.Reject (Some 500)) [])
    = (inl (Routes.mkReply 200 (Routes.HomeView locals)),
       Routes.mkNet (fun _ => Routes.Reject (Some 500))
         [Routes.Get (js "http://localhost:8080/api/tasks/search?query=a%26b%3Dc%20d");
          Routes.Get (js "http://localhost:8080/api/tasks/statistics")])
    /\ Routes.searchTerm locals = Some (js "a&b=c d").
Proof.
  destruct (search_term_is_escaped (js "http://localhost:8080") sample_host
              sample_now (Routes.mkNet (fun _ => Routes.Reject (Some 500)) [])
              (js "a&b=c d") (js "a%26b%3Dc%20d")
              ltac:(discriminate) eq_refl)
    as (locals & R & _ & T & _).
  exists locals. split; [ exact R | exact T ].
Defined.

(** X18.  A search term that cannot be encoded (it holds half of a
    surrogate pair) never reaches the backend: the route renders the
    search failure on [home], echoing the term, without a single
    request. *)
Theorem search_term_unencodable :
  forall (BACKEND_URL : jsstring) (h : Host) (now : Z) (n : Routes.Net)
         (query : jsstring),
    URI.encodeURIComponent query = None ->
    Routes.get_tasks_search BACKEND_URL h now (Some query) n
    = (inl (Routes.render_home
              (Routes.failed_home (js "Search failed. Please try again.")
                 (js "search") (Some query))), n).
Proof.
  intros url h now n query E.
  assert (N : query <> []) by (intros ->; discriminate E).
  rewrite get_tasks_search_run, E by exact N. reflexivity.
Qed.

Lemma search_term_unencodable_witness :
  Routes.get_tasks_search (js "http://localhost:8080") sample_host sample_now
    (Some (js "ab" ++ [55357%N]))
    (Routes.mkNet (fun _ => Routes.Reject None) [])
  = (inl (Routes.render_home
            (Routes.failed_home (js "Search failed. Please try again.")
               (js "search") (Some (js "ab" ++ [55357%N])))),
     Routes.mkNet (fun _ => Routes.Reject None) []).
Proof.
  apply (search_term_unencodable (js "http://localhost:8080") sample_host
           sample_now (Routes.mkNet (fun _ => Routes.Reject None) [])
           (js "ab" ++ [55357%N])).
  reflexivity.
Defined.

(** X19.  [encodeURIComponent] changes nothing in a term made of letters,
    digits and the marks it leaves alone, and it encodes every term that
    holds no surrogate code unit. *)
Theorem plain_search_terms_pass_unchanged :
  forall query : jsstring,
    (Forall (fun c => URI.isUnescaped c = true) query ->
     URI.encodeURIComponent query = Some query)
    /\ (Forall (fun c => URI.isHighSurrogate c = false
                         /\ URI.isLowSurrogate c = false) query ->
        exists encoded, URI.encodeURIComponent query = Some encoded).
Proof.
  intros query. split.
  - apply encodeURIComponent_unescaped.
  - apply encodeURIComponent_no_surrogate.
Qed.

Lemma plain_search_terms_pass_unchanged_witness :
  URI.encodeURIComponent (js "rent-2026") = Some (js "rent-2026").
Proof.
  apply (proj1 (plain_search_terms_pass_unchanged (js "rent-2026"))).
  repeat (apply Forall_cons; [ reflexivity | ]). apply Forall_nil.
Defined.

(* ================================================================== *)
(** ** Properties of the routes on one task *)
(* ================================================================== *)

(** X20.  The task page and the edit form both fetch the task once and
    always answer, and they answer 404 exactly when the backend answered
    404 to that fetch; every other answer is a 200. *)
Theorem task_pages_not_found_iff :
  forall (BACKEND_URL : jsstring) (h : Host) (view message : jsstring)
         (req : Server.Request) (w : Server.World),
    exists r,
      fst (Routes.load_task BACKEND_URL h view message req w) = inl r
      /\ Server.calls (snd (Routes.load_task BACKEND_URL h view message req w))
         = Server.calls w
           ++ [Server.GET (BACKEND_URL ++ js "/api/tasks/"
                                       ++ Server.params_id req)]
      /\ (Routes.statusCode r = 404 \/ Routes.statusCode r = 200)
      /\ (Routes.statusCode r = 404
          <-> exists dt rest,
                Server.backend w = Server.Rejected dt (Some 404) :: rest).
Proof.
  intros url h view message req w. rewrite load_task_run.
  destruct (Server.backend w) as [ | [dt data | dt [st | ]] rest];
    try (eexists; split; [ reflexivity | ]; split; [ reflexivity | ];
         split; [ right; reflexivity | ];
         split; [ intros F; discriminate F
                | intros (dt' & rest' & F); discriminate F ]).
  destruct (Z.eq_dec st 404) as [-> | N].
  - eexists. split; [ reflexivity | ]. split; [ reflexivity | ].
    split; [ left; reflexivity | ].
    split; [ intros _; eauto | reflexivity ].
  - assert (E : Routes.load_failed message (Server.AxiosError (Some st))
                = Routes.render (js "error")
                    (Server.mkLocals None None None None (Some message) None)).
    { unfold Routes.load_failed.
      destruct st as [ | p | p]; try reflexivity.
      do 9 (destruct p as [p | p | ]; try reflexivity).
      exfalso. apply N. reflexivity. }
    eexists. split; [ reflexivity | ]. split; [ reflexivity | ].
    cbn [fst]. rewrite E.
    split; [ right; reflexivity | ].
    split; [ intros F; discriminate F
           | intros (dt' & rest' & F); congruence ].
Qed.

(** X21.  When the backend returns the task, the task page renders
    [tasks/view] and the edit form [tasks/edit], each with the task as
    [formatSingleTask] prepares it at the time the answer arrives and with
    the CSRF token.  When the fetch fails for another reason than a 404,
    each renders [error] with its own message and nothing else. *)
Theorem task_pages_show_the_task :
  forall (BACKEND_URL : jsstring) (h : Host) (req : Server.Request)
         (w : Server.World),
    (forall dt data rest,
        Server.backend w = Server.Resolved dt data :: rest ->
        let locals :=
          Server.mkLocals
            (Some (Server.formatSingleTask h (Server.clock w + dt) data))
            None None None None (Some (Server.csrf req)) in
        fst (Routes.get_task BACKEND_URL h req w)
        = inl (Routes.render (js "tasks/view") locals)
        /\ fst (Routes.get_task_edit BACKEND_URL h req w)
           = inl (Routes.render (js "tasks/edit") locals))
    /\ (forall dt st rest,
           Server.backend w = Server.Rejected dt st :: rest ->
           st <> Some 404 ->
           fst (Routes.get_task BACKEND_URL h req w)
           = inl (Routes.render (js "error")
                    (Server.mkLocals None None None None
                       (Some (js "Failed to load task details")) None))
           /\ fst (Routes.get_task_edit BACKEND_URL h req w)
              = inl (Routes.render (js "error")
                       (Server.mkLocals None None None None
                          (Some (js "Failed to load task for editing")) None))).
Proof.
  intros url h req w. split.
  - intros dt data rest B locals. unfold Routes.get_task, Routes.get_task_edit.
    rewrite !load_task_run, B. split; reflexivity.
  - intros dt st rest B N. unfold Routes.get_task, Routes.get_task_edit.
    rewrite !load_task_run, B. cbn [fst].
    assert (E : forall message,
               Routes.load_failed message (Server.AxiosError st)
               = Routes.render (js "error")
                   (Server.mkLocals None None None None (Some message) None)).
    { intros message. unfold Routes.load_failed.
      destruct st as [[ | p | p] | ]; try reflexivity.
      do 9 (destruct p as [p | p | ]; try reflexivity).
      exfalso. apply N. reflexivity. }
    rewrite !E. split; reflexivity.
Qed.

Lemma task_pages_show_the_task_witness :
  fst (Routes.get_task (js "http://localhost:8080") sample_host
         (Server.mkRequest (js "7") (Server.mkTaskFormData None None None None None None)
            None)
         (Server.mkWorld sample_now [Server.Rejected 5 (Some 500)] []))
  = inl (Routes.render (js "error")
           (Server.mkLocals None None None None
              (Some (js "Failed to load task details")) None)).
Proof.
  apply (proj2 (task_pages_show_the_task (js "http://localhost:8080") sample_host
         (Server.mkRequest (js "7") (Server.mkTaskFormData None None None None None None)
            None)
         (Server.mkWorld sample_now [Server.Rejected 5 (Some 500)] []))
         5 (Some 500) [] eq_refl ltac:(discriminate)).
Defined.

(** X22.  The status quick action always redirects back to the task,
    whether the backend took the change or refused it, after exactly one
    PATCH that carries the status as it was submitted. *)
Theorem status_action_always_redirects :
  forall (BACKEND_URL : jsstring) (n : Routes.Net) (id : jsstring)
         (status : option jsstring),
    Routes.post_tasks_status BACKEND_URL id status n
    = (inl (Routes.mkReply 302 (Routes.Location (js "/tasks/" ++ id))),
       Routes.mkNet (Routes.answer n)
         (Routes.issued n
          ++ [Routes.Patch (BACKEND_URL ++ js "/api/tasks/" ++ id ++ js "/status")
                status])).
Proof. intros. apply post_tasks_status_run. Qed.

(** X23.  Deleting a task sends exactly one DELETE, and the redirect tells
    the outcome: to the list exactly when the backend accepted it, back to
    the task when it refused. *)
Theorem delete_redirect_tells_outcome :
  forall (BACKEND_URL : jsstring) (n : Routes.Net) (id : jsstring),
    exists url,
      Routes.post_tasks_delete BACKEND_URL id n
      = (inl (Routes.mkReply 302 (Routes.Location url)),
         Routes.mkNet (Routes.answer n)
           (Routes.issued n
            ++ [Routes.Delete (BACKEND_URL ++ js "/api/tasks/" ++ id)]))
      /\ (url = js "/"
          <-> exists d,
                Routes.answer n
                  (Routes.Delete (BACKEND_URL ++ js "/api/tasks/" ++ id))
                = Routes.Resolve d)
      /\ (url = js "/tasks/" ++ id
          <-> exists st,
                Routes.answer n
                  (Routes.Delete (BACKEND_URL ++ js "/api/tasks/" ++ id))
                = Routes.Reject st).
Proof.
  intros url n id. rewrite post_tasks_delete_run.
  eexists. split; [ reflexivity | ].
  destruct (Routes.answer n _) as [d | st].
  - split; split; eauto.
    + intros F. discriminate F.
    + intros (st & F). discriminate F.
  - split; split; eauto.
    + intros F. discriminate F.
    + intros (d & F). discriminate F.
Qed.

(** X24.  The search box and the search route agree on what to let
    through, up to white space: a term the browser check lets through is
    never empty, so the server searches for it instead of redirecting; a
    term of white space only is stopped in the browser, although the
    server on its own would search for it. *)
Theorem search_form_check_covers_route :
  forall (BACKEND_URL : jsstring) (h : Host) (now : Z) (n : Routes.Net)
         (value : jsstring),
    (Page.search_prevented (Some value) = false ->
     fst (Routes.get_tasks_search BACKEND_URL h now (Some value) n)
     <> inl (Routes.redirect (js "/")))
    /\ (whitespace_only value ->
        Page.search_prevented (Some value) = true
        /\ fst (Routes.get_tasks_search BACKEND_URL h now (Some value) n)
           <> inl (Routes.redirect (js "/"))).
Proof.
  intros url h now n value.
  assert (R : value <> [] ->
              fst (Routes.get_tasks_search url h now (Some value) n)
              <> inl (Routes.redirect (js "/"))).
  { intros N. rewrite get_tasks_search_run by exact N.
    destruct (URI.encodeURIComponent value); discriminate. }
  split.
  - intros P. apply R. intros ->. discriminate P.
  - intros W. destruct W as [N T]. split; [ | apply R ].
    + unfold Page.search_prevented. rewrite T. reflexivity.
    + exact N.
Qed.

Lemma search_form_check_covers_route_witness :
  Page.search_prevented (Some (js "  ")) = true
  /\ fst (Routes.get_tasks_search (js "http://localhost:8080") sample_host
            sample_now (Some (js "  "))
            (Routes.mkNet (fun _ => Routes.Reject None) []))
     <> inl (Routes.redirect (js "/")).
Proof.
  apply (proj2 (search_form_check_covers_route (js "http://localhost:8080")
                  sample_host sample_now
                  (Routes.mkNet (fun _ => Routes.Reject None) []) (js "  "))).
  split; [ discriminate | reflexivity ].
Defined.

(* ================================================================== *)
(** ** The edit form, prefilled and sent back *)
(* ================================================================== *)

(** The three date parts of the view of a task whose due date parses. *)
Lemma parts_of_parsed h now task s tv :
  Server.task_dueDate task = Some s ->
  Date_parse (LocalTZA h) s = Some tv ->
  let view := Server.formatSingleTask h now task in
  let lt := LocalTime (LocalTZA h) tv in
  Server.dueDateDay view = padStart0 2 (Number_toString (DateFromTime lt))
  /\ Server.dueDateMonth view
     = padStart0 2 (Number_toString (MonthFromTime lt + 1))
  /\ Server.dueDateYear view = Number_toString (YearFromTime lt).
Proof.
  intros Due P. cbv zeta.
  assert (N : truthy s = true).
  { destruct s; [ rewrite Date_parse_nil in P; discriminate P | reflexivity ]. }
  repeat split.
  all: unfold Server.formatSingleTask; rewrite Due;
       cbn [Server.dueDateDay Server.dueDateMonth Server.dueDateYear];
       rewrite N; unfold Date_of_string; rewrite P.
  - rewrite getDate_some. reflexivity.
  - rewrite getMonth_some. reflexivity.
  - rewrite getFullYear_some. reflexivity.
Qed.

(** The three date parts of the view of a task whose due date does not
    parse. *)
Lemma parts_of_unparsed h now task s :
  Server.task_dueDate task = Some s ->
  s <> [] ->
  Date_parse (LocalTZA h) s = NaN ->
  let view := Server.formatSingleTask h now task in
  Server.dueDateDay view = js "NaN"
  /\ Server.dueDateMonth view = js "NaN"
  /\ Server.dueDateYear view = js "NaN"
  /\ Server.isOverdue view = false.
Proof.
  intros Due N P. cbv zeta.
  assert (T : truthy s = true) by (destruct s; [ congruence | reflexivity ]).
  repeat split.
  all: unfold Server.formatSingleTask; rewrite Due;
       cbn [Server.dueDateDay Server.dueDateMonth Server.dueDateYear
            Server.isOverdue];
       rewrite T; unfold Date_of_string; rewrite P; reflexivity.
Qed.

(** X25.  A task without a due date ([null] or the empty string) is shown
    with no formatted date, not overdue, and with three empty date parts;
    a form sent back with those parts passes the due-date check and keeps
    the task without a due date. *)
Theorem blank_due_date_round_trip :
  forall (h : Host) (now now' : Z) (task : Server.Task)
         (body : Server.TaskFormData) (errors : list FieldError),
    Server.task_dueDate task = None \/ Server.task_dueDate task = Some [] ->
    let view := Server.formatSingleTask h now' task in
    Server.due_date_day body = Some (Server.dueDateDay view) ->
    Server.due_date_month body = Some (Server.dueDateMonth view) ->
    Server.due_date_year body = Some (Server.dueDateYear view) ->
    Server.formattedDueDate view = None
    /\ Server.isOverdue view = false
    /\ Server.dueDateDay view = []
    /\ Server.dueDateMonth view = []
    /\ Server.dueDateYear view = []
    /\ Server.check_due_date h now body errors = Some (errors, None).
Proof.
  intros h now now' task body errors Due view Bd Bm By.
  assert (V : Server.formattedDueDate view = None
              /\ Server.isOverdue view = false
              /\ Server.dueDateDay view = []
              /\ Server.dueDateMonth view = []
              /\ Server.dueDateYear view = []).
  { unfold view, Server.formatSingleTask.
    destruct Due as [-> | ->]; repeat split. }
  destruct V as (V1 & V2 & V3 & V4 & V5).
  repeat (split; [ assumption | ]).
  apply server_absent; unfold is_empty; [ rewrite Bd, V3 | rewrite Bm, V4 | rewrite By, V5 ];
    reflexivity.
Qed.

Lemma blank_due_date_round_trip_witness :
  Server.check_due_date sample_host sample_now
    (Server.mkTaskFormData (Some (js "Pay rent")) (Some (js "Monthly payment"))
       (Some (js "TODO")) (Some []) (Some []) (Some []))
    []
  = Some ([], None).
Proof.
  apply (blank_due_date_round_trip sample_host sample_now sample_now
           (Server.mkTask 1 (js "Pay rent") (js "Monthly payment") (js "TODO")
              None (js "2026-11-02T12:00:00Z") (js "2026-11-02T12:00:00Z"))
           (Server.mkTaskFormData (Some (js "Pay rent")) (Some (js "Monthly payment"))
              (Some (js "TODO")) (Some []) (Some []) (Some []))
           [] (or_introl eq_refl) eq_refl eq_refl eq_refl).
Defined.

(** X26.  A task whose due date is text that does not parse is shown, not
    overdue, with the three date parts reading [NaN]; a form sent back with
    those parts is refused as an invalid date. *)
Theorem unparsable_due_date_prefills_NaN :
  forall (h : Host) (now now' : Z) (task : Server.Task) (s : jsstring)
         (body : Server.TaskFormData) (errors : list FieldError),
    Server.task_dueDate task = Some s ->
    s <> [] ->
    Date_parse (LocalTZA h) s = NaN ->
    let view := Server.formatSingleTask h now' task in
    Server.due_date_day body = Some (Server.dueDateDay view) ->
    Server.due_date_month body = Some (Server.dueDateMonth view) ->
    Server.due_date_year body = Some (Server.dueDateYear view) ->
    Server.isOverdue view = false
    /\ Server.dueDateDay view = js "NaN"
    /\ Server.dueDateMonth view = js "NaN"
    /\ Server.dueDateYear view = js "NaN"
    /\ Server.check_due_date h now body errors
       = Some (push errors Server.date_invalid, None).
Proof.
  intros h now now' task s body errors Due N P view Bd Bm By.
  destruct (parts_of_unparsed h now' task s Due N P) as (Vd & Vm & Vy & Vo).
  fold view in Vd, Vm, Vy, Vo.
  repeat (split; [ assumption | ]).
  rewrite server_complete_cases;
    [ | rewrite ?Bd, ?Bm, ?By, ?Vd, ?Vm, ?Vy; reflexivity .. ].
  rewrite mismatch_outside; [ reflexivity | ].
  right. right. rewrite By, Vy. reflexivity.
Qed.

Lemma unparsable_due_date_prefills_NaN_witness :
  Server.check_due_date sample_host sample_now
    (Server.mkTaskFormData (Some (js "Pay rent")) (Some (js "Monthly payment"))
       (Some (js "TODO")) (Some (js "NaN")) (Some (js "NaN")) (Some (js "NaN")))
    []
  = Some ([Server.date_invalid], None).
Proof.
  apply (unparsable_due_date_prefills_NaN sample_host sample_now sample_now
           (Server.mkTask 1 (js "Pay rent") (js "Monthly payment") (js "TODO")
              (Some (js "soon")) (js "2026-11-02T12:00:00Z")
              (js "2026-11-02T12:00:00Z"))
           (js "soon")
           (Server.mkTaskFormData (Some (js "Pay rent")) (Some (js "Monthly payment"))
              (Some (js "TODO")) (Some (js "NaN")) (Some (js "NaN"))
              (Some (js "NaN")))
           [] eq_refl ltac:(discriminate) eq_refl eq_refl eq_refl eq_refl).
Defined.

(** X27.  Sending the prefilled date parts of the edit form back
    unchanged: when the task's due day is later than today, the check
    accepts it and the new [dueDate] is local midnight of that same day
    (the time of day is dropped); when the due day is today or earlier,
    the form is refused with [Due date must be in the future], so such a
    task cannot be saved without changing its date.  The due date is taken
    to lie in the year 100 or later, a day inside the range of Date, on a
    host whose zone offset is less than a day. *)
Theorem prefilled_due_date_sent_back :
  forall (h : Host) (now now' : Z) (task : Server.Task) (s : jsstring)
         (tv : Z) (body : Server.TaskFormData) (errors : list FieldError),
    Z.abs now <= maxTime - msPerDay ->
    Z.abs (LocalTZA h) <= msPerDay ->
    Server.task_dueDate task = Some s ->
    Date_parse (LocalTZA h) s = Some tv ->
    Z.abs tv <= maxTime - msPerDay ->
    100 <= YearFromTime (LocalTime (LocalTZA h) tv) ->
    let view := Server.formatSingleTask h now' task in
    Server.due_date_day body = Some (Server.dueDateDay view) ->
    Server.due_date_month body = Some (Server.dueDateMonth view) ->
    Server.due_date_year body = Some (Server.dueDateYear view) ->
    Server.check_due_date h now body errors
    = if Day (LocalTime (LocalTZA h) now) <? Day (LocalTime (LocalTZA h) tv)
      then Some (errors,
                 Some (ISOString (Day (LocalTime (LocalTZA h) tv) * msPerDay
                                  - LocalTZA h)))
      else Some (push errors Server.date_not_future, None).
Proof.
  intros h now now' task s tv body errors Cn Cz Due P Ct Y view Bd Bm By.
  destruct (parts_of_parsed h now' task s tv Due P) as (Vd & Vm & Vy).
  cbv zeta in Vd, Vm, Vy. fold view in Vd, Vm, Vy.
  assert (Pos : 0 < msPerDay) by reflexivity.
  assert (Cl : Z.abs (LocalTime (LocalTZA h) tv) <= maxTime)
    by (unfold LocalTime; lia).
  pose proof (YearFromTime_clip _ Cl) as Ybound.
  pose proof (MonthFromTime_range (LocalTime (LocalTZA h) tv)) as Mr.
  pose proof (DateFromTime_range (LocalTime (LocalTZA h) tv)) as Dr.
  destruct (parseInt_padded (DateFromTime (LocalTime (LocalTZA h) tv)) ltac:(lia))
    as [Pd _].
  destruct (parseInt_padded (MonthFromTime (LocalTime (LocalTZA h) tv) + 1) ltac:(lia))
    as [Pm _].
  pose proof (parseInt_toString (YearFromTime (LocalTime (LocalTZA h) tv)) ltac:(lia))
    as Py.
  rewrite <- Vd in Pd. rewrite <- Vm in Pm. rewrite <- Vy in Py.
  assert (Ed : Server.parseInt_opt (Server.due_date_day body)
               = Some (DateFromTime (LocalTime (LocalTZA h) tv)))
    by (rewrite Bd; exact Pd).
  assert (Em : Server.parseInt_opt (Server.due_date_month body)
               = Some (MonthFromTime (LocalTime (LocalTZA h) tv) + 1))
    by (rewrite Bm; exact Pm).
  assert (Ey : Server.parseInt_opt (Server.due_date_year body)
               = Some (YearFromTime (LocalTime (LocalTZA h) tv)))
    by (rewrite By; exact Py).
  rewrite server_complete_cases;
    [ | rewrite ?Bd, ?Bm, ?By; unfold truthy_opt;
        eapply parseInt_some_truthy; eassumption .. ].
  pose proof (Day_bounds (LocalTime (LocalTZA h) tv)) as Db.
  destruct (denotes_dateObj (LocalTZA h) tv _ _ _ (conj Ed (conj Em Ey)))
    as [Eo Mi]; [ lia | unfold LocalTime in *; lia | ].
  rewrite Mi, Eo, (today_of_value _ _ Cn).
  unfold date_le, num_le, toISOString, option_map.
  destruct (Z.leb_spec (Day (LocalTime (LocalTZA h) tv) * msPerDay - LocalTZA h)
              (Day (LocalTime (LocalTZA h) now) * msPerDay - LocalTZA h));
    destruct (Z.ltb_spec (Day (LocalTime (LocalTZA h) now))
                (Day (LocalTime (LocalTZA h) tv))); try reflexivity; exfalso; nia.
Qed.

Lemma prefilled_due_date_sent_back_witness :
  Server.check_due_date sample_host sample_now
    (Server.mkTaskFormData (Some (js "Pay rent")) (Some (js "Monthly payment"))
       (Some (js "TODO")) (Some (js "24")) (Some (js "12")) (Some (js "2026")))
    []
  = Some ([], Some (js "2026-12-23T23:00:00.000Z")).
Proof.
  apply (prefilled_due_date_sent_back sample_host sample_now sample_now
           (Server.mkTask 1 (js "Pay rent") (js "Monthly payment") (js "TODO")
              (Some (js "2026-12-24T17:30:00.000Z")) (js "2026-11-02T12:00:00Z")
              (js "2026-11-02T12:00:00Z"))
           (js "2026-12-24T17:30:00.000Z") 1798133400000
           (Server.mkTaskFormData (Some (js "Pay rent")) (Some (js "Monthly payment"))
              (Some (js "TODO")) (Some (js "24")) (Some (js "12"))
              (Some (js "2026")))
           []).
  - vm_compute. discriminate.
  - vm_compute. discriminate.
  - reflexivity.
  - vm_compute. reflexivity.
  - vm_compute. discriminate.
  - vm_compute. discriminate.
  - vm_compute. reflexivity.
  - vm_compute. reflexivity.
  - vm_compute. reflexivity.
Defined.

(* ================================================================== *)
(** ** The list helper *)
(* ================================================================== *)

(** X28.  The list helper keeps every task, in order and with its own
    fields untouched, and gives each the formatted due date that the
    detail helper gives it: none when the task has no due date. *)
Theorem list_helper_keeps_tasks :
  forall (h : Host) (now : Z) (tasks : list Server.Task),
    List.map Server.listed_task (Server.formatTasksWithDates h now tasks) = tasks
    /\ List.map Server.listed_formattedDueDate
         (Server.formatTasksWithDates h now tasks)
       = List.map (fun task =>
                     Server.formattedDueDate (Server.formatSingleTask h now task))
           tasks
    /\ Forall (fun l =>
                 Server.listed_formattedDueDate l = None
                 <-> (Server.task_dueDate (Server.listed_task l) = None
                      \/ Server.task_dueDate (Server.listed_task l) = Some []))
         (Server.formatTasksWithDates h now tasks).
Proof.
  intros h now tasks. unfold Server.formatTasksWithDates. split; [ | split ].
  - rewrite map_map. cbn [Server.listed_task]. apply map_id.
  - rewrite map_map. apply map_ext. intros task.
    cbn [Server.listed_formattedDueDate]. unfold Server.formatSingleTask.
    cbn [Server.formattedDueDate].
    destruct (Server.task_dueDate task) as [[ | c s] | ]; reflexivity.
  - apply Forall_map, Forall_forall. intros task _.
    cbn [Server.listed_formattedDueDate Server.listed_task].
    destruct (Server.task_dueDate task) as [[ | c s] | ]; cbn [truthy];
      split; auto; try discriminate.
    intros [F | F]; discriminate F.
Qed.

(** X29.  Time only moves a task into being overdue: a task that is
    flagged overdue stays flagged at every later instant, in the list and
    on its own page, as long as the task itself does not change. *)
Theorem overdue_stays_overdue :
  forall (h : Host) (now later : Z) (task : Server.Task),
    now <= later ->
    Server.isOverdue (Server.formatSingleTask h now task) = true ->
    Server.isOverdue (Server.formatSingleTask h later task) = true
    /\ List.map Server.listed_isOverdue
         (Server.formatTasksWithDates h later [task]) = [true].
Proof.
  intros h now later task L O.
  assert (S : Server.isOverdue (Server.formatSingleTask h later task) = true).
  { revert O. unfold Server.formatSingleTask. cbn [Server.isOverdue].
    destruct (Server.task_dueDate task) as [s | ]; [ | discriminate ].
    destruct (truthy s); [ | discriminate ].
    rewrite !overdue_true. intros (t & E & Lt & N). exists t. repeat split; auto. lia. }
  split; [ exact S | ].
  revert S. unfold Server.formatTasksWithDates, Server.formatSingleTask.
  cbn [List.map Server.listed_isOverdue Server.isOverdue].
  destruct (Server.task_dueDate task) as [s | ]; [ | discriminate ].
  destruct (truthy s); [ | discriminate ].
  intros ->. reflexivity.
Qed.

Lemma overdue_stays_overdue_witness :
  Server.isOverdue
    (Server.formatSingleTask sample_host (sample_now + 1)
       (Server.mkTask 1 (js "Pay rent") (js "Monthly payment") (js "CANCELLED")
          (Some (js "2026-10-01T00:00:00.000Z")) (js "2026-09-02T12:00:00Z")
          (js "2026-09-02T12:00:00Z")))
  = true.
Proof.
  apply (proj1 (overdue_stays_overdue sample_host sample_now (sample_now + 1)
          (Server.mkTask 1 (js "Pay rent") (js "Monthly payment") (js "CANCELLED")
             (Some (js "2026-10-01T00:00:00.000Z")) (js "2026-09-02T12:00:00Z")
             (js "2026-09-02T12:00:00Z"))
          ltac:(vm_compute; discriminate) ltac:(vm_compute; reflexivity))).
Defined.
